(** * ClawPhD diagram tools: a shallow embedding of the PaperBanana tools,
    the AutoPage path/JSON helpers, the reference store and the tool
    registry contract.

    Python strings are modelled as Stdlib [string] (ASCII characters),
    Python exceptions as values of [exc], and a Python computation that may
    raise as a value of [py A]. *)

From Stdlib Require Import String Ascii List ZArith QArith Bool Lia.
From Stdlib Require Import PrimFloat Sorted Permutation DecimalNat.
From Stdlib Require FloatOps SpecFloat.
Import ListNotations.
Open Scope nat_scope.
Open Scope string_scope.

(* ------------------------------------------------------------------ *)
(** ** Python core: exceptions and the result of a call *)

(** A raised Python exception: [PyExc] for subclasses of [Exception],
    [PyBaseExc] for those deriving only from [BaseException]
    ([KeyboardInterrupt], [SystemExit], [asyncio.CancelledError]). *)
Inductive exc : Type :=
| PyExc (cls : string) (msg : string)
| PyBaseExc (cls : string) (msg : string).

(** [str(e)] *)
Definition exc_str (e : exc) : string :=
  match e with PyExc _ m => m | PyBaseExc _ m => m end.

Definition exc_cls (e : exc) : string :=
  match e with PyExc c _ => c | PyBaseExc c _ => c end.

(** Outcome of a Python call: a returned value or a raised exception. *)
Inductive py (A : Type) : Type :=
| Ret (a : A)
| Raise (e : exc).
Arguments Ret {A} a.
Arguments Raise {A} e.

Definition py_bind {A B} (m : py A) (f : A -> py B) : py B :=
  match m with Ret a => f a | Raise e => Raise e end.

Notation "x <- m ;; k" := (py_bind m (fun x => k))
  (at level 61, m at next level, right associativity).

Definition ValueError (m : string) : exc := PyExc "ValueError" m.
Definition TypeError (m : string) : exc := PyExc "TypeError" m.
Definition AttributeError (m : string) : exc := PyExc "AttributeError" m.
Definition KeyError (m : string) : exc := PyExc "KeyError" m.

(* ------------------------------------------------------------------ *)
(** ** Python [str] operations *)

Module PyStr.

(** [s.startswith(p)] *)
Definition startswith (s p : string) : bool := String.prefix p s.

Fixpoint find_rec (sub s : string) (i : nat) : option nat :=
  if String.prefix sub s then Some i
  else match s with
       | EmptyString => None
       | String _ s' => find_rec sub s' (S i)
       end.

(** [s.find(sub, start)], with [None] for [-1]. *)
Definition find (s sub : string) (start : nat) : option nat :=
  if Nat.ltb (String.length s) start then None
  else find_rec sub (substring start (String.length s - start) s) start.

(** [sub in s] *)
Definition contains (s sub : string) : bool :=
  match find s sub 0 with Some _ => true | None => false end.

(** [s.index(sub, start)]: raises [ValueError] when [find] gives [-1]. *)
Definition index (s sub : string) (start : nat) : py nat :=
  match find s sub start with
  | Some i => Ret i
  | None => Raise (ValueError "substring not found")
  end.

(** [s[i:j]] for [0 <= i] and [0 <= j]. *)
Definition slice (s : string) (i j : nat) : string := substring i (j - i) s.

(** Characters for which [str.isspace()] holds, in the ASCII range. *)
Definition is_space (c : ascii) : bool :=
  let n := nat_of_ascii c in
  (Nat.leb 9 n && Nat.leb n 13) || (Nat.leb 28 n && Nat.leb n 32).

Fixpoint lstrip_list (l : list ascii) : list ascii :=
  match l with
  | [] => []
  | c :: l' => if is_space c then lstrip_list l' else l
  end.

(** [s.strip()] *)
Definition strip (s : string) : string :=
  string_of_list_ascii
    (rev (lstrip_list (rev (lstrip_list (list_ascii_of_string s))))).

End PyStr.

(* ------------------------------------------------------------------ *)
(** ** Response normalisation ([_extract_python], [_extract_json]) *)

Module Extract.
Import PyStr.

Definition FENCE := "```".
Definition FENCE_PY := "```python".
Definition FENCE_JSON := "```json".

(** [paperbanana._extract_python] *)
Definition extract_python (response : string) : py string :=
  if contains response FENCE_PY then
    i <- index response FENCE_PY 0 ;;
    let start := i + String.length FENCE_PY in
    end_ <- index response FENCE start ;;
    Ret (strip (slice response start end_))
  else if contains response FENCE then
    i <- index response FENCE 0 ;;
    let start := i + 3 in
    end_ <- index response FENCE start ;;
    Ret (strip (slice response start end_))
  else Ret (strip response).

(** [paperbanana._extract_json] *)
Definition extract_json (response0 : string) : py string :=
  let response := strip response0 in
  if contains response FENCE_JSON then
    i <- index response FENCE_JSON 0 ;;
    let start := i + String.length FENCE_JSON in
    end_ <- index response FENCE start ;;
    Ret (strip (slice response start end_))
  else if contains response FENCE then
    i <- index response FENCE 0 ;;
    let start := i + 3 in
    end_ <- index response FENCE start ;;
    Ret (strip (slice response start end_))
  else Ret response.

(** [autopage._extract_json]: the closing fence is looked up with [find],
    and a missing one means "up to the end of the text". *)
Definition autopage_extract_json (response : string) : py string :=
  let text := strip response in
  if contains text FENCE_JSON then
    i <- index text FENCE_JSON 0 ;;
    let start := i + String.length FENCE_JSON in
    let end_ := find text FENCE start in
    Ret (strip (slice text start
                  (match end_ with Some e => e | None => String.length text end)))
  else if contains text FENCE then
    i <- index text FENCE 0 ;;
    let start := i + String.length FENCE in
    let end_ := find text FENCE start in
    Ret (strip (slice text start
                  (match end_ with Some e => e | None => String.length text end)))
  else Ret text.

End Extract.

Definition nl : string := String (ascii_of_nat 10) EmptyString.

(* ------------------------------------------------------------------ *)
(** ** JSON documents read from the data files *)

Module Json.

#[local] Set Warnings "-register-all".

(** A decoded JSON document of the reference index or of [tags.json].
    Numbers are kept as rationals; objects keep their members in source
    order (duplicates included). *)
Inductive json : Type :=
| JNull
| JBool (b : bool)
| JNum (q : Q)
| JStr (s : string)
| JArr (l : list json)
| JObj (d : list (string * json)).

(** Python truthiness of the decoded value. *)
Definition truthy (v : json) : bool :=
  match v with
  | JNull => false
  | JBool b => b
  | JNum q => negb (Qeq_bool q 0)
  | JStr s => negb (String.eqb s "")
  | JArr l => negb (Nat.eqb (List.length l) 0)
  | JObj d => negb (Nat.eqb (List.length d) 0)
  end.

(** [d.get(k)] on the dict built by [json.loads]: the last duplicate wins. *)
Definition obj_lookup (d : list (string * json)) (k : string) : option json :=
  match List.find (fun kv => String.eqb (fst kv) k) (rev d) with
  | Some (_, v) => Some v
  | None => None
  end.

(** [v.get(k, default)]: [AttributeError] unless [v] is a dict. *)
Definition get (v : json) (k : string) (default : json) : py json :=
  match v with
  | JObj d => Ret (match obj_lookup d k with Some x => x | None => default end)
  | _ => Raise (AttributeError "object has no attribute 'get'")
  end.

(** [v[k]] on a dict. *)
Definition getitem (d : list (string * json)) (k : string) : py json :=
  match obj_lookup d k with
  | Some x => Ret x
  | None => Raise (KeyError k)
  end.

(** [iter(v)]: lists yield their items, strings their characters and
    dicts their keys; other values are not iterable. *)
Definition iter (v : json) : py (list json) :=
  match v with
  | JArr l => Ret l
  | JStr s => Ret (map (fun c => JStr (String c EmptyString)) (list_ascii_of_string s))
  | JObj d => Ret (map (fun kv => JStr (fst kv)) d)
  | _ => Raise (TypeError "object is not iterable")
  end.

(** Whether [hash(v)] succeeds. *)
Definition hashable (v : json) : bool :=
  match v with JArr _ | JObj _ => false | _ => true end.

(** [a == b] between hashable values ([True == 1], [1 == 1.0]). *)
Definition num_of (v : json) : option Q :=
  match v with
  | JBool b => Some (if b then 1 else 0)%Q
  | JNum q => Some q
  | _ => None
  end.

Definition key_eqb (a b : json) : bool :=
  match a, b with
  | JNull, JNull => true
  | JStr s, JStr t => String.eqb s t
  | _, _ =>
      match num_of a, num_of b with
      | Some x, Some y => Qeq_bool x y
      | _, _ => false
      end
  end.

(** *** Characters of the JSON text grammar *)

(** The double-quote character. *)
Definition quote : ascii := ascii_of_nat 34.

Definition is_ws (c : ascii) : bool :=
  let n := nat_of_ascii c in
  Nat.eqb n 32 || Nat.eqb n 9 || Nat.eqb n 10 || Nat.eqb n 13.

Fixpoint skip_ws (l : list ascii) : list ascii :=
  match l with
  | c :: l' => if is_ws c then skip_ws l' else l
  | [] => []
  end.

Fixpoint lit (w l : list ascii) : option (list ascii) :=
  match w, l with
  | [], _ => Some l
  | c :: w', d :: l' => if Ascii.eqb c d then lit w' l' else None
  | _, _ => None
  end.

Definition is_digit (c : ascii) : bool :=
  let n := nat_of_ascii c in Nat.leb 48 n && Nat.leb n 57.

Fixpoint digits (l : list ascii) : list ascii * list ascii :=
  match l with
  | c :: l' => if is_digit c then let (ds, r) := digits l' in (c :: ds, r) else ([], l)
  | [] => ([], [])
  end.

Definition z_of_digits (ds : list ascii) : Z :=
  fold_left (fun acc c => 10 * acc + Z.of_nat (nat_of_ascii c - 48))%Z ds 0%Z.

End Json.
(* ------------------------------------------------------------------ *)
(** ** [json.loads] on a provider's answer

    The Python values [json.loads] builds, decoded as the C scanner of
    CPython's [_json] module does ([strict=True]): [None], [bool], [int],
    [float], [str], [list] and [dict].  A [str] is a sequence of code
    points: the model's characters are the code points 0-255, and [\uXXXX]
    escapes (with UTF-16 surrogate pairs joined) reach beyond them.  A
    [dict] keeps each key once, at its first position, with the value of
    its last occurrence. *)

Module PyJson.

#[local] Set Warnings "-register-all".
#[local] Set Warnings "-inexact-float".

Definition ustr : Type := list Z.

(** A model string as a Python [str]. *)
Definition u (s : string) : ustr :=
  map (fun c => Z.of_nat (nat_of_ascii c)) (list_ascii_of_string s).

Fixpoint ustr_eqb (a b : ustr) : bool :=
  match a, b with
  | [], [] => true
  | x :: a', y :: b' => Z.eqb x y && ustr_eqb a' b'
  | _, _ => false
  end.

Inductive value : Type :=
| VNone
| VBool (b : bool)
| VInt (z : Z)
| VFloat (f : float)
| VStr (s : ustr)
| VList (l : list value)
| VDict (d : list (ustr * value)).

(** [type(v).__name__] *)
Definition type_name (v : value) : string :=
  match v with
  | VNone => "NoneType" | VBool _ => "bool" | VInt _ => "int" | VFloat _ => "float"
  | VStr _ => "str" | VList _ => "list" | VDict _ => "dict"
  end.

(** [bool(v)] *)
Definition truthy (v : value) : bool :=
  match v with
  | VNone => false
  | VBool b => b
  | VInt z => negb (Z.eqb z 0)
  | VFloat f => negb (PrimFloat.eqb f 0%float)
  | VStr s => match s with [] => false | _ => true end
  | VList l => match l with [] => false | _ => true end
  | VDict d => match d with [] => false | _ => true end
  end.

(** [d.get(k)] *)
Definition lookup (d : list (ustr * value)) (k : ustr) : option value :=
  match List.find (fun kv => ustr_eqb (fst kv) k) d with
  | Some (_, v) => Some v
  | None => None
  end.

(** [d[k] = v]: an existing key keeps its position. *)
Fixpoint dset (d : list (ustr * value)) (k : ustr) (v : value) : list (ustr * value) :=
  match d with
  | [] => [(k, v)]
  | (k', v') :: d' => if ustr_eqb k' k then (k', v) :: d' else (k', v') :: dset d' k v
  end.

(** [v.get(k, default)]: [AttributeError] unless [v] is a dict. *)
Definition get (v : value) (k : ustr) (default : value) : py value :=
  match v with
  | VDict d => Ret (match lookup d k with Some x => x | None => default end)
  | _ => Raise (AttributeError ("'" ++ type_name v ++ "' object has no attribute 'get'"))
  end.

(** [iter(v)]: lists yield their items, strings their characters and
    dicts their keys; other values are not iterable. *)
Definition iter (v : value) : py (list value) :=
  match v with
  | VList l => Ret l
  | VStr s => Ret (map (fun c => VStr [c]) s)
  | VDict d => Ret (map (fun kv => VStr (fst kv)) d)
  | _ => Raise (TypeError ("'" ++ type_name v ++ "' object is not iterable"))
  end.

(** Whether [hash(v)] succeeds. *)
Definition hashable (v : value) : bool :=
  match v with VList _ | VDict _ => false | _ => true end.

(** The exact value of a finite float. *)
Definition float_Q (f : float) : option Q :=
  match FloatOps.Prim2SF f with
  | SpecFloat.S754_zero _ => Some 0%Q
  | SpecFloat.S754_finite s m e =>
    let z := if s then Zneg m else Zpos m in
    Some (if (0 <=? e)%Z then inject_Z (z * 2 ^ e) else Qmake z (Z.to_pos (2 ^ (- e))))
  | _ => None
  end.

(** The number a [bool], [int] or [float] stands for in [==]. *)
Definition num_value (v : value) : option Q :=
  match v with
  | VBool b => Some (if b then 1 else 0)%Q
  | VInt z => Some (inject_Z z)
  | VFloat f => float_Q f
  | _ => None
  end.

(** *** [float(text)]: the binary64 value nearest to a decimal *)

(** [p / q] rounded to the nearest integer, ties to even. *)
Definition round_half_even (p q : Z) : Z :=
  let d := (p / q)%Z in
  let r := (p mod q)%Z in
  match Z.compare (2 * r) q with
  | Lt => d
  | Gt => (d + 1)%Z
  | Eq => if Z.even d then d else (d + 1)%Z
  end.

(** The float nearest to [m * 10 ^ e] for [m > 0]: the quotient is
    scaled by [2 ^ - k] into [[2^52, 2^53)] (or [k] is the subnormal
    exponent [-1074]), rounded, and rebuilt exactly by [ldexp], which
    gives infinity past the largest float. *)
Definition nearest_float (m e : Z) : float :=
  let p := if (0 <=? e)%Z then (m * 10 ^ e)%Z else m in
  let q := if (0 <=? e)%Z then 1%Z else (10 ^ (- e))%Z in
  let scaled (k : Z) := if (0 <=? k)%Z then (p, (q * 2 ^ k)%Z) else ((p * 2 ^ (- k))%Z, q) in
  let l := (Z.log2 p - Z.log2 q)%Z in
  let k := if (let '(a, b) := scaled (l - 52)%Z in a / b <? 2 ^ 52)%Z
           then (l - 53)%Z else (l - 52)%Z in
  let k := Z.max k (-1074) in
  let '(a, b) := scaled k in
  match round_half_even a b with
  | Zpos n => FloatOps.SF2Prim (SpecFloat.S754_finite false n k)
  | _ => 0%float
  end.

(** The value of the digits [ds] times [10 ^ e], negated if [neg]. *)
Definition decimal_float (neg : bool) (ds : list ascii) (e : Z) : float :=
  let m := Json.z_of_digits ds in
  let f :=
    if (m =? 0)%Z then 0%float
    else if (309 <=? e)%Z then PrimFloat.infinity
    else if (e + Z.of_nat (List.length ds) <=? -325)%Z then 0%float
    else nearest_float m e in
  if neg then PrimFloat.opp f else f.

(** *** The scanner *)

(** [json.JSONDecodeError].  Its message (the problem and its position)
    is never shown by the tools, which only test for the class. *)
Definition decode_error : exc := PyExc "JSONDecodeError" "invalid JSON document".

(** [Py_EnterRecursiveCall] failing on a nested array or object. *)
Definition recursion_error (what : string) : exc :=
  PyExc "RecursionError"
    ("maximum recursion depth exceeded while decoding a JSON " ++ what
     ++ " from a unicode string").

(** [sys.get_int_max_str_digits()] *)
Definition int_max_str_digits : nat := 4300.

(** [str(n)] for a count. *)
Fixpoint uint_str (d : Decimal.uint) : string :=
  match d with
  | Decimal.Nil => ""
  | Decimal.D0 d => String "0" (uint_str d)
  | Decimal.D1 d => String "1" (uint_str d)
  | Decimal.D2 d => String "2" (uint_str d)
  | Decimal.D3 d => String "3" (uint_str d)
  | Decimal.D4 d => String "4" (uint_str d)
  | Decimal.D5 d => String "5" (uint_str d)
  | Decimal.D6 d => String "6" (uint_str d)
  | Decimal.D7 d => String "7" (uint_str d)
  | Decimal.D8 d => String "8" (uint_str d)
  | Decimal.D9 d => String "9" (uint_str d)
  end.

(** [int(text)] of the integer literal [-? ds], refused past
    [int_max_str_digits] digits. *)
Definition int_of_digits (neg : bool) (ds : list ascii) : py value :=
  if Nat.ltb int_max_str_digits (List.length ds) then
    Raise (ValueError ("Exceeds the limit (4300 digits) for integer string conversion: value has "
                       ++ uint_str (Nat.to_uint (List.length ds))
                       ++ " digits; use sys.set_int_max_str_digits() to increase the limit"))
  else let z := Json.z_of_digits ds in Ret (VInt (if neg then (- z)%Z else z)).

(** [_match_number_unicode]: [-? (0 | [1-9][0-9]* )], then [.[0-9]+] only
    when a digit follows the dot, then [[eE][+-]?[0-9]+] only when a digit
    follows (otherwise the [e] is left unread).  An [int] when there is
    neither fraction nor exponent, a [float] otherwise. *)
Definition number (l : list ascii) : py (value * list ascii) :=
  let '(neg, l1) := match l with c :: r => if Ascii.eqb c "-" then (true, r) else (false, l)
                                 | [] => (false, l) end in
  let int_part :=
    match l1 with
    | c :: r =>
      if Ascii.eqb c "0" then Some ([c], r)
      else if Json.is_digit c then let (ds, r') := Json.digits r in Some (c :: ds, r')
      else None
    | [] => None
    end in
  match int_part with
  | None => Raise decode_error
  | Some (ids, l2) =>
    let '(fds, l3) :=
      match l2 with
      | c :: d :: r =>
        if Ascii.eqb c "." && Json.is_digit d then let (ds, r') := Json.digits r in (d :: ds, r')
        else ([], l2)
      | _ => ([], l2)
      end in
    let '(ex, l4) :=
      match l3 with
      | c :: r =>
        if Ascii.eqb c "e" || Ascii.eqb c "E" then
          let '(eneg, r1) := match r with
                             | s :: r' => if Ascii.eqb s "-" then (true, r')
                                          else if Ascii.eqb s "+" then (false, r')
                                          else (false, r)
                             | [] => (false, r) end in
          match Json.digits r1 with
          | ([], _) => (None, l3)
          | (eds, r2) =>
            let x := Json.z_of_digits eds in (Some (if eneg then (- x)%Z else x), r2)
          end
        else (None, l3)
      | [] => (None, l3)
      end in
    match fds, ex with
    | [], None => v <- int_of_digits neg ids ;; Ret (v, l4)
    | _, _ =>
      let e := ((match ex with Some x => x | None => 0 end) - Z.of_nat (List.length fds))%Z in
      Ret (VFloat (decimal_float neg (app ids fds) e), l4)
    end
  end.

Definition hex_val (c : ascii) : option Z :=
  let n := Z.of_nat (nat_of_ascii c) in
  if (48 <=? n)%Z && (n <=? 57)%Z then Some (n - 48)%Z
  else if (97 <=? n)%Z && (n <=? 102)%Z then Some (n - 87)%Z
  else if (65 <=? n)%Z && (n <=? 70)%Z then Some (n - 55)%Z
  else None.

Definition hex4 (a b c d : ascii) : option Z :=
  match hex_val a, hex_val b, hex_val c, hex_val d with
  | Some w, Some x, Some y, Some z => Some (((w * 16 + x) * 16 + y) * 16 + z)%Z
  | _, _, _, _ => None
  end.

(** The one-character escapes: a backslash followed by a double quote, a
    backslash, a slash, [b], [f], [n], [r] or [t]. *)
Definition simple_escape (e : ascii) : option Z :=
  match nat_of_ascii e with
  | 34 => Some 34%Z | 92 => Some 92%Z | 47 => Some 47%Z
  | 98 => Some 8%Z | 102 => Some 12%Z | 110 => Some 10%Z
  | 114 => Some 13%Z | 116 => Some 9%Z
  | _ => None
  end.

Definition cons_str (x : Z) (r : py (ustr * list ascii)) : py (ustr * list ascii) :=
  match r with Ret (s, rest) => Ret (x :: s, rest) | Raise e => Raise e end.

(** [scanstring] after the opening quote: control characters are
    refused; a high surrogate escape followed by a low surrogate escape
    gives one code point, otherwise each escape stands for itself. *)
Fixpoint str_body (l : list ascii) : py (ustr * list ascii) :=
  match l with
  | [] => Raise decode_error
  | c :: l1 =>
    if Ascii.eqb c Json.quote then Ret ([], l1)
    else if Ascii.eqb c "\" then
      match l1 with
      | [] => Raise decode_error
      | e :: l2 =>
        if Ascii.eqb e "u" then
          match l2 with
          | h1 :: h2 :: h3 :: h4 :: l3 =>
            match hex4 h1 h2 h3 h4 with
            | None => Raise decode_error
            | Some x =>
              if (55296 <=? x)%Z && (x <=? 56319)%Z then
                match l3 with
                | b :: v :: g1 :: g2 :: g3 :: g4 :: l4 =>
                  if Ascii.eqb b "\" && Ascii.eqb v "u" then
                    match hex4 g1 g2 g3 g4 with
                    | None => Raise decode_error
                    | Some y =>
                      if (56320 <=? y)%Z && (y <=? 57343)%Z
                      then cons_str (65536 + (x - 55296) * 1024 + (y - 56320))%Z (str_body l4)
                      else cons_str x (str_body l3)
                    end
                  else cons_str x (str_body l3)
                | _ => cons_str x (str_body l3)
                end
              else cons_str x (str_body l3)
            end
          | _ => Raise decode_error
          end
        else
          match simple_escape e with
          | Some x => cons_str x (str_body l2)
          | None => Raise decode_error
          end
      end
    else if Nat.ltb (nat_of_ascii c) 32 then Raise decode_error
    else cons_str (Z.of_nat (nat_of_ascii c)) (str_body l1)
  end.

(** [scan_once] at a non-blank character ([fuel] bounds the nesting of
    calls, [room] the arrays and objects that can still be entered before
    the interpreter's recursion limit), [_parse_array] after the opening
    bracket and its blanks, [_parse_object] after the opening brace and
    its blanks. *)
Fixpoint scan (fuel room : nat) (l : list ascii) : py (value * list ascii) :=
  match fuel with
  | O => Raise decode_error
  | S f =>
    match l with
    | [] => Raise decode_error
    | c :: r =>
      if Ascii.eqb c Json.quote then
        match str_body r with Ret (s, r') => Ret (VStr s, r') | Raise e => Raise e end
      else if Ascii.eqb c "[" then
        match room with
        | O => Raise (recursion_error "array")
        | S room' =>
          match Json.skip_ws r with
          | d :: r' => if Ascii.eqb d "]" then Ret (VList [], r') else elems f room' (d :: r') []
          | [] => Raise decode_error
          end
        end
      else if Ascii.eqb c "{" then
        match room with
        | O => Raise (recursion_error "object")
        | S room' =>
          match Json.skip_ws r with
          | d :: r' => if Ascii.eqb d "}" then Ret (VDict [], r') else members f room' (d :: r') []
          | [] => Raise decode_error
          end
        end
      else
        match Json.lit (list_ascii_of_string "null") l with
        | Some r' => Ret (VNone, r')
        | None =>
        match Json.lit (list_ascii_of_string "true") l with
        | Some r' => Ret (VBool true, r')
        | None =>
        match Json.lit (list_ascii_of_string "false") l with
        | Some r' => Ret (VBool false, r')
        | None =>
        match Json.lit (list_ascii_of_string "NaN") l with
        | Some r' => Ret (VFloat PrimFloat.nan, r')
        | None =>
        match Json.lit (list_ascii_of_string "Infinity") l with
        | Some r' => Ret (VFloat PrimFloat.infinity, r')
        | None =>
        match Json.lit (list_ascii_of_string "-Infinity") l with
        | Some r' => Ret (VFloat PrimFloat.neg_infinity, r')
        | None => number l
        end end end end end end
    end
  end
with elems (fuel room : nat) (l : list ascii) (acc : list value) : py (value * list ascii) :=
  match fuel with
  | O => Raise decode_error
  | S f =>
    match scan f room l with
    | Raise e => Raise e
    | Ret (v, r) =>
      match Json.skip_ws r with
      | d :: r' =>
        if Ascii.eqb d "," then elems f room (Json.skip_ws r') (v :: acc)
        else if Ascii.eqb d "]" then Ret (VList (rev (v :: acc)), r')
        else Raise decode_error
      | [] => Raise decode_error
      end
    end
  end
with members (fuel room : nat) (l : list ascii) (acc : list (ustr * value))
  : py (value * list ascii) :=
  match fuel with
  | O => Raise decode_error
  | S f =>
    match l with
    | [] => Raise decode_error
    | c :: r =>
      if negb (Ascii.eqb c Json.quote) then Raise decode_error else
      match str_body r with
      | Raise e => Raise e
      | Ret (k, r1) =>
        match Json.skip_ws r1 with
        | d :: r2 =>
          if negb (Ascii.eqb d ":") then Raise decode_error else
          match scan f room (Json.skip_ws r2) with
          | Raise e => Raise e
          | Ret (v, r3) =>
            let acc' := dset acc k v in
            match Json.skip_ws r3 with
            | d' :: r4 =>
              if Ascii.eqb d' "," then members f room (Json.skip_ws r4) acc'
              else if Ascii.eqb d' "}" then Ret (VDict acc', r4)
              else Raise decode_error
            | [] => Raise decode_error
            end
          end
        | [] => Raise decode_error
        end
      end
    end
  end.

(** [json.loads(s)]: blanks, one value, blanks, and nothing else.  Each
    call of the chain [scan]/[elems]/[members] but the first consumes a
    character or is followed by one that does, so [2 * length + 2] calls
    are never all used: any fuel of at least [2 * length] gives the same
    result ([loads_fuel] below). *)
Definition loads (room : nat) (s : string) : py value :=
  let l := Json.skip_ws (list_ascii_of_string s) in
  match scan (2 * List.length l + 2) room l with
  | Raise e => Raise e
  | Ret (v, r) => match Json.skip_ws r with [] => Ret v | _ => Raise decode_error end
  end.

(** [json.dumps(v, indent=2)] with the pure-Python encoder that [indent]
    selects: it recurses once per nesting level, so on a value nested
    beyond the interpreter's recursion limit it raises [RecursionError];
    no other exception arises on the values [json.loads] builds (their
    keys are strings, their integers have at most 4300 digits, and [NaN]
    and the infinities are allowed).  [dumps_error v] is the message of
    that [RecursionError], if any. *)
Definition dumps (dumps_error : value -> option string) (v : value) : py unit :=
  match dumps_error v with
  | Some m => Raise (PyExc "RecursionError" m)
  | None => Ret tt
  end.


End PyJson.

(* ------------------------------------------------------------------ *)
(** ** Reference examples and the reference store
    ([paperbanana_providers.ReferenceExample], [ReferenceStore]) *)

Module Store.
Import Json.

(** The dataclass stores whatever the index holds, so each field is a
    decoded JSON value. *)
Record ReferenceExample : Type := {
  id : json;
  source_context : json;
  caption : json;
  image_path : json;
  category : json
}.

(** [str(Path(p))] on POSIX: empty and [.] components are dropped. *)
Fixpoint split_on (sep : ascii) (s : string) : list string :=
  match s with
  | EmptyString => [EmptyString]
  | String c s' =>
    if Ascii.eqb c sep then EmptyString :: split_on sep s'
    else match split_on sep s' with
         | w :: ws => String c w :: ws
         | [] => [String c EmptyString]
         end
  end.

Definition path_parts (p : string) : list string :=
  filter (fun w => negb (String.eqb w "" || String.eqb w ".")) (split_on "/" p).

Definition is_absolute (p : string) : bool := PyStr.startswith p "/".

Definition path_str (p : string) : string :=
  let ws := path_parts p in
  if is_absolute p then "/" ++ String.concat "/" ws
  else match ws with [] => "." | _ => String.concat "/" ws end.

(** [str(Path(a) / b)] *)
Definition path_join (a b : string) : string :=
  if is_absolute b then path_str b else path_str (a ++ "/" ++ b).

(** The instance state of a [ReferenceStore]. *)
Record store : Type := {
  path : string;
  examples : list ReferenceExample;
  loaded : bool
}.

(** [ReferenceStore(path)] *)
Definition new_store (p : string) : store :=
  {| path := path_str p; examples := []; loaded := false |}.

(** What [open(index_file)] followed by [json.load] gives: [None] when
    [index.json] does not exist, otherwise the decoded document or the
    exception raised while reading or decoding it. *)
Definition index_file : Type := option (py json).

(** One iteration of the loop body of [_load]: the example built from one
    item of ["examples"]. *)
Definition example_of_item (root : string) (item : json) : py ReferenceExample :=
  match item with
  | JObj d =>
    let img := match obj_lookup d "image_path" with Some x => x | None => JStr "" end in
    img' <- (if truthy img then
               match img with
               | JStr s => Ret (if is_absolute s then img else JStr (path_join root s))
               | _ => Raise (TypeError "expected str, bytes or os.PathLike object")
               end
             else Ret img) ;;
    i <- getitem d "id" ;;
    sc <- getitem d "source_context" ;;
    cap <- getitem d "caption" ;;
    Ret {| id := i; source_context := sc; caption := cap; image_path := img';
           category := match obj_lookup d "category" with Some x => x | None => JNull end |}
  | _ => Raise (AttributeError "object has no attribute 'get'")
  end.

(** The [for] loop of [_load]: examples are appended to [self._examples]
    one by one, so an exception leaves the ones appended before it. *)
Fixpoint append_items (root : string) (acc : list ReferenceExample) (items : list json)
  : list ReferenceExample * py unit :=
  match items with
  | [] => (acc, Ret tt)
  | it :: rest =>
    match example_of_item root it with
    | Ret ex => append_items root (app acc [ex]) rest
    | Raise e => (acc, Raise e)
    end
  end.

(** [ReferenceStore._load] *)
Definition load (fs : index_file) (st : store) : store * py unit :=
  if loaded st then (st, Ret tt)
  else match fs with
       | None => ({| path := path st; examples := examples st; loaded := true |}, Ret tt)
       | Some (Raise e) => (st, Raise e)
       | Some (Ret data) =>
         match get data "examples" (JArr []) with
         | Raise e => (st, Raise e)
         | Ret items =>
           match iter items with
           | Raise e => (st, Raise e)
           | Ret its =>
             let '(exs, r) := append_items (path st) (examples st) its in
             match r with
             | Ret _ => ({| path := path st; examples := exs; loaded := true |}, Ret tt)
             | Raise e => ({| path := path st; examples := exs; loaded := false |}, Raise e)
             end
           end
         end
       end.

(** [ReferenceStore.get_all] *)
Definition get_all (fs : index_file) (st : store) : store * py (list ReferenceExample) :=
  let '(st', r) := load fs st in
  (st', py_bind r (fun _ => Ret (examples st'))).

End Store.

(* ------------------------------------------------------------------ *)
(** ** [SearchReferencesTool]: choosing the examples *)

Module Rank.
Import Store.

(** [candidates[:k]] for a Python [int] [k]. *)
Definition py_take {A} (l : list A) (k : Z) : list A :=
  if (0 <=? k)%Z then firstn (Z.to_nat k) l
  else firstn (List.length l - Z.to_nat (- k)) l.








End Rank.

(* ------------------------------------------------------------------ *)
(** ** [CritiqueImageTool.execute] *)

Module Critique.
Import PyJson.

(** The text returned by the tool: plain text, or [json.dumps(v)]. *)
Inductive output : Type :=
| Text (s : string)
| Dumps (v : value).

(** The object returned when the extracted payload is not JSON. *)
Definition fallback (resp : string) : value :=
  VDict [(u "suggestions", VList [VStr (u (substring 0 500 resp))]);
         (u "needs_revision", VBool false);
         (u "revised_description", VNone)].

(** [vlm]: [None] when no provider is configured, otherwise the answer of
    [generate] to the critique prompt.  [image_exists] is
    [Path(image_path).exists()], which runs outside any [try];
    [image_load] the outcome of opening and resizing the image.  [room] is
    the nesting [json.loads] can enter before the recursion limit, and
    [dumps_error] says when [json.dumps] fails (see [PyJson.dumps]). *)
Definition execute (room : nat) (dumps_error : value -> option string)
    (vlm : option (py string)) (image_path : string)
    (image_exists : py bool) (image_load : py unit) : py output :=
  match vlm with
  | None => Ret (Text "Error: VLM provider not configured.")
  | Some response =>
    ex <- image_exists ;;
    if negb ex then Ret (Text ("Error: Image not found at " ++ image_path))
    else
    match image_load with
    | Raise (PyExc _ m) => Ret (Text ("Error loading image: " ++ m))
    | Raise e => Raise e
    | Ret _ =>
      match response with
      | Raise (PyExc c m) =>
        (* the handler for [json.JSONDecodeError] reads [resp], unbound here *)
        if String.eqb c "JSONDecodeError"
        then Raise (PyExc "UnboundLocalError"
                      "cannot access local variable 'resp' where it is not associated with a value")
        else Ret (Text ("Error during critique: " ++ m))
      | Raise e => Raise e
      | Ret resp =>
        let attempt : py output :=
          json_str <- Extract.extract_json resp ;;
          data <- loads room json_str ;;
          suggestions <- get data (u "critic_suggestions") (VList []) ;;
          revised <- get data (u "revised_description") VNone ;;
          let result :=
            VDict [(u "suggestions", suggestions);
                   (u "needs_revision",
                      VBool (truthy (if truthy suggestions then revised else suggestions)));
                   (u "revised_description", revised)] in
          _ <- dumps dumps_error result ;;
          Ret (Dumps result) in
        match attempt with
        | Raise (PyExc c m) =>
          if String.eqb c "JSONDecodeError" then Ret (Dumps (fallback resp))
          else Ret (Text ("Error during critique: " ++ m))
        | r => r
        end
      end
    end
  end.

End Critique.

(* ------------------------------------------------------------------ *)
(** ** Sandboxed code runner ([paperbanana._run_code]) *)

Module Sandbox.

(** The part of the operating system the runner touches: the existing
    files, and whether a child interpreter is still running. *)
Record os_state : Type := {
  files : list string;
  child_alive : bool
}.

(** What the child interpreter started on the temporary file does. *)
Inductive child_run : Type :=
| SpawnFails (e : exc)
    (** [Popen] raises, e.g. [FileNotFoundError] *)
| Completes (effect : list string -> list string) (returncode : Z)
            (stdout stderr : string) (seconds : Z)
    (** the child runs for [seconds] and changes the files by [effect] *)
| WaitFails (effect : list string -> list string) (e : exc)
    (** [communicate] raises [e] while waiting, e.g. on undecodable output *)
.

Definition TIMEOUT : Z := 60.

(** [subprocess.run([sys.executable, tmp], capture_output=True, text=True,
    timeout=60)]: on expiry, or on any exception while waiting, the child
    is killed and reaped before the exception propagates. *)
Definition subprocess_run (c : child_run) (st : os_state)
  : os_state * py (Z * string * string) :=
  match c with
  | SpawnFails e => (st, Raise e)
  | Completes eff rc so se secs =>
    let st' := {| files := eff (files st); child_alive := false |} in
    if (TIMEOUT <? secs)%Z
    then (st', Raise (PyExc "TimeoutExpired" "timed out after 60 seconds"))
    else (st', Ret (rc, so, se))
  | WaitFails eff e => ({| files := eff (files st); child_alive := false |}, Raise e)
  end.

(** The environment of one call: what creating the output directory,
    creating and writing the [NamedTemporaryFile], running the child,
    testing the output path and unlinking the temporary file do.
    [exists_error] is the [OSError] that [os.stat(output_path)] raises and
    [Path.exists] does not turn into [False] (it does so only for a
    missing entry, a non-directory component, a bad descriptor or a
    symbolic-link loop): e.g. a file name too long, or a directory that
    cannot be searched. *)
Record run_env : Type := {
  mkdir_error : option exc;
  tmp_name : string;
  write_error : option exc;
  child : child_run;
  exists_error : option exc;
  unlink_error : option exc
}.

(** [error_details] joined with two newlines, or ["Unknown error"]. *)
Definition error_details (so se : string) : string :=
  let parts := app (if String.eqb so "" then [] else ["STDOUT:" ++ nl ++ so])
                   (if String.eqb se "" then [] else ["STDERR:" ++ nl ++ se]) in
  match parts with
  | [] => "Unknown error"
  | _ => String.concat (nl ++ nl) parts
  end.

Definition MSG_NO_OUTPUT := "Code ran successfully but output file was not created".
Definition MSG_TIMEOUT := "Code execution timed out after 60 seconds".

Definition exists_file (st : os_state) (p : string) : bool :=
  existsb (String.eqb p) (files st).

(** [Path(tmp).unlink(missing_ok=True)] *)
Definition unlink (p : string) (st : os_state) : os_state :=
  {| files := remove string_dec p (files st); child_alive := child_alive st |}.

(** [_run_code(code, output_path)].  The source written to the temporary
    file ([OUTPUT_PATH = "..."] followed by [code]) only matters through
    what the child does, which [child env] describes. *)
Definition run_code (env : run_env) (code output_path : string) (st : os_state)
  : os_state * py (bool * string) :=
  match mkdir_error env with
  | Some e => (st, Raise e)
  | None =>
    let tmp := tmp_name env in
    (* NamedTemporaryFile(delete=False) creates the file before writing *)
    let st1 := {| files := app (files st) [tmp]; child_alive := child_alive st |} in
    match write_error env with
    | Some e => (st1, Raise e)
    | None =>
      (* try: *)
      let '(st2, r) := subprocess_run (child env) st1 in
      let attempt : py (bool * string) :=
        match r with
        | Ret (rc, so, se) =>
          if negb (rc =? 0)%Z then Ret (false, error_details so se)
          else match exists_error env with
               | Some e => Raise e
               | None =>
                 if negb (exists_file st2 output_path) then Ret (false, MSG_NO_OUTPUT)
                 else Ret (true, "")
               end
        | Raise e => Raise e
        end in
      (* except subprocess.TimeoutExpired / except Exception: *)
      let body : py (bool * string) :=
        match attempt with
        | Raise (PyExc c m) =>
          if String.eqb c "TimeoutExpired" then Ret (false, MSG_TIMEOUT)
          else Ret (false, "Unexpected error: " ++ m)
        | r' => r'
        end in
      (* finally: *)
      match unlink_error env with
      | Some e => (st2, Raise e)
      | None => (unlink tmp st2, body)
      end
    end
  end.

(** C3 as stated: the four outcomes the claim lists, each tied to what
    the child did. *)
Definition claimed_four_outcomes (c : child_run) (out : string) (st' : os_state)
    (r : py (bool * string)) : Prop :=
  (exists eff rc so se secs, c = Completes eff rc so se secs /\ (secs <= TIMEOUT)%Z /\
     rc <> 0%Z /\ exists m, r = Ret (false, m) /\
     PyStr.contains m so = true /\ PyStr.contains m se = true) \/
  (exists eff rc so se secs, c = Completes eff rc so se secs /\ (TIMEOUT < secs)%Z /\
     child_alive st' = false /\ exists m, r = Ret (false, m) /\
     PyStr.contains m "execution timed out" = true) \/
  (exists eff so se secs, c = Completes eff 0 so se secs /\ (secs <= TIMEOUT)%Z /\
     exists_file st' out = false /\ exists m, r = Ret (false, m) /\
     PyStr.contains m "ran successfully" = true) \/
  (exists eff so se secs, c = Completes eff 0 so se secs /\ (secs <= TIMEOUT)%Z /\
     exists_file st' out = true /\ exists m, r = Ret (true, m)).

End Sandbox.

(* ------------------------------------------------------------------ *)
(** ** Path resolution ([autopage._resolve_path]) *)

Module Paths.
Import Store.

(** The process environment path resolution depends on: [$HOME], the
    home directories of other users, the working directory, and the
    symbolic links of the file system (absolute canonical path of the link
    mapped to its target). *)
Record path_env : Type := {
  home : string;
  user_homes : list (string * string);
  cwd : string;
  links : list (string * string)
}.

Definition assoc (k : string) (l : list (string * string)) : option string :=
  match List.find (fun kv => String.eqb (fst kv) k) l with
  | Some (_, v) => Some v
  | None => None
  end.

Definition render (comps : list string) : string := "/" ++ String.concat "/" comps.

(** [Path(p).expanduser()] *)
Definition expanduser (env : path_env) (p : string) : py string :=
  let s := path_str p in
  if is_absolute s then Ret s
  else match path_parts s with
       | w :: rest =>
         if PyStr.startswith w "~" then
           let h := if String.eqb w "~" then Some (home env)
                    else assoc (substring 1 (String.length w - 1) w) (user_homes env) in
           match h with
           | Some hd => Ret (path_str (String.concat "/" (hd :: rest)))
           | None => Raise (PyExc "RuntimeError" "Could not determine home directory.")
           end
         else Ret s
       | [] => Ret s
       end.

Definition drop_last (l : list string) : list string := firstn (List.length l - 1) l.

(** [os.path.realpath]: components are taken left to right, [..] removes
    the last resolved component, and a component naming a symbolic link is
    replaced by the resolution of its target.  [fuel] bounds the number of
    steps; running out of it is the symlink-loop error of
    [Path.resolve]. *)
Fixpoint realpath (fuel : nat) (env : path_env) (cur : list string) (rest : list string)
  : option (list string) :=
  match fuel with
  | O => None
  | S f =>
    match rest with
    | [] => Some cur
    | w :: rest' =>
      if String.eqb w "" || String.eqb w "." then realpath f env cur rest'
      else if String.eqb w ".." then realpath f env (drop_last cur) rest'
      else
        let next := app cur [w] in
        match assoc (render next) (links env) with
        | None => realpath f env next rest'
        | Some tgt =>
          let base := if is_absolute tgt then [] else cur in
          match realpath f env base (split_on "/" tgt) with
          | Some cur' => realpath f env cur' rest'
          | None => None
          end
        end
    end
  end.

Definition RESOLVE_FUEL : nat := 4096.

(** [Path(p).resolve()] (non-strict). *)
Definition resolve (env : path_env) (p : string) : py string :=
  let abs := if is_absolute p then p else cwd env ++ "/" ++ p in
  match realpath RESOLVE_FUEL env [] (split_on "/" abs) with
  | Some comps => Ret (render comps)
  | None => Raise (PyExc "RuntimeError" ("Symlink loop from " ++ abs))
  end.

(** [_resolve_path(path, allowed_dir)] *)
Definition resolve_path (env : path_env) (p : string) (allowed_dir : option string)
  : py string :=
  p1 <- expanduser env p ;;
  resolved <- resolve env p1 ;;
  match allowed_dir with
  | None => Ret resolved
  | Some ad =>
    root <- resolve env ad ;;
    if PyStr.startswith resolved root then Ret resolved
    else Raise (PyExc "PermissionError"
                  ("Path " ++ p ++ " is outside allowed directory " ++ path_str ad))
  end.

(** Containment of a canonical absolute path in a canonical directory. *)
Definition within (root p : string) : bool :=
  String.eqb root "/" || String.eqb p root || PyStr.startswith p (root ++ "/").

(** A component of a canonical absolute path: not empty, not [.] or
    [..], and without a slash. *)
Definition canonical_component (w : string) : Prop :=
  w <> "" /\ w <> "." /\ w <> ".." /\ ~ In "/"%char (list_ascii_of_string w).

End Paths.

(* ------------------------------------------------------------------ *)
(** ** Tool registry *)

Module Registry.

#[local] Set Warnings "-register-all".

(** An argument value of a tool call. *)
Inductive arg : Type :=
| AStr (s : string)
| AInt (z : Z)
| ANum (q : Q)
| ABool (b : bool)
| AArr (l : list arg)
| AObj (d : list (string * arg)).

(** One declared property of a tool's parameter schema. *)
Record prop_schema : Type := {
  ps_type : string;
  ps_enum : option (list arg);
  ps_minimum : option Q;
  ps_maximum : option Q
}.

(** A registered tool: name, declared properties, required properties and
    its asynchronous operation on the argument mapping. *)
Record tool : Type := {
  t_name : string;
  t_properties : list (string * prop_schema);
  t_required : list string;
  t_run : list (string * arg) -> py string
}.

Definition registry : Type := list tool.

Definition lookup {A} (k : string) (l : list (string * A)) : option A :=
  match List.find (fun kv => String.eqb (fst kv) k) l with
  | Some (_, v) => Some v
  | None => None
  end.

Definition find_tool (reg : registry) (name : string) : option tool :=
  List.find (fun t => String.eqb (t_name t) name) reg.

Definition type_ok (ty : string) (v : arg) : bool :=
  match v with
  | AStr _ => String.eqb ty "string"
  | AInt _ => String.eqb ty "integer" || String.eqb ty "number"
  | ANum _ => String.eqb ty "number"
  | ABool _ => String.eqb ty "boolean"
  | AArr _ => String.eqb ty "array"
  | AObj _ => String.eqb ty "object"
  end.

Definition scalar_eqb (a b : arg) : bool :=
  match a, b with
  | AStr s, AStr t => String.eqb s t
  | AInt x, AInt y => Z.eqb x y
  | ANum x, ANum y => Qeq_bool x y
  | ABool x, ABool y => Bool.eqb x y
  | _, _ => false
  end.

Definition num_value (v : arg) : option Q :=
  match v with AInt z => Some (inject_Z z) | ANum q => Some q | _ => None end.

(** Check of one present property, in the order of the spec: type, enum,
    minimum, maximum.  [Some msg] describes the first violation. *)
Definition check_prop (k : string) (ps : prop_schema) (v : arg) : option string :=
  if negb (type_ok (ps_type ps) v) then Some (k ++ " should be " ++ ps_type ps)
  else if match ps_enum ps with
          | Some vs => negb (existsb (scalar_eqb v) vs)
          | None => false
          end
  then Some (k ++ " must be one of the allowed values")
  else if match num_value v, ps_minimum ps with
          | Some x, Some lo => negb (Qle_bool lo x)
          | _, _ => false
          end
  then Some (k ++ " must be >= minimum")
  else if match num_value v, ps_maximum ps with
          | Some x, Some hi => negb (Qle_bool x hi)
          | _, _ => false
          end
  then Some (k ++ " must be <= maximum")
  else None.

Fixpoint first_some {A} (f : A -> option string) (l : list A) : option string :=
  match l with
  | [] => None
  | x :: l' => match f x with Some m => Some m | None => first_some f l' end
  end.

(** Validation: every required property present, then every present
    declared property checked; the first violation short-circuits. *)
Definition validate (t : tool) (args : list (string * arg)) : option string :=
  match first_some (fun r => match lookup r args with
                             | None => Some ("missing required " ++ r)
                             | Some _ => None
                             end) (t_required t) with
  | Some m => Some m
  | None =>
    first_some (fun kv => match lookup (fst kv) (t_properties t) with
                          | Some ps => check_prop (fst kv) ps (snd kv)
                          | None => None
                          end) args
  end.

(** [register(tool)]: a duplicate name is rejected with an error. *)
Definition register (reg : registry) (t : tool) : py registry :=
  match find_tool reg (t_name t) with
  | Some _ => Raise (ValueError ("Tool " ++ t_name t ++ " already registered"))
  | None => Ret (app reg [t])
  end.

(** Modelled from the spec: [ToolRegistry.execute] (clawphd/agent/tools/registry.py
    is not part of the sources), following section 4.1: unknown name gives
    an error text, a validation failure gives ["Invalid parameters: ..."],
    and any exception of the tool's operation is turned into
    ["Error: ..."]. *)
Definition execute (reg : registry) (name : string) (args : list (string * arg)) : py string :=
  match find_tool reg name with
  | None => Ret ("Error: Tool '" ++ name ++ "' not found")
  | Some t =>
    match validate t args with
    | Some m => Ret ("Invalid parameters: " ++ m)
    | None =>
      match t_run t args with
      | Ret s => Ret s
      | Raise e => Ret ("Error: " ++ exc_str e)
      end
    end
  end.

End Registry.

(* ------------------------------------------------------------------ *)
(** ** [ReferenceStore] queries *)

Module StoreQuery.
Import Json Store.

(** [v == s] for a decoded JSON value [v] and a Python [str] [s]. *)
Definition eq_str (v : json) (s : string) : bool :=
  match v with JStr t => String.eqb t s | _ => false end.

(** [ReferenceStore.get_by_category] *)
Definition get_by_category (fs : index_file) (st : store) (cat : string)
  : store * py (list ReferenceExample) :=
  let '(st', r) := load fs st in
  (st', py_bind r (fun _ => Ret (filter (fun e => eq_str (category e) cat) (examples st')))).

(** [ReferenceStore.get_by_id]: [next(..., None)] is the first match. *)
Definition get_by_id (fs : index_file) (st : store) (example_id : string)
  : store * py (option ReferenceExample) :=
  let '(st', r) := load fs st in
  (st', py_bind r (fun _ => Ret (List.find (fun e => eq_str (id e) example_id) (examples st')))).

(** [ReferenceStore.count] *)
Definition count (fs : index_file) (st : store) : store * py nat :=
  let '(st', r) := load fs st in
  (st', py_bind r (fun _ => Ret (List.length (examples st')))).

(** What [_load] leaves in an example's [image_path]: a falsy value as
    found in the index, or an absolute path string. *)
Definition image_resolved (v : json) : Prop :=
  truthy v = false \/ exists s, v = JStr s /\ is_absolute s = true.

End StoreQuery.

(* ------------------------------------------------------------------ *)
(** ** [MatchTemplateTool]: scoring and ranking the templates *)

Module Templates.
Import Json.

#[local] Set Warnings "-inexact-float".

(** [MatchTemplateTool._WEIGHT]; the literals are read as the nearest
    binary64 values, as Python reads them. *)
Definition WEIGHT : list (string * float) :=
  [("background_color", 1.0%float); ("has_hero_section", 0.75%float);
   ("Page density", 0.85%float); ("image_layout", 0.65%float);
   ("title_color", 0.6%float); ("has_navigation", 0.7%float)].

(** [self._WEIGHT.get(feature, 0.0)] *)
Definition weight (feature : string) : float :=
  match List.find (fun kv => String.eqb (fst kv) feature) WEIGHT with
  | Some (_, w) => w
  | None => 0.0%float
  end.

(** The [req] dict built by [execute], in insertion order. *)
Definition request (background_color has_navigation has_hero_section title_color
                    page_density image_layout : option string)
  : list (string * option string) :=
  [("background_color", background_color); ("has_navigation", has_navigation);
   ("has_hero_section", has_hero_section); ("title_color", title_color);
   ("Page density", page_density); ("image_layout", image_layout)].

(** The inner loop for one template [tag]: a feature whose expected value
    is [None] is skipped without touching [tag]; otherwise [tag.get(feature)]
    is compared with the expected string and the weight added with binary64
    addition. *)
Fixpoint score_from (acc : float) (tag : json) (req : list (string * option string))
  : py float :=
  match req with
  | [] => Ret acc
  | (feature, expected) :: rest =>
    match expected with
    | None => score_from acc tag rest
    | Some ex =>
      v <- get tag feature JNull ;;
      score_from (if StoreQuery.eq_str v ex then PrimFloat.add acc (weight feature) else acc)
                 tag rest
    end
  end.

Definition score (tag : json) (req : list (string * option string)) : py float :=
  score_from 0.0%float tag req.

(** [d[k] = v] on a dict: an existing key keeps its position. *)
Fixpoint dict_set (d : list (string * json)) (k : string) (v : json) : list (string * json) :=
  match d with
  | [] => [(k, v)]
  | (k', v') :: d' => if String.eqb k' k then (k', v) :: d' else (k', v') :: dict_set d' k v
  end.

(** [dict.items()] of the dict [json.loads] builds from an object's members:
    a repeated key keeps its first position and its last value. *)
Definition dict_items (members : list (string * json)) : list (string * json) :=
  fold_left (fun d kv => dict_set d (fst kv) (snd kv)) members [].

Fixpoint scores_of (items : list (string * json)) (req : list (string * option string))
  : py (list (string * float)) :=
  match items with
  | [] => Ret []
  | (name, tag) :: rest =>
    s <- score tag req ;;
    l <- scores_of rest req ;;
    Ret ((name, s) :: l)
  end.

(** [scores]: one entry per template of [tags.items()]. *)
Definition scores (tags : json) (req : list (string * option string))
  : py (list (string * float)) :=
  match tags with
  | JObj d => scores_of (dict_items d) req
  | _ => Raise (AttributeError "object has no attribute 'items'")
  end.

(** One insertion step of a stable sort by decreasing score: [x] goes
    after every element whose score is not smaller. *)
Fixpoint insert_desc (x : string * float) (l : list (string * float)) : list (string * float) :=
  match l with
  | [] => [x]
  | y :: l' => if PrimFloat.ltb (snd y) (snd x) then x :: l else y :: insert_desc x l'
  end.

(** [sorted(items, key=lambda kv: kv[1], reverse=True)]: Python's sort is
    stable, also with [reverse=True], so the result is the stable
    arrangement by decreasing score. *)
Definition sort_desc (l : list (string * float)) : list (string * float) :=
  fold_left (fun acc x => insert_desc x acc) l [].

(** The ranking step of [MatchTemplateTool.execute], from the decoded
    [tags.json] to [ranked]. *)
Definition ranked (tags : json) (req : list (string * option string)) (top_k : Z)
  : py (list (string * float)) :=
  s <- scores tags req ;;
  Ret (Rank.py_take (sort_desc s) top_k).

(** *** What the scores can be *)

(** Whether the loop adds the weight of [fe] for [tag]: the expected
    value is given and [tag.get(feature)] equals it. *)
Definition matched (tag : json) (fe : string * option string) : bool :=
  match snd fe with
  | None => false
  | Some ex =>
    match get tag (fst fe) JNull with
    | Ret v => StoreQuery.eq_str v ex
    | Raise _ => false
    end
  end.

(** The weights of the request's features, in the order of [req]. *)
Definition request_weights : list float :=
  map (fun fe => weight (fst fe)) (request None None None None None None).

(** The sum the loop forms from [acc] when the features whose bit is set
    match, added in order. *)
Fixpoint sum_sel (acc : float) (ws : list float) (bs : list bool) : float :=
  match ws, bs with
  | w :: ws', b :: bs' => sum_sel (if b then PrimFloat.add acc w else acc) ws' bs'
  | _, _ => acc
  end.

(** All bit vectors of length [n]. *)
Fixpoint all_bits (n : nat) : list (list bool) :=
  match n with
  | O => [[]]
  | S n' => app (map (cons false) (all_bits n')) (map (cons true) (all_bits n'))
  end.

(** Every score a template can get: one per set of matched features. *)
Definition score_values : list float := map (sum_sel 0.0%float request_weights) (all_bits 6).

(** [a] comes before [b] in a ranking by decreasing score. *)
Definition score_ge (a b : string * float) : Prop := PrimFloat.leb (snd b) (snd a) = true.

(** The score of a ranked entry is one of [score_values]. *)
Definition in_values (x : string * float) : Prop := In (snd x) score_values.

(** [bits_le bs cs]: every bit set in [bs] is set in [cs]. *)
Fixpoint bits_le (bs cs : list bool) : bool :=
  match bs, cs with
  | b :: bs', c :: cs' => implb b c && bits_le bs' cs'
  | [], [] => true
  | _, _ => false
  end.

End Templates.

(* ------------------------------------------------------------------ *)
(** ** [ExtractTableHTMLTool]: cleaning the provider's answer *)

Module TableHtml.
Import PyStr.

(** [[a-zA-Z]] *)
Definition is_alpha (c : ascii) : bool :=
  let n := nat_of_ascii c in
  (Nat.leb 65 n && Nat.leb n 90) || (Nat.leb 97 n && Nat.leb n 122).

Fixpoint drop_alpha (l : list ascii) : list ascii :=
  match l with
  | c :: l' => if is_alpha c then drop_alpha l' else l
  | [] => []
  end.

Definition nl_char : ascii := ascii_of_nat 10.
Definition bq : ascii := ascii_of_nat 96.

Definition is_fence (a b c : ascii) : bool := Ascii.eqb a bq && Ascii.eqb b bq && Ascii.eqb c bq.

(** [re.sub(r'^```[a-zA-Z]*\n?', '', text)]: [^] only matches at the start
    of the text, so at most one match is removed. *)
Definition sub_open_fence (text : string) : string :=
  match list_ascii_of_string text with
  | a :: b :: c :: rest =>
    if is_fence a b c then
      let rest' := drop_alpha rest in
      string_of_list_ascii (match rest' with
                            | d :: r => if Ascii.eqb d nl_char then r else rest'
                            | [] => []
                            end)
    else text
  | _ => text
  end.

(** [re.sub(r'\n?```$', '', text)]: [$] matches at the end of the text or
    before a final line break, and the leftmost match takes the line break
    in front of the fence when there is one. *)
Definition sub_close_fence (text : string) : string :=
  let r := rev (list_ascii_of_string text) in
  let '(tail, body) := match r with
                       | c :: r' => if Ascii.eqb c nl_char then ([c], r') else ([], r)
                       | [] => ([], [])
                       end in
  match body with
  | x :: y :: z :: body' =>
    if is_fence z y x then
      let body'' := match body' with
                    | n :: b => if Ascii.eqb n nl_char then b else body'
                    | [] => []
                    end in
      string_of_list_ascii (rev (app tail body''))
    else text
  | _ => text
  end.

(** The post-processing of the answer in [ExtractTableHTMLTool.execute]. *)
Definition clean (resp : string) : string :=
  let text := strip resp in
  if contains text "```" then strip (sub_close_fence (strip (sub_open_fence text)))
  else text.

End TableHtml.

(* ------------------------------------------------------------------ *)
(** ** [ReviewHTMLVisualTool.execute] *)

Module Review.
Import PyJson.

Inductive output : Type :=
| Text (s : string)
| Dumps (v : value).

(** The object returned when the payload does not decode. *)
Definition fallback (payload : string) : value :=
  VDict [(u "critic_suggestions", VList [VStr (u (substring 0 1000 payload))]);
         (u "priority", VStr (u "medium"));
         (u "revised_html_guidance", VList [])].

(** [vlm]: [None] without a provider, otherwise what [generate] gives;
    [path_exists] is [Path.exists] on the resolved path (which raises on
    an [OSError] other than a missing entry); [pil] whether Pillow
    imports; [image_load] opening, converting and resizing the screenshot;
    [room] the nesting [json.loads] can enter before the recursion limit;
    [dumps_error] says when [json.dumps(parsed, ensure_ascii=False,
    indent=2)] fails (see [PyJson.dumps]).  The fallback object is flat
    and always serialises. *)
Definition execute (room : nat) (dumps_error : value -> option string)
    (vlm : option (py string)) (env : Paths.path_env)
    (screenshot_path : string) (allowed_dir : option string)
    (path_exists : string -> py bool) (pil : bool) (image_load : py unit) : py output :=
  match vlm with
  | None => Ret (Text "Error: No VLM provider configured for visual review.")
  | Some response =>
    let body : py output :=
      path <- Paths.resolve_path env screenshot_path allowed_dir ;;
      ex <- path_exists path ;;
      if negb ex then Ret (Text ("Error: Screenshot not found: " ++ screenshot_path))
      else if negb pil then Ret (Text "Error: Pillow is required for image review (pip install pillow).")
      else
        _ <- image_load ;;
        resp <- response ;;
        payload <- Extract.autopage_extract_json resp ;;
        match (parsed <- loads room payload ;; _ <- dumps dumps_error parsed ;; Ret parsed) with
        | Ret parsed => Ret (Dumps parsed)
        | Raise (PyExc _ _) => Ret (Dumps (fallback payload))
        | Raise e => Raise e
        end in
    match body with
    | Raise (PyExc c m) =>
      if String.eqb c "PermissionError" then Ret (Text ("Error: " ++ m))
      else Ret (Text ("Error reviewing screenshot: " ++ m))
    | r => r
    end
  end.

End Review.

(* ------------------------------------------------------------------ *)
(** ** [GenerateImageTool] *)

Module GenImage.
Import Store.

(** [str(n)] for a non-negative [int]. *)
Fixpoint uint_to_string (u : Decimal.uint) : string :=
  match u with
  | Decimal.Nil => ""
  | Decimal.D0 u => String "0" (uint_to_string u)
  | Decimal.D1 u => String "1" (uint_to_string u)
  | Decimal.D2 u => String "2" (uint_to_string u)
  | Decimal.D3 u => String "3" (uint_to_string u)
  | Decimal.D4 u => String "4" (uint_to_string u)
  | Decimal.D5 u => String "5" (uint_to_string u)
  | Decimal.D6 u => String "6" (uint_to_string u)
  | Decimal.D7 u => String "7" (uint_to_string u)
  | Decimal.D8 u => String "8" (uint_to_string u)
  | Decimal.D9 u => String "9" (uint_to_string u)
  end.

Definition str_of_nat (n : nat) : string := uint_to_string (Nat.to_uint n).

(** [str(Path(p).parent)] *)
Definition parent (p : string) : string :=
  let ws := path_parts p in
  let up := firstn (List.length ws - 1) ws in
  if is_absolute p then "/" ++ String.concat "/" up
  else match up with [] => "." | _ => String.concat "/" up end.

(** What the tool's calls into its environment do: [mkdir d] is
    [Path(d).mkdir(parents=True, exist_ok=True)]; [image_gen] is [None]
    without a provider, otherwise the outcome of [generate]; [save p] is
    [image.save(p)]; [vlm] the answer of the code-writing provider;
    [code_env] what [_run_code] meets. *)
Record gen_env : Type := {
  output_dir : string;
  mkdir : string -> py unit;
  image_gen : option (py unit);
  save : string -> py unit;
  vlm : option (py string);
  code_env : Sandbox.run_env
}.

(** [GenerateImageTool._resolve_path(explicit, prefix)] at counter [counter];
    [self._output_dir] is [Path(output_dir)], whose [str] is [path_str]. *)
Definition resolve_out (env : gen_env) (counter : nat) (explicit : option string)
    (prefix : string) : py string :=
  let default :=
    _ <- mkdir env (path_str (output_dir env)) ;;
    Ret (path_join (path_str (output_dir env)) (prefix ++ "_" ++ str_of_nat counter ++ ".png")) in
  match explicit with
  | Some e =>
    if String.eqb e "" then default
    else (_ <- mkdir env (parent e) ;; Ret e)
  | None => default
  end.

Definition RETRY_HINT : string :=
  "Please retry the generate_image tool — do NOT fall back to matplotlib or LaTeX code. The image generation model is the correct approach for methodology diagrams.".

(** [GenerateImageTool._gen_diagram] *)
Definition gen_diagram (env : gen_env) (counter : nat) (description : string)
    (output_path : option string) : py string :=
  match image_gen env with
  | None => Ret ("Error: Image generation provider not configured. "
                 ++ "Set REPLICATE_API_TOKEN or GOOGLE_API_KEY environment variable.")
  | Some generate =>
    let body :=
      _ <- generate ;;
      path <- resolve_out env counter output_path "diagram" ;;
      _ <- save env path ;;
      Ret ("Diagram saved to: " ++ path) in
    match body with
    | Raise (PyExc _ m) => Ret ("Error generating diagram: " ++ m ++ nl ++ RETRY_HINT)
    | r => r
    end
  end.

(** The message returned when the generated code fails. *)
Definition plot_failure (error_msg code : string) : string :=
  "Error: Plot code execution failed." ++ nl ++ nl ++ "**Error details:**" ++ nl ++ error_msg
  ++ nl ++ nl ++ "**Generated code:**" ++ nl ++ "```python" ++ nl ++ substring 0 1000 code
  ++ nl ++ "```" ++ nl ++ nl
  ++ "Please analyze the error and retry with a corrected description "
  ++ "or use generate_image again with fixes.".

(** [GenerateImageTool._gen_plot]: [_resolve_path] runs before the [try]. *)
Definition gen_plot (env : gen_env) (counter : nat) (st : Sandbox.os_state)
    (description : string) (raw_data : option string) (output_path : option string)
  : Sandbox.os_state * py string :=
  match vlm env with
  | None => (st, Ret "Error: VLM provider not configured for plot code generation.")
  | Some response =>
    match resolve_out env counter output_path "plot" with
    | Raise e => (st, Raise e)
    | Ret path =>
      let '(st', body) :=
        match response with
        | Raise e => (st, Raise e)
        | Ret resp =>
          match Extract.extract_python resp with
          | Raise e => (st, Raise e)
          | Ret code =>
            let '(st', r) := Sandbox.run_code (code_env env) code path st in
            (st', match r with
                  | Ret (true, _) => Ret ("Plot saved to: " ++ path)
                  | Ret (false, error_msg) => Ret (plot_failure error_msg code)
                  | Raise e => Raise e
                  end)
          end
        end in
      match body with
      | Raise (PyExc _ m) => (st', Ret ("Error generating plot: " ++ m))
      | r => (st', r)
      end
    end
  end.

(** [GenerateImageTool.execute]: the counter is incremented first. *)
Definition execute (env : gen_env) (counter : nat) (st : Sandbox.os_state)
    (description diagram_type : string) (raw_data output_path : option string)
  : nat * Sandbox.os_state * py string :=
  let counter' := S counter in
  if String.eqb diagram_type "statistical_plot" then
    let '(st', r) := gen_plot env counter' st description raw_data output_path in
    (counter', st', r)
  else (counter', st, gen_diagram env counter' description output_path).

End GenImage.

(** * [ParsePaperTool._extract_figures] (src/clawphd/agent/tools/autopage.py)

    A page of the document is the list of its text-dict blocks.  The crop
    rectangle, [page.get_pixmap] and [pix.save] depend on the page geometry
    only; they are the parameters [render] (the page index, the page's
    blocks and the caption block, giving [(pix.width, pix.height)]) and
    [save] (the path written). *)
Module Figures.
Import PyStr.

(** A block of [page.get_text("dict")["blocks"]]: its [type] and, per line,
    the texts of the line's spans. *)
Record block : Type := {
  btype : Z;
  blines : list (list string)
}.

(** An entry of [figures]. *)
Record figure : Type := {
  figure_num : Z;
  page : nat;
  caption : string;
  fig_path : string;
  width : Z;
  height : Z
}.

(** [''.join(span["text"] for line in blk["lines"] for span in line["spans"])] *)
Definition block_text (b : block) : string := String.concat "" (concat (blines b)).

Fixpoint spaces (l : list ascii) : list ascii * list ascii :=
  match l with
  | c :: l' => if is_space c then let (ws, r) := spaces l' in (c :: ws, r) else ([], l)
  | [] => ([], [])
  end.

(** [Figure\s+(\d+)\s*[:.]] matched at the start of [l]: the value of the
    group.  The quantifiers are greedy and a shorter run of [\s] or [\d]
    can never be followed by what the pattern needs next, so the maximal
    runs decide the match. *)
Definition match_at (l : list ascii) : option Z :=
  match Json.lit (list_ascii_of_string "Figure") l with
  | None => None
  | Some r =>
    let (ws, r1) := spaces r in
    match ws with
    | [] => None
    | _ :: _ =>
      let (ds, r2) := Json.digits r1 in
      match ds with
      | [] => None
      | _ :: _ =>
        let (_, r3) := spaces r2 in
        match r3 with
        | c :: _ =>
          if Ascii.eqb c ":" || Ascii.eqb c "." then Some (Json.z_of_digits ds) else None
        | [] => None
        end
      end
    end
  end.

Fixpoint search_from (l : list ascii) (i : nat) : option (nat * Z) :=
  match match_at l with
  | Some n => Some (i, n)
  | None => match l with [] => None | _ :: l' => search_from l' (S i) end
  end.

(** [fig_pattern.search(text)]: [m.start()] and [int(m.group(1))]. *)
Definition search (text : string) : option (nat * Z) :=
  search_from (list_ascii_of_string text) 0.

Section Extract.
Variable render : nat -> list block -> block -> py (Z * Z).
Variable save : string -> py unit.
Variable img_dir : string.

(** [str(img_dir / fname)] *)
Definition fig_file (fig_num : Z) : string :=
  Store.path_join (Store.path_str img_dir)
    ("figure_" ++ GenImage.str_of_nat (Z.to_nat fig_num) ++ ".png").

(** The loop over the blocks of page [page_num]; [seen] and [figures] are
    threaded through. *)
Fixpoint scan_blocks (page_num : nat) (blocks blks : list block)
    (seen : list Z) (figures : list figure) : py (list Z * list figure) :=
  match blks with
  | [] => Ret (seen, figures)
  | blk :: rest =>
    if negb (Z.eqb (btype blk) 0) then scan_blocks page_num blocks rest seen figures
    else
      let text := block_text blk in
      match search text with
      | None => scan_blocks page_num blocks rest seen figures
      | Some (start, fig_num) =>
        if existsb (Z.eqb fig_num) seen then scan_blocks page_num blocks rest seen figures
        else
          let seen' := fig_num :: seen in
          let cap := strip (substring start (String.length text - start) text) in
          wh <- render page_num blocks blk ;;
          _ <- save (fig_file fig_num) ;;
          scan_blocks page_num blocks rest seen'
            (app figures [{| figure_num := fig_num; page := S page_num; caption := cap;
                             fig_path := fig_file fig_num;
                             width := fst wh; height := snd wh |}])
      end
  end.

(** [for page_num in range(len(doc))] *)
Fixpoint scan_pages (pages : list (list block)) (page_num : nat)
    (seen : list Z) (figures : list figure) : py (list figure) :=
  match pages with
  | [] => Ret figures
  | blocks :: rest =>
    r <- scan_blocks page_num blocks blocks seen figures ;;
    scan_pages rest (S page_num) (fst r) (snd r)
  end.

(** One step of the stable [list.sort] by [figure_num]: [x] goes after
    every entry whose key is not greater than its own. *)
Fixpoint insert_by_num (x : figure) (l : list figure) : list figure :=
  match l with
  | [] => [x]
  | y :: l' => if Z.ltb (figure_num x) (figure_num y) then x :: l else y :: insert_by_num x l'
  end.

(** [figures.sort(key=lambda f: f["figure_num"])] *)
Definition sort_by_num (l : list figure) : list figure :=
  fold_left (fun acc x => insert_by_num x acc) l [].

(** [_extract_figures(doc, img_dir)] *)
Definition extract_figures (pages : list (list block)) : py (list figure) :=
  figures <- scan_pages pages 0 [] [] ;;
  Ret (sort_by_num figures).

End Extract.

End Figures.

(* ------------------------------------------------------------------ *)
(** ** Claim statements and sample data used by the theorems *)

Module Samples.
Import Json Store.


(** A double quote as a one-character string. *)
Definition dq : string := String quote EmptyString.

(** [{"a":1}] *)
Definition json_a : string := "{" ++ dq ++ "a" ++ dq ++ ":1}".


(** The nesting allowance of [json.loads] in the examples. *)
Definition room : nat := 100.

(** A backslash as a one-character string. *)
Definition bs : string := String "\"%char EmptyString.




(** [```json\n{"a":1}\n```] *)
Definition fenced_json : string := "```json" ++ nl ++ json_a ++ nl ++ "```".

(** A fence tagged with another language. *)
Definition fenced_python : string := "```python" ++ nl ++ "x = 1" ++ nl ++ "```".


(** The [search_references] tool as registered in the tests, with an
    operation that answers [ok] or raises. *)
Definition search_props : list (string * Registry.prop_schema) :=
  [("source_context", {| Registry.ps_type := "string"; Registry.ps_enum := None;
                         Registry.ps_minimum := None; Registry.ps_maximum := None |});
   ("caption", {| Registry.ps_type := "string"; Registry.ps_enum := None;
                  Registry.ps_minimum := None; Registry.ps_maximum := None |});
   ("num_examples", {| Registry.ps_type := "integer"; Registry.ps_enum := None;
                       Registry.ps_minimum := Some 1%Q; Registry.ps_maximum := Some 13%Q |})].

Definition search_tool (fails : bool) : Registry.tool :=
  {| Registry.t_name := "search_references";
     Registry.t_properties := search_props;
     Registry.t_required := ["source_context"; "caption"];
     Registry.t_run := fun _ => if fails then Raise (PyExc "RuntimeError" "boom") else Ret "ok" |}.

(** A run whose interpreter cannot be started. *)
Definition spawn_fail_env : Sandbox.run_env :=
  {| Sandbox.mkdir_error := None; Sandbox.tmp_name := "/tmp/tmpk3x9.py";
     Sandbox.write_error := None;
     Sandbox.child := Sandbox.SpawnFails
                        (PyExc "FileNotFoundError" "[Errno 2] No such file or directory");
     Sandbox.exists_error := None; Sandbox.unlink_error := None |}.

(** An output file name of 300 characters. *)
Definition long_name : string := "/out/" ++ String.concat "" (repeat "a" 300) ++ ".png".

(** A child that exits with status 0 when [os.stat] of the output path
    fails with [ENAMETOOLONG]. *)
Definition long_name_env : Sandbox.run_env :=
  {| Sandbox.mkdir_error := None; Sandbox.tmp_name := "/tmp/tmpk3x9.py";
     Sandbox.write_error := None;
     Sandbox.child := Sandbox.Completes (fun fs => fs) 0 "" "" 1;
     Sandbox.exists_error := Some (PyExc "OSError" "[Errno 36] File name too long");
     Sandbox.unlink_error := None |}.

Definition empty_os : Sandbox.os_state := {| Sandbox.files := []; Sandbox.child_alive := false |}.

(** A file system without symbolic links, working directory [/ws]. *)
Definition plain_env : Paths.path_env :=
  {| Paths.home := "/root"; Paths.user_homes := []; Paths.cwd := "/ws"; Paths.links := [] |}.

(** [{"critic_suggestions": ["fix labels"], "revised_description": null}] *)
Definition critique_null : string :=
  "{" ++ dq ++ "critic_suggestions" ++ dq ++ ": [" ++ dq ++ "fix labels" ++ dq ++ "], "
      ++ dq ++ "revised_description" ++ dq ++ ": null}".

(** [{"critic_suggestions": ["Label \u03b1"], "revised_description": "x"}] *)
Definition critique_alpha : string :=
  "{" ++ dq ++ "critic_suggestions" ++ dq ++ ": [" ++ dq ++ "Label " ++ bs ++ "u03b1" ++ dq
      ++ "], " ++ dq ++ "revised_description" ++ dq ++ ": " ++ dq ++ "x" ++ dq ++ "}".

(** An index item with the three required keys and nothing else. *)
Definition item_a : json :=
  JObj [("id", JStr "a"); ("source_context", JStr "s"); ("caption", JStr "c")].

Definition ref_a : ReferenceExample :=
  {| id := JStr "a"; source_context := JStr "s"; caption := JStr "c";
     image_path := JStr ""; category := JNull |}.

(** An index whose second item has no [id]. *)
Definition broken_index : json :=
  JObj [("examples", JArr [item_a; JObj [("caption", JStr "c")]])].

(** An index with a relative, a missing and an absolute image path. *)
Definition image_index : json :=
  JObj [("examples", JArr [
    JObj [("id", JStr "r1"); ("source_context", JStr "s"); ("caption", JStr "c");
          ("image_path", JStr "img/r1.png")];
    item_a;
    JObj [("id", JStr "r3"); ("source_context", JStr "s"); ("caption", JStr "c");
          ("image_path", JStr "/data/r3.png")]])].

(** A [tags.json] with three templates. *)
Definition tags3 : json :=
  JObj [("t1", JObj [("background_color", JStr "white")]);
        ("t2", JObj [("background_color", JStr "white"); ("has_navigation", JStr "yes")]);
        ("t3", JObj [])].

(** A generator whose providers and file system calls all succeed. *)
Definition gen_env_ok : GenImage.gen_env :=
  {| GenImage.output_dir := "outputs"; GenImage.mkdir := fun _ => Ret tt;
     GenImage.image_gen := Some (Ret tt); GenImage.save := fun _ => Ret tt;
     GenImage.vlm := Some (Ret "plt.plot()"); GenImage.code_env := spawn_fail_env |}.

(** The same generator with an output directory that cannot be created. *)
Definition gen_env_ro : GenImage.gen_env :=
  {| GenImage.output_dir := "/ro/outputs";
     GenImage.mkdir := fun _ => Raise (PyExc "PermissionError" "Permission denied");
     GenImage.image_gen := Some (Ret tt); GenImage.save := fun _ => Ret tt;
     GenImage.vlm := Some (Ret "plt.plot()"); GenImage.code_env := spawn_fail_env |}.

(** A two-page document for [_extract_figures]: figure 2 before figure 1
    on page 1, a second mention of figure 1 and an image block on page 2. *)
Definition text_block (t : string) : Figures.block :=
  {| Figures.btype := 0; Figures.blines := [[t]] |}.

Definition fig_pages : list (list Figures.block) :=
  [[text_block "Figure 2: Pipeline overview"; text_block "Figure 1. Results"];
   [text_block "as in Figure 1: again"; {| Figures.btype := 1; Figures.blines := [] |};
    text_block "Figure 12 : Ablation"]].

End Samples.

(* ================================================================== *)
(** * Properties *)

(** ** String lemmas *)

Lemma substring_full : forall s, substring 0 (String.length s) s = s.
Proof. induction s as [|c s IH]; simpl; [reflexivity | now rewrite IH]. Qed.

Lemma prefix_app : forall p s, String.prefix p (p ++ s) = true.
Proof.
  induction p as [|c p IH]; intros s; simpl.
  - destruct s; reflexivity.
  - destruct (ascii_dec c c); [apply IH | congruence].
Qed.

Lemma prefix_app_inv : forall p q s, String.prefix (p ++ q) s = true -> String.prefix p s = true.
Proof.
  induction p as [|c p IH]; intros q s H; simpl in *.
  - destruct s; reflexivity.
  - destruct s as [|d s]; [discriminate|]; simpl in *.
    destruct (ascii_dec c d); [eapply IH; eauto | discriminate].
Qed.

Lemma find_rec_app : forall p q s i j,
  PyStr.find_rec (p ++ q) s i = Some j -> exists j', PyStr.find_rec p s i = Some j'.
Proof.
  intros p q s; induction s as [|c s IH]; intros i j H;
    cbn [PyStr.find_rec] in H |- *.
  - destruct (String.prefix (p ++ q) "") eqn:E.
    + rewrite (prefix_app_inv _ _ _ E); eauto.
    + discriminate.
  - destruct (String.prefix (p ++ q) (String c s)) eqn:E.
    + rewrite (prefix_app_inv _ _ _ E); eauto.
    + destruct (String.prefix p (String c s)); eauto.
Qed.

Lemma find_app : forall p q s n j,
  PyStr.find s (p ++ q) n = Some j -> exists j', PyStr.find s p n = Some j'.
Proof.
  unfold PyStr.find; intros p q s n j H.
  destruct (Nat.ltb (String.length s) n); [discriminate|].
  eapply find_rec_app; eauto.
Qed.

Lemma find_rec_here : forall sub s i,
  String.prefix sub s = true -> PyStr.find_rec sub s i = Some i.
Proof. intros sub s i H; destruct s; cbn [PyStr.find_rec]; now rewrite H. Qed.

Lemma contains_prefix : forall p s, PyStr.contains (p ++ s) p = true.
Proof.
  intros p s; unfold PyStr.contains, PyStr.find.
  replace (Nat.ltb (String.length (p ++ s)) 0) with false
    by (symmetry; apply Nat.ltb_ge; lia).
  rewrite Nat.sub_0_r, substring_full, find_rec_here by apply prefix_app.
  reflexivity.
Qed.

(** ** Response normalisation *)

(** C5 (code_bug): with an opening fence and no closing fence,
    [paperbanana._extract_python] and [paperbanana._extract_json] raise
    [ValueError] (their [str.index] for the closing fence fails), while
    the sibling [autopage._extract_json] degrades to the text after the
    opening marker. *)
Theorem extract_unclosed_fence_raises :
  Extract.extract_python ("```python" ++ nl ++ "print(1)")
    = Raise (ValueError "substring not found") /\
  Extract.extract_json ("```json" ++ nl ++ Samples.json_a)
    = Raise (ValueError "substring not found") /\
  Extract.autopage_extract_json ("```json" ++ nl ++ Samples.json_a)
    = Ret Samples.json_a.
Proof. repeat split; vm_compute; reflexivity. Qed.

Lemma contains_find : forall s sub,
  PyStr.contains s sub = match PyStr.find s sub 0 with Some _ => true | None => false end.
Proof. reflexivity. Qed.

Lemma fence_json_app : Extract.FENCE_JSON = Extract.FENCE ++ "json".
Proof. reflexivity. Qed.

(** C6 (corrected): both [_extract_json] functions, on a text whose opening
    marker has a closing fence after it, return the trimmed text between
    the first [```json] and the next [```]; when there is no [```json],
    the trimmed text between the first [```] and the next one, tag word
    included; with no fence at all, the whole text trimmed. *)
Theorem extract_json_three_tiers : forall s,
  let t := PyStr.strip s in
  (forall i e,
     PyStr.find t Extract.FENCE_JSON 0 = Some i ->
     PyStr.find t Extract.FENCE (i + 7) = Some e ->
     Extract.extract_json s = Ret (PyStr.strip (PyStr.slice t (i + 7) e)) /\
     Extract.autopage_extract_json s = Ret (PyStr.strip (PyStr.slice t (i + 7) e))) /\
  (forall i e,
     PyStr.find t Extract.FENCE_JSON 0 = None ->
     PyStr.find t Extract.FENCE 0 = Some i ->
     PyStr.find t Extract.FENCE (i + 3) = Some e ->
     Extract.extract_json s = Ret (PyStr.strip (PyStr.slice t (i + 3) e)) /\
     Extract.autopage_extract_json s = Ret (PyStr.strip (PyStr.slice t (i + 3) e))) /\
  (PyStr.find t Extract.FENCE 0 = None ->
     Extract.extract_json s = Ret t /\ Extract.autopage_extract_json s = Ret t).
Proof.
  intros s t; unfold Extract.extract_json, Extract.autopage_extract_json, PyStr.index.
  fold t; rewrite !contains_find.
  replace (String.length Extract.FENCE_JSON) with 7 by reflexivity.
  replace (String.length Extract.FENCE) with 3 by reflexivity.
  split; [|split].
  - intros i e Hi He; rewrite Hi; simpl; rewrite He; split; reflexivity.
  - intros i e Hn Hi He; rewrite Hn, Hi; simpl; rewrite He; split; reflexivity.
  - intros Hn.
    assert (Hj : PyStr.find t Extract.FENCE_JSON 0 = None).
    { destruct (PyStr.find t Extract.FENCE_JSON 0) eqn:E; [|reflexivity].
      rewrite fence_json_app in E; apply find_app in E; destruct E as [j' E].
      congruence. }
    rewrite Hj, Hn; split; reflexivity.
Qed.

(** Witness of [extract_json_three_tiers]: the tests' fenced [{"a":1}]. *)
Lemma extract_json_three_tiers_witness :
  Extract.extract_json Samples.fenced_json = Ret Samples.json_a /\
  Extract.autopage_extract_json Samples.fenced_json = Ret Samples.json_a.
Proof.
  destruct (proj1 (extract_json_three_tiers Samples.fenced_json) 0 16
              ltac:(vm_compute; reflexivity) ltac:(vm_compute; reflexivity)) as [H1 H2].
  split; [rewrite H1 | rewrite H2]; vm_compute; reflexivity.
Defined.

(** Counterexample to C6 as stated: [```python\nx = 1\n```] has no
    [```json] fence and no untagged fence (no [```] followed by a line
    break), yet the result is not the trimmed input: the first [```] is
    taken as a generic fence and its tag word stays in the body. *)
Lemma extract_json_other_tag_cex :
  PyStr.contains Samples.fenced_python Extract.FENCE_JSON = false /\
  PyStr.contains Samples.fenced_python (Extract.FENCE ++ nl) = false /\
  Extract.extract_json Samples.fenced_python = Ret ("python" ++ nl ++ "x = 1") /\
  Extract.autopage_extract_json Samples.fenced_python = Ret ("python" ++ nl ++ "x = 1") /\
  Extract.extract_json Samples.fenced_python <> Ret (PyStr.strip Samples.fenced_python).
Proof.
  repeat split; try (vm_compute; reflexivity).
  vm_compute; intro H; discriminate H.
Qed.

(** ** Tool registry *)

Lemma first_some_in : forall {A} (f : A -> option string) l x m,
  In x l -> f x = Some m -> exists m', Registry.first_some f l = Some m'.
Proof.
  intros A f l; induction l as [|y l IH]; intros x m Hin Hf; [destruct Hin|].
  simpl; destruct (f y) eqn:E; [eauto|].
  destruct Hin as [<-|Hin]; [congruence | eauto].
Qed.

(** C1 (confirmed, registry modelled from the spec): [execute] always
    returns a text; for a registered tool, a missing required argument
    gives a text containing ["Invalid parameters"], and an exception of
    the tool's operation on valid arguments gives a text starting with
    ["Error: "]. *)
Theorem registry_execute_never_raises : forall reg name args,
  (exists s, Registry.execute reg name args = Ret s) /\
  (forall t, Registry.find_tool reg name = Some t ->
     (forall r, In r (Registry.t_required t) -> Registry.lookup r args = None ->
        exists s, Registry.execute reg name args = Ret s /\
                  PyStr.contains s "Invalid parameters" = true) /\
     (Registry.validate t args = None -> forall e, Registry.t_run t args = Raise e ->
        Registry.execute reg name args = Ret ("Error: " ++ exc_str e) /\
        PyStr.startswith ("Error: " ++ exc_str e) "Error: " = true)).
Proof.
  intros reg name args; split.
  - unfold Registry.execute.
    destruct (Registry.find_tool reg name) as [t|]; [|eauto].
    destruct (Registry.validate t args); [eauto|].
    destruct (Registry.t_run t args); eauto.
  - intros t Ht; split.
    + intros r Hin Hr; unfold Registry.execute; rewrite Ht.
      assert (Hv : exists m, Registry.validate t args = Some m).
      { unfold Registry.validate.
        destruct (first_some_in
                    (fun r => match Registry.lookup r args with
                              | None => Some ("missing required " ++ r)
                              | Some _ => None
                              end) (Registry.t_required t) r ("missing required " ++ r) Hin)
          as [m Hm]; [rewrite Hr; reflexivity|].
        rewrite Hm; eauto. }
      destruct Hv as [m Hm]; rewrite Hm.
      eexists; split; [reflexivity|].
      change ("Invalid parameters: " ++ m) with ("Invalid parameters" ++ (": " ++ m)).
      apply contains_prefix.
    + intros Hv e He; unfold Registry.execute; rewrite Ht, Hv, He.
      split; [reflexivity | apply prefix_app].
Qed.

(** Witness of [registry_execute_never_raises]: the tests' call of
    [search_references] without [caption]. *)
Lemma registry_execute_never_raises_witness :
  exists s, Registry.execute [Samples.search_tool false] "search_references"
              [("source_context", Registry.AStr "text")] = Ret s /\
            PyStr.contains s "Invalid parameters" = true.
Proof.
  exact (proj1 (proj2 (registry_execute_never_raises [Samples.search_tool false]
                  "search_references" [("source_context", Registry.AStr "text")])
                  (Samples.search_tool false) eq_refl)
            "caption" (or_intror (or_introl eq_refl)) eq_refl).
Defined.

(** ** Sandboxed code runner *)

Lemma find_rec_infix : forall a b c i,
  exists j, PyStr.find_rec b (a ++ b ++ c) i = Some j.
Proof.
  induction a as [|x a IH]; intros b c i.
  - exists i; simpl; apply find_rec_here, prefix_app.
  - cbn [append PyStr.find_rec].
    destruct (String.prefix b (String x (a ++ b ++ c))); eauto.
Qed.

Lemma contains_infix : forall a b c, PyStr.contains (a ++ b ++ c) b = true.
Proof.
  intros a b c; unfold PyStr.contains, PyStr.find.
  replace (Nat.ltb (String.length (a ++ b ++ c)) 0) with false
    by (symmetry; apply Nat.ltb_ge; lia).
  rewrite Nat.sub_0_r, substring_full.
  destruct (find_rec_infix a b c 0) as [j ->]; reflexivity.
Qed.

Lemma contains_empty : forall s, PyStr.contains s "" = true.
Proof.
  intros s; unfold PyStr.contains, PyStr.find.
  replace (Nat.ltb (String.length s) 0) with false
    by (symmetry; apply Nat.ltb_ge; lia).
  rewrite Nat.sub_0_r, substring_full, find_rec_here; [reflexivity | destruct s; reflexivity].
Qed.

Lemma str_app_nil_r : forall s, s ++ "" = s.
Proof. induction s as [|c s IH]; simpl; [reflexivity | now rewrite IH]. Qed.

Lemma str_app_assoc : forall a b c, (a ++ b) ++ c = a ++ b ++ c.
Proof. induction a as [|x a IH]; intros b c; simpl; [reflexivity | now rewrite IH]. Qed.

Lemma contains_suffix : forall a b, PyStr.contains (a ++ b) b = true.
Proof.
  intros a b; pose proof (contains_infix a b "") as H.
  now rewrite str_app_nil_r in H.
Qed.

(** The diagnostic text of a non-zero exit holds both captured streams
    unchanged. *)
Lemma error_details_verbatim : forall so se,
  PyStr.contains (Sandbox.error_details so se) so = true /\
  PyStr.contains (Sandbox.error_details so se) se = true.
Proof.
  intros so se; unfold Sandbox.error_details.
  destruct (String.eqb so "") eqn:E1, (String.eqb se "") eqn:E2;
    cbv beta iota zeta delta [app String.concat];
    try apply String.eqb_eq in E1; try apply String.eqb_eq in E2; subst.
  - split; apply contains_empty.
  - split; [apply contains_empty|].
    rewrite <- str_app_assoc; apply contains_suffix.
  - split; [|apply contains_empty].
    rewrite <- str_app_assoc; apply contains_suffix.
  - split.
    + replace (("STDOUT:" ++ nl ++ so) ++ (nl ++ nl) ++ "STDERR:" ++ nl ++ se)
        with (("STDOUT:" ++ nl) ++ so ++ ((nl ++ nl) ++ "STDERR:" ++ nl ++ se))
        by (rewrite !str_app_assoc; reflexivity).
      apply contains_infix.
    + replace (("STDOUT:" ++ nl ++ so) ++ (nl ++ nl) ++ "STDERR:" ++ nl ++ se)
        with ((("STDOUT:" ++ nl ++ so) ++ (nl ++ nl) ++ "STDERR:" ++ nl) ++ se)
        by (rewrite !str_app_assoc; reflexivity).
      apply contains_suffix.
Qed.

(** C2 (confirmed): the temporary source file is gone after [_run_code]
    whenever the call returns, and on every behaviour of the child
    (zero exit, non-zero exit, timeout, spawn or wait error) once the
    output directory and the temporary file could be created and the
    file can be unlinked. *)
Theorem run_code_removes_tmp : forall env code out st,
  (forall r, snd (Sandbox.run_code env code out st) = Ret r ->
     ~ In (Sandbox.tmp_name env) (Sandbox.files (fst (Sandbox.run_code env code out st)))) /\
  (Sandbox.mkdir_error env = None -> Sandbox.write_error env = None ->
   Sandbox.unlink_error env = None ->
     ~ In (Sandbox.tmp_name env) (Sandbox.files (fst (Sandbox.run_code env code out st)))).
Proof.
  intros env code out st; unfold Sandbox.run_code.
  destruct (Sandbox.mkdir_error env) as [e|]; [split; [intros ? Hr; discriminate Hr | congruence]|].
  destruct (Sandbox.write_error env) as [e|]; [split; [intros ? Hr; discriminate Hr | congruence]|].
  destruct (Sandbox.subprocess_run _ _) as [st2 r].
  destruct (Sandbox.unlink_error env) as [e|]; [split; [intros ? Hr; discriminate Hr | congruence]|].
  split; [intros ? ?|intros ? ? ?]; simpl; apply remove_In.
Qed.

(** Witness of [run_code_removes_tmp]: a run whose interpreter cannot be
    started. *)
Lemma run_code_removes_tmp_witness :
  ~ In "/tmp/tmpk3x9.py"
      (Sandbox.files (fst (Sandbox.run_code Samples.spawn_fail_env "pass" "/out/plot_1.png"
                                            Samples.empty_os))).
Proof.
  exact (proj2 (run_code_removes_tmp Samples.spawn_fail_env "pass" "/out/plot_1.png"
                  Samples.empty_os) eq_refl eq_refl eq_refl).
Defined.

(** Counterexample to C3 as stated: when the interpreter cannot be
    spawned, [_run_code] reports a fifth outcome,
    ["Unexpected error: ..."], which is none of the four listed. *)
Lemma run_code_spawn_error_cex :
  snd (Sandbox.run_code Samples.spawn_fail_env "pass" "/out/plot_1.png" Samples.empty_os)
    = Ret (false, "Unexpected error: [Errno 2] No such file or directory") /\
  ~ Sandbox.claimed_four_outcomes (Sandbox.child Samples.spawn_fail_env) "/out/plot_1.png"
      (fst (Sandbox.run_code Samples.spawn_fail_env "pass" "/out/plot_1.png" Samples.empty_os))
      (snd (Sandbox.run_code Samples.spawn_fail_env "pass" "/out/plot_1.png" Samples.empty_os)).
Proof.
  split; [reflexivity|].
  unfold Sandbox.claimed_four_outcomes; simpl.
  intros [H|[H|[H|H]]]; decompose record H; discriminate.
Qed.

(** C3 (corrected): once the output directory and the temporary file are
    created and the file can be unlinked, [_run_code] has these outcomes: a
    timeout (the child killed) gives the fixed timeout message; a non-zero
    exit gives the captured stdout and stderr verbatim; after a zero exit,
    an [OSError] of [Path(output_path).exists()] gives
    ["Unexpected error: ..."], and otherwise the result is success if the
    output path exists after the child ran and the "no output" failure if
    not; an [Exception] raised while spawning or waiting gives
    ["Unexpected error: ..."] (a [BaseException] propagates). *)
Theorem run_code_outcomes : forall env code out st,
  Sandbox.mkdir_error env = None -> Sandbox.write_error env = None ->
  Sandbox.unlink_error env = None ->
  let res := Sandbox.run_code env code out st in
  match Sandbox.child env with
  | Sandbox.Completes eff rc so se secs =>
    Sandbox.child_alive (fst res) = false /\
    (if (Sandbox.TIMEOUT <? secs)%Z then snd res = Ret (false, Sandbox.MSG_TIMEOUT)
     else if negb (rc =? 0)%Z then
       snd res = Ret (false, Sandbox.error_details so se) /\
       PyStr.contains (Sandbox.error_details so se) so = true /\
       PyStr.contains (Sandbox.error_details so se) se = true
     else match Sandbox.exists_error env with
          | Some (PyExc c m) =>
            snd res = Ret (false, if String.eqb c "TimeoutExpired" then Sandbox.MSG_TIMEOUT
                                  else "Unexpected error: " ++ m)
          | Some e => snd res = Raise e
          | None =>
            if existsb (String.eqb out) (eff (app (Sandbox.files st) [Sandbox.tmp_name env]))
            then snd res = Ret (true, "")
            else snd res = Ret (false, Sandbox.MSG_NO_OUTPUT)
          end)
  | Sandbox.SpawnFails e | Sandbox.WaitFails _ e =>
    snd res = match e with
              | PyExc c m =>
                Ret (false, if String.eqb c "TimeoutExpired" then Sandbox.MSG_TIMEOUT
                            else "Unexpected error: " ++ m)
              | PyBaseExc _ _ => Raise e
              end
  end.
Proof.
  intros env code out st H1 H2 H3 res; subst res; unfold Sandbox.run_code.
  rewrite H1, H2.
  destruct (Sandbox.child env) as [e|eff rc so se secs|eff e]; unfold Sandbox.subprocess_run.
  - rewrite H3; destruct e as [c m|c m]; simpl;
      [destruct (String.eqb c "TimeoutExpired")|]; reflexivity.
  - destruct (Sandbox.TIMEOUT <? secs)%Z.
    + rewrite H3; split; reflexivity.
    + rewrite H3; simpl; split; [reflexivity|].
      destruct (negb (rc =? 0)%Z).
      * split; [reflexivity | apply error_details_verbatim].
      * destruct (Sandbox.exists_error env) as [[c m|c m]|]; simpl;
          [destruct (String.eqb c "TimeoutExpired") | | unfold Sandbox.exists_file; simpl;
           destruct (existsb (String.eqb out) _)]; reflexivity.
  - rewrite H3; destruct e as [c m|c m]; simpl;
      [destruct (String.eqb c "TimeoutExpired")|]; reflexivity.
Qed.

(** Witness of [run_code_outcomes]: the spawn failure, and a zero exit
    whose output path has a name too long for the file system. *)
Lemma run_code_outcomes_witness :
  snd (Sandbox.run_code Samples.spawn_fail_env "pass" "/out/plot_1.png" Samples.empty_os)
    = Ret (false, "Unexpected error: [Errno 2] No such file or directory") /\
  snd (Sandbox.run_code Samples.long_name_env "pass" Samples.long_name Samples.empty_os)
    = Ret (false, "Unexpected error: [Errno 36] File name too long").
Proof.
  split.
  - exact (run_code_outcomes Samples.spawn_fail_env "pass" "/out/plot_1.png" Samples.empty_os
             eq_refl eq_refl eq_refl).
  - exact (proj2 (run_code_outcomes Samples.long_name_env "pass" Samples.long_name Samples.empty_os
                    eq_refl eq_refl eq_refl)).
Defined.

(** ** Path resolution *)

(** What the check of [_resolve_path] does guarantee: a returned path has
    the resolved allowed directory as a string prefix. *)
Lemma bind_Ret : forall {A B} (a : A) (f : A -> py B), py_bind (Ret a) f = f a.
Proof. reflexivity. Qed.
Lemma bind_Raise : forall {A B} e (f : A -> py B), py_bind (Raise e) f = Raise e.
Proof. reflexivity. Qed.
Lemma resolve_path_string_prefix : forall env p ad r,
  Paths.resolve_path env p (Some ad) = Ret r ->
  exists root, Paths.resolve env ad = Ret root /\ PyStr.startswith r root = true.
Proof.
  intros env p ad r H; unfold Paths.resolve_path in H.
  destruct (Paths.expanduser env p) as [p1|e]; rewrite ?bind_Ret, ?bind_Raise in H; [|discriminate H].
  destruct (Paths.resolve env p1) as [r1|e]; rewrite ?bind_Ret, ?bind_Raise in H; [|discriminate H].
  destruct (Paths.resolve env ad) as [root|e]; rewrite ?bind_Ret, ?bind_Raise in H; [|discriminate H].
  exists root; split; [reflexivity|].
  destruct (PyStr.startswith r1 root) eqn:E; [|discriminate H].
  injection H as <-; exact E.
Qed.

(** C4 (code_bug): [_resolve_path] compares strings, so under the allowed
    root [/ws] the sibling path [/wsevil/secret] is returned although it is
    outside [/ws]; [/etc/passwd] is refused and [/ws/a/../b] resolves to
    [/ws/b] as the claim says. *)
Theorem resolve_path_sibling_prefix_escape :
  Paths.resolve_path Samples.plain_env "/wsevil/secret" (Some "/ws") = Ret "/wsevil/secret" /\
  Paths.within "/ws" "/wsevil/secret" = false /\
  Paths.resolve_path Samples.plain_env "/etc/passwd" (Some "/ws")
    = Raise (PyExc "PermissionError" "Path /etc/passwd is outside allowed directory /ws") /\
  Paths.resolve_path Samples.plain_env "/ws/a/../b" (Some "/ws") = Ret "/ws/b" /\
  Paths.within "/ws" "/ws/b" = true.
Proof. repeat split; vm_compute; reflexivity. Qed.

(** ** Reference selection *)

Lemma in_firstn_l : forall {A} n (l : list A) x, In x (firstn n l) -> In x l.
Proof.
  intros A n l x H; rewrite <- (firstn_skipn n l); apply in_or_app; now left.
Qed.

(** [json.loads] raises only subclasses of [Exception]. *)
Definition no_base_exc {A} (r : py A) : Prop := forall c m, r <> Raise (PyBaseExc c m).

Lemma no_base_Ret : forall {A} (a : A), no_base_exc (Ret a).
Proof. intros A a c m; discriminate. Qed.

Lemma no_base_PyExc : forall {A} c m, no_base_exc (@Raise A (PyExc c m)).
Proof. intros A c m c' m'; discriminate. Qed.

Lemma no_base_Raise : forall {A B} e, no_base_exc (@Raise A e) -> no_base_exc (@Raise B e).
Proof. intros A B e H c m E; injection E as ->; exact (H c m eq_refl). Qed.

Lemma cons_str_no_base : forall x r, no_base_exc r -> no_base_exc (PyJson.cons_str x r).
Proof.
  intros x [[s rest]|e] H c m; simpl; [discriminate|]; exact (H c m).
Qed.

Ltac py_split :=
  repeat match goal with
  | |- context [if ?b then _ else _] => destruct b
  | |- context [match ?x with _ => _ end] => destruct x
  end.

Lemma str_body_no_base : forall l, no_base_exc (PyJson.str_body l).
Proof.
  intro l; remember (List.length l) as n eqn:Hn; revert l Hn.
  induction n as [n IH] using lt_wf_ind; intros [|a l1] Hn; [apply no_base_PyExc|].
  cbn [PyJson.str_body]; py_split;
    solve [ apply no_base_PyExc | apply no_base_Ret
          | apply cons_str_no_base; eapply IH; [|reflexivity]; subst n; simpl; lia ].
Qed.

Lemma number_no_base : forall l, no_base_exc (PyJson.number l).
Proof.
  intro l; unfold PyJson.number, PyJson.int_of_digits; py_split;
    solve [apply no_base_PyExc | apply no_base_Ret].
Qed.

Lemma scan_no_base : forall fuel room,
  (forall l, no_base_exc (PyJson.scan fuel room l)) /\
  (forall l acc, no_base_exc (PyJson.elems fuel room l acc)) /\
  (forall l acc, no_base_exc (PyJson.members fuel room l acc)).
Proof.
  induction fuel as [|f IH]; intro room;
    [repeat split; intros; apply no_base_PyExc|].
  split; [|split]; intros l.
  - revert room; destruct l as [|a r]; intro room; [apply no_base_PyExc|].
    cbn [PyJson.scan].
    destruct (Ascii.eqb a Json.quote).
    { pose proof (str_body_no_base r) as H.
      destruct (PyJson.str_body r) as [[s r']|e]; [apply no_base_Ret|exact (no_base_Raise e H)]. }
    destruct (Ascii.eqb a "[").
    { destruct room as [|room']; [apply no_base_PyExc|].
      destruct (Json.skip_ws r) as [|d r']; [apply no_base_PyExc|].
      destruct (Ascii.eqb d "]"); [apply no_base_Ret|apply (proj1 (proj2 (IH room')))]. }
    destruct (Ascii.eqb a "{").
    { destruct room as [|room']; [apply no_base_PyExc|].
      destruct (Json.skip_ws r) as [|d r']; [apply no_base_PyExc|].
      destruct (Ascii.eqb d "}"); [apply no_base_Ret|apply (proj2 (proj2 (IH room')))]. }
    repeat match goal with
    | |- context [match Json.lit ?w ?x with _ => _ end] => destruct (Json.lit w x)
    end; solve [apply no_base_Ret | apply number_no_base].
  - intros acc; cbn [PyJson.elems].
    pose proof (proj1 (IH room) l) as H.
    destruct (PyJson.scan f room l) as [[v r]|e]; [|exact H].
    destruct (Json.skip_ws r) as [|d r']; [apply no_base_PyExc|].
    destruct (Ascii.eqb d ","); [apply (proj1 (proj2 (IH room)))|].
    destruct (Ascii.eqb d "]"); [apply no_base_Ret|apply no_base_PyExc].
  - intros acc; cbn [PyJson.members].
    destruct l as [|a r]; [apply no_base_PyExc|].
    destruct (negb (Ascii.eqb a Json.quote)); [apply no_base_PyExc|].
    pose proof (str_body_no_base r) as H.
    destruct (PyJson.str_body r) as [[k r1]|e]; [|exact (no_base_Raise e H)].
    destruct (Json.skip_ws r1) as [|d r2]; [apply no_base_PyExc|].
    destruct (negb (Ascii.eqb d ":")); [apply no_base_PyExc|].
    pose proof (proj1 (IH room) (Json.skip_ws r2)) as H2.
    destruct (PyJson.scan f room (Json.skip_ws r2)) as [[v r3]|e]; [|exact H2].
    destruct (Json.skip_ws r3) as [|d' r4]; [apply no_base_PyExc|].
    destruct (Ascii.eqb d' ","); [apply (proj2 (proj2 (IH room)))|].
    destruct (Ascii.eqb d' "}"); [apply no_base_Ret|apply no_base_PyExc].
Qed.

Lemma loads_exc : forall room s e, PyJson.loads room s = Raise e -> exists c m, e = PyExc c m.
Proof.
  intros room s e H; unfold PyJson.loads in H.
  pose proof (proj1 (scan_no_base (2 * List.length (Json.skip_ws (list_ascii_of_string s)) + 2) room)
                (Json.skip_ws (list_ascii_of_string s))) as Hs.
  destruct (PyJson.scan _ room _) as [[v r]|e'] eqn:E.
  - destruct (Json.skip_ws r); [discriminate|injection H as <-; unfold PyJson.decode_error; eauto].
  - injection H as <-; destruct e' as [c m|c m]; [eauto|exfalso; exact (Hs c m eq_refl)].
Qed.

(** *** The fuel of [loads] is enough *)

Lemma digits_app : forall l ds r, Json.digits l = (ds, r) -> l = app ds r.
Proof.
  induction l as [|c l IH]; intros ds r H; cbn [Json.digits] in H.
  - injection H as <- <-; reflexivity.
  - destruct (Json.is_digit c).
    + destruct (Json.digits l) as [ds' r'] eqn:E; injection H as <- <-.
      cbn [app]; f_equal; apply IH; reflexivity.
    + injection H as <- <-; reflexivity.
Qed.

Lemma skip_ws_le : forall l, List.length (Json.skip_ws l) <= List.length l.
Proof.
  induction l as [|c l IH]; cbn [Json.skip_ws]; [lia|].
  destruct (Json.is_ws c); cbn [List.length]; lia.
Qed.

Lemma lit_len : forall w l r, Json.lit w l = Some r -> List.length l = List.length w + List.length r.
Proof.
  induction w as [|c w IH]; intros l r H; cbn [Json.lit] in H.
  - injection H as <-; reflexivity.
  - destruct l as [|d l]; [discriminate H|].
    destruct (Ascii.eqb c d); [|discriminate H].
    cbn [List.length]; rewrite (IH l r H); lia.
Qed.

Lemma cons_str_ret : forall x r s rest,
  PyJson.cons_str x r = Ret (s, rest) -> exists s', r = Ret (s', rest).
Proof.
  intros x [[s' rest']|e] s rest H; cbn in H; [injection H as _ <-; eauto|discriminate H].
Qed.

(** Case analysis on a hypothesis, innermost [match] first, keeping
    the equations of the scrutinees. *)
Ltac inner_split H :=
  repeat (cbv beta iota zeta in H;
    match type of H with
    | context [match ?x with _ => _ end] =>
      lazymatch x with
      | context [match _ with _ => _ end] => fail
      | _ => let E := fresh "E" in destruct x eqn:E
      end
    end).

Lemma str_body_len : forall l s r, PyJson.str_body l = Ret (s, r) -> List.length r < List.length l.
Proof.
  assert (G : forall n l s r, PyJson.str_body l = Ret (s, r) -> List.length l <= n ->
                List.length r < List.length l).
  { induction n as [|n IH]; intros [|a l1] s r H Hn; try discriminate H;
      [cbn [List.length] in Hn; lia|].
    cbn [PyJson.str_body] in H; inner_split H;
      try discriminate H;
      try (injection H as _ <-; cbn [List.length]; lia);
      (apply cons_str_ret in H as [s' H]; pose proof (IH _ _ _ H) as Hl;
       cbn [List.length] in *; specialize (Hl ltac:(lia)); lia). }
  intros l s r H; exact (G _ l s r H (le_n _)).
Qed.

Lemma number_len : forall l v r, PyJson.number l = Ret (v, r) -> List.length r < List.length l.
Proof.
  intros l v r H; unfold PyJson.number, PyJson.int_of_digits, py_bind in H.
  inner_split H; try discriminate H;
  repeat match goal with E : Json.digits _ = (_, _) |- _ => apply digits_app in E end;
  injection H as _ <-; subst; try discriminate; cbn [List.length app] in *;
  rewrite ?length_app in *; cbn [List.length] in *; try lia.
  all: repeat match goal with E : _ = _ |- _ => progress (injection E as E) end.
  all: subst; try discriminate; cbn [List.length app] in *; rewrite ?length_app in *; cbn [List.length] in *; try lia.
  all: repeat (rewrite length_app || cbn [List.length]); lia.
Qed.

Ltac len_facts IH :=
  repeat match goal with
  | E : Json.skip_ws ?x = ?y |- _ =>
      let h := fresh "L" in pose proof (skip_ws_le x) as h; rewrite E in h; clear E
  | E : PyJson.str_body _ = Ret (_, _) |- _ => apply str_body_len in E
  | E : PyJson.number _ = Ret (_, _) |- _ => apply number_len in E
  | E : Json.lit _ _ = Some _ |- _ => apply lit_len in E; simpl in E
  | E : PyJson.scan _ _ _ = Ret (_, _) |- _ => apply (proj1 IH) in E
  | E : PyJson.elems _ _ _ _ = Ret (_, _) |- _ => apply (proj1 (proj2 IH)) in E
  | E : PyJson.members _ _ _ _ = Ret (_, _) |- _ => apply (proj2 (proj2 IH)) in E
  end;
  repeat match goal with
  | H : context [Json.skip_ws ?x] |- _ =>
      let h := fresh "L" in let y := fresh "w" in
      pose proof (skip_ws_le x) as h; set (y := Json.skip_ws x) in *; clearbody y
  end.

Lemma scan_len : forall F,
  (forall room l v r, PyJson.scan F room l = Ret (v, r) -> List.length r < List.length l) /\
  (forall room l acc v r, PyJson.elems F room l acc = Ret (v, r) -> List.length r < List.length l) /\
  (forall room l acc v r, PyJson.members F room l acc = Ret (v, r) -> List.length r < List.length l).
Proof.
  induction F as [|f IH]; [repeat split; intros; discriminate|].
  repeat split; intros room l; [intros v r H|intros acc v r H|intros acc v r H];
    cbn [PyJson.scan PyJson.elems PyJson.members] in H; inner_split H; try discriminate H;
    try (injection H as _ <-); subst; len_facts IH; cbn [List.length] in *; try lia.
Qed.

Lemma scan_fuel : forall F,
  (forall G room l, 2 * List.length l <= F -> 2 * List.length l <= G ->
     PyJson.scan F room l = PyJson.scan G room l) /\
  (forall G room l acc, 2 * List.length l + 1 <= F -> 2 * List.length l + 1 <= G ->
     PyJson.elems F room l acc = PyJson.elems G room l acc) /\
  (forall G room l acc, 2 * List.length l + 1 <= F -> 2 * List.length l + 1 <= G ->
     PyJson.members F room l acc = PyJson.members G room l acc).
Proof.
  induction F as [|f IH].
  - split; [|split; intros G room l acc HF HG; lia]; intros G room l HF HG.
    destruct l; [|cbn [List.length] in HF; lia]. destruct G; reflexivity.
  - split; [|split]; [intros [|g] room l HF HG|intros [|g] room l acc HF HG ..];
      try (destruct l; [destruct f; reflexivity|cbn [List.length] in HG; lia]); try lia.
    + cbn [PyJson.scan]. destruct l as [|c r]; [reflexivity|]. cbn [List.length] in HF, HG.
      destruct (Ascii.eqb c Json.quote); [reflexivity|].
      destruct (Ascii.eqb c "["); [|destruct (Ascii.eqb c "{"); [|reflexivity]];
        (destruct room; [reflexivity|]); pose proof (skip_ws_le r) as L;
        (destruct (Json.skip_ws r) as [|d r']; [reflexivity|]); cbn [List.length] in L;
        [destruct (Ascii.eqb d "]")|destruct (Ascii.eqb d "}")]; try reflexivity;
        [apply (proj1 (proj2 IH))|apply (proj2 (proj2 IH))]; cbn [List.length]; lia.
    + cbn [PyJson.elems]. rewrite <- (proj1 IH g) by lia.
      destruct (PyJson.scan f room l) as [[v r]|e] eqn:Es; [|reflexivity].
      apply (proj1 (scan_len f)) in Es.
      pose proof (skip_ws_le r) as L.
      destruct (Json.skip_ws r) as [|d r']; [reflexivity|]; cbn [List.length] in L.
      destruct (Ascii.eqb d ","); [|reflexivity].
      pose proof (skip_ws_le r') as L'. apply (proj1 (proj2 IH)); lia.
    + cbn [PyJson.members]. destruct l as [|c r]; [reflexivity|]. cbn [List.length] in HF, HG.
      destruct (negb (Ascii.eqb c Json.quote)); [reflexivity|].
      destruct (PyJson.str_body r) as [[k r1]|e] eqn:Eb; [|reflexivity].
      apply str_body_len in Eb.
      pose proof (skip_ws_le r1) as L1.
      destruct (Json.skip_ws r1) as [|d r2]; [reflexivity|]; cbn [List.length] in L1.
      destruct (negb (Ascii.eqb d ":")); [reflexivity|].
      pose proof (skip_ws_le r2) as L2.
      rewrite <- (proj1 IH g) by lia.
      destruct (PyJson.scan f room (Json.skip_ws r2)) as [[v r3]|e] eqn:Es; [|reflexivity].
      apply (proj1 (scan_len f)) in Es.
      pose proof (skip_ws_le r3) as L3.
      destruct (Json.skip_ws r3) as [|d' r4]; [reflexivity|]; cbn [List.length] in L3.
      destruct (Ascii.eqb d' ","); [|reflexivity].
      pose proof (skip_ws_le r4) as L4. apply (proj2 (proj2 IH)); lia.
Qed.

Lemma loads_fuel : forall F room l, 2 * List.length l <= F ->
  PyJson.scan F room l = PyJson.scan (2 * List.length l + 2) room l.
Proof. intros F room l H; apply (proj1 (scan_fuel F)); lia. Qed.


















(** ** Reference store *)

Lemma load_ok_loaded : forall fs st st1 u,
  Store.load fs st = (st1, Ret u) -> Store.loaded st1 = true.
Proof.
  intros fs st st1 u H; unfold Store.load in H.
  destruct (Store.loaded st) eqn:L; [injection H as <- _; exact L|].
  destruct fs as [[data|e]|]; [| discriminate H | injection H as <- _; reflexivity].
  destruct (Json.get data "examples" (Json.JArr [])) as [items|e]; [|discriminate H].
  destruct (Json.iter items) as [its|e]; [|discriminate H].
  destruct (Store.append_items (Store.path st) (Store.examples st) its) as [exs [u'|e]];
    [injection H as <- _; reflexivity | discriminate H].
Qed.

(** C9: a new store whose directory has no [index.json] gives the empty
    list and counts as loaded; after a [get_all] that returns, the store is
    loaded and every later [get_all] returns the same list and leaves the
    store unchanged, whatever the index file holds by then. *)
Theorem get_all_missing_index_and_cache :
  (forall p, Store.get_all None (Store.new_store p)
             = ({| Store.path := Store.path_str p; Store.examples := []; Store.loaded := true |}, Ret [])) /\
  (forall fs st st' xs, Store.get_all fs st = (st', Ret xs) ->
     Store.loaded st' = true /\ Store.examples st' = xs /\
     forall fs', Store.get_all fs' st' = (st', Ret xs)).
Proof.
  split; [reflexivity|].
  intros fs st st' xs H; unfold Store.get_all in H.
  destruct (Store.load fs st) as [st1 r] eqn:E; injection H as <- Hr.
  destruct r as [u|e]; [|discriminate Hr]; rewrite bind_Ret in Hr; injection Hr as <-.
  pose proof (load_ok_loaded fs st st1 u E) as L.
  split; [exact L|split; [reflexivity|]].
  intro fs'; unfold Store.get_all, Store.load; rewrite L; reflexivity.
Qed.

(** Witness of C9: the store loaded from a missing index answers [[]]
    again when the index later cannot be read. *)
Lemma get_all_missing_index_and_cache_witness :
  Store.get_all (Some (Raise (PyExc "OSError" "I/O error")))
                (fst (Store.get_all None (Store.new_store "refs")))
    = (fst (Store.get_all None (Store.new_store "refs")), Ret []).
Proof.
  destruct get_all_missing_index_and_cache as [_ H].
  exact (proj2 (proj2 (H None (Store.new_store "refs") _ [] eq_refl)) _).
Defined.

(** ** Critique *)

(** C10: when the provider answers, the image loads, and the extracted
    payload decodes to a JSON object, the only JSON result the tool can
    return is the object whose [needs_revision] is
    [bool(suggestions and revised)]: true exactly when both fields are
    truthy; for a list of suggestions, exactly when the list is non-empty
    and [revised_description] is truthy.  It is returned whenever
    [json.dumps] serialises it. *)
Theorem critique_needs_revision : forall room dumps_error resp image_path js d sugg rev,
  Extract.extract_json resp = Ret js ->
  PyJson.loads room js = Ret (PyJson.VDict d) ->
  PyJson.get (PyJson.VDict d) (PyJson.u "critic_suggestions") (PyJson.VList []) = Ret sugg ->
  PyJson.get (PyJson.VDict d) (PyJson.u "revised_description") PyJson.VNone = Ret rev ->
  exists b,
    (forall v, Critique.execute room dumps_error (Some (Ret resp)) image_path (Ret true) (Ret tt)
                 = Ret (Critique.Dumps v) ->
       v = PyJson.VDict [(PyJson.u "suggestions", sugg); (PyJson.u "needs_revision", PyJson.VBool b);
                         (PyJson.u "revised_description", rev)]) /\
    (dumps_error (PyJson.VDict [(PyJson.u "suggestions", sugg);
                                (PyJson.u "needs_revision", PyJson.VBool b);
                                (PyJson.u "revised_description", rev)]) = None ->
     Critique.execute room dumps_error (Some (Ret resp)) image_path (Ret true) (Ret tt)
     = Ret (Critique.Dumps
              (PyJson.VDict [(PyJson.u "suggestions", sugg); (PyJson.u "needs_revision", PyJson.VBool b);
                             (PyJson.u "revised_description", rev)]))) /\
    (b = true <-> PyJson.truthy sugg = true /\ PyJson.truthy rev = true) /\
    (forall l, sugg = PyJson.VList l -> (b = true <-> l <> [] /\ PyJson.truthy rev = true)).
Proof.
  intros room dumps_error resp image_path js d sugg rev Hx Hl Hs Hr.
  assert (Hb : PyJson.truthy (if PyJson.truthy sugg then rev else sugg) = true
               <-> PyJson.truthy sugg = true /\ PyJson.truthy rev = true).
  { destruct (PyJson.truthy sugg) eqn:E; split; intuition congruence. }
  exists (PyJson.truthy (if PyJson.truthy sugg then rev else sugg)).
  assert (He : Critique.execute room dumps_error (Some (Ret resp)) image_path (Ret true) (Ret tt)
    = match dumps_error (PyJson.VDict [(PyJson.u "suggestions", sugg);
                     (PyJson.u "needs_revision",
                        PyJson.VBool (PyJson.truthy (if PyJson.truthy sugg then rev else sugg)));
                     (PyJson.u "revised_description", rev)]) with
      | None => Ret (Critique.Dumps (PyJson.VDict [(PyJson.u "suggestions", sugg);
                     (PyJson.u "needs_revision",
                        PyJson.VBool (PyJson.truthy (if PyJson.truthy sugg then rev else sugg)));
                     (PyJson.u "revised_description", rev)]))
      | Some m => Ret (Critique.Text ("Error during critique: " ++ m))
      end).
  { unfold Critique.execute; rewrite bind_Ret; cbn [negb]; cbv zeta.
    rewrite Hx, bind_Ret, Hl, bind_Ret, Hs, bind_Ret, Hr, bind_Ret.
    unfold PyJson.dumps; destruct (dumps_error _); reflexivity. }
  split; [|split; [|split; [exact Hb|]]].
  - intros v; rewrite He; destruct (dumps_error _); congruence.
  - intros Hd; rewrite He, Hd; reflexivity.
  - intros l ->; rewrite Hb; cbn [PyJson.truthy].
    destruct l; intuition congruence.
Qed.

(** Witness of C10: one suggestion and a null [revised_description] give
    [needs_revision] false; the suggestion [Label \u03b1] with a
    revised description gives true. *)
Lemma critique_needs_revision_witness :
  Critique.execute Samples.room (fun _ => None) (Some (Ret Samples.critique_null)) "fig.png"
    (Ret true) (Ret tt)
  = Ret (Critique.Dumps
           (PyJson.VDict [(PyJson.u "suggestions", PyJson.VList [PyJson.VStr (PyJson.u "fix labels")]);
                          (PyJson.u "needs_revision", PyJson.VBool false);
                          (PyJson.u "revised_description", PyJson.VNone)])) /\
  Critique.execute Samples.room (fun _ => None) (Some (Ret Samples.critique_alpha)) "fig.png"
    (Ret true) (Ret tt)
  = Ret (Critique.Dumps
           (PyJson.VDict [(PyJson.u "suggestions",
                           PyJson.VList [PyJson.VStr (app (PyJson.u "Label ") [945%Z])]);
                          (PyJson.u "needs_revision", PyJson.VBool true);
                          (PyJson.u "revised_description", PyJson.VStr (PyJson.u "x"))])).
Proof.
  split.
  - destruct (critique_needs_revision Samples.room (fun _ => None) Samples.critique_null "fig.png"
                Samples.critique_null
                [(PyJson.u "critic_suggestions", PyJson.VList [PyJson.VStr (PyJson.u "fix labels")]);
                 (PyJson.u "revised_description", PyJson.VNone)]
                (PyJson.VList [PyJson.VStr (PyJson.u "fix labels")]) PyJson.VNone)
      as [b [_ [He [Hb _]]]];
      [vm_compute; reflexivity | vm_compute; reflexivity | vm_compute; reflexivity
      | vm_compute; reflexivity |].
    rewrite (He eq_refl).
    destruct b; [destruct (proj1 Hb eq_refl) as [_ Hn]; discriminate Hn|reflexivity].
  - destruct (critique_needs_revision Samples.room (fun _ => None) Samples.critique_alpha "fig.png"
                Samples.critique_alpha
                [(PyJson.u "critic_suggestions",
                  PyJson.VList [PyJson.VStr (app (PyJson.u "Label ") [945%Z])]);
                 (PyJson.u "revised_description", PyJson.VStr (PyJson.u "x"))]
                (PyJson.VList [PyJson.VStr (app (PyJson.u "Label ") [945%Z])])
                (PyJson.VStr (PyJson.u "x")))
      as [b [_ [He [Hb _]]]];
      [vm_compute; reflexivity | vm_compute; reflexivity | vm_compute; reflexivity
      | vm_compute; reflexivity |].
    rewrite (He eq_refl).
    destruct b; [reflexivity|].
    assert (Hf : false = true) by (apply Hb; split; reflexivity); discriminate Hf.
Defined.

(* ------------------------------------------------------------------ *)
(** * Further properties of the code *)

(** ** [autopage._extract_json] *)

Lemma autopage_extract_json_ret : forall s, exists r, Extract.autopage_extract_json s = Ret r.
Proof.
  intros s; unfold Extract.autopage_extract_json, PyStr.index; cbv zeta.
  rewrite !contains_find.
  destruct (PyStr.find (PyStr.strip s) Extract.FENCE_JSON 0); [eexists; reflexivity|].
  destruct (PyStr.find (PyStr.strip s) Extract.FENCE 0); eexists; reflexivity.
Qed.

(** [autopage._extract_json] never raises, and an opening marker without a
    closing fence gives the trimmed rest of the stripped text after the
    marker ([```json] first, otherwise the first [```]). *)
Theorem autopage_extract_json_total : forall s,
  let t := PyStr.strip s in
  (exists r, Extract.autopage_extract_json s = Ret r) /\
  (forall i, PyStr.find t Extract.FENCE_JSON 0 = Some i ->
     PyStr.find t Extract.FENCE (i + 7) = None ->
     Extract.autopage_extract_json s = Ret (PyStr.strip (PyStr.slice t (i + 7) (String.length t)))) /\
  (forall i, PyStr.find t Extract.FENCE_JSON 0 = None ->
     PyStr.find t Extract.FENCE 0 = Some i -> PyStr.find t Extract.FENCE (i + 3) = None ->
     Extract.autopage_extract_json s = Ret (PyStr.strip (PyStr.slice t (i + 3) (String.length t)))).
Proof.
  intros s t; split; [apply autopage_extract_json_ret|].
  unfold Extract.autopage_extract_json, PyStr.index; fold t; rewrite !contains_find.
  replace (String.length Extract.FENCE_JSON) with 7 by reflexivity.
  replace (String.length Extract.FENCE) with 3 by reflexivity.
  split.
  - intros i Hi He; rewrite Hi; simpl; rewrite He; reflexivity.
  - intros i Hn Hi He; rewrite Hn, Hi; simpl; rewrite He; reflexivity.
Qed.

(** Witness: [```json\n{"a":1}] without a closing fence gives [{"a":1}]. *)
Lemma autopage_extract_json_total_witness :
  Extract.autopage_extract_json ("```json" ++ nl ++ Samples.json_a) = Ret Samples.json_a.
Proof.
  rewrite (proj1 (proj2 (autopage_extract_json_total ("```json" ++ nl ++ Samples.json_a))) 0
             ltac:(vm_compute; reflexivity) ltac:(vm_compute; reflexivity)).
  vm_compute; reflexivity.
Defined.

(** ** Canonical paths *)

Lemma split_on_no_sep : forall c s w, In w (Store.split_on c s) -> ~ In c (list_ascii_of_string w).
Proof.
  intros c s; induction s as [|a s IH]; intros w H; simpl in H.
  - destruct H as [<-|[]]; simpl; tauto.
  - destruct (Ascii.eqb a c) eqn:E.
    + destruct H as [<-|H]; [simpl; tauto|exact (IH w H)].
    + destruct (Store.split_on c s) as [|w0 ws] eqn:Es.
      * destruct H as [<-|[]]; simpl; intros [Hc|[]]; subst; rewrite Ascii.eqb_refl in E; discriminate.
      * destruct H as [<-|H].
        -- simpl; intros [Hc|Hc]; [subst; rewrite Ascii.eqb_refl in E; discriminate|].
           apply (IH w0); [left; reflexivity|exact Hc].
        -- apply IH; right; exact H.
Qed.

Lemma Forall_firstn : forall {A} (P : A -> Prop) n l, Forall P l -> Forall P (firstn n l).
Proof.
  intros A P n l H; apply Forall_forall; intros x Hx; apply in_firstn_l in Hx.
  rewrite Forall_forall in H; auto.
Qed.

Lemma realpath_canonical : forall fuel env cur rest out,
  Paths.realpath fuel env cur rest = Some out ->
  Forall Paths.canonical_component cur ->
  (forall w, In w rest -> ~ In "/"%char (list_ascii_of_string w)) ->
  Forall Paths.canonical_component out.
Proof.
  induction fuel as [|f IH]; intros env cur rest out H Hcur Hrest; [discriminate H|].
  simpl in H; destruct rest as [|w rest'].
  - injection H as <-; exact Hcur.
  - assert (Hr' : forall w', In w' rest' -> ~ In "/"%char (list_ascii_of_string w'))
      by (intros; apply Hrest; right; assumption).
    destruct (String.eqb w "" || String.eqb w ".") eqn:E1; [eapply IH; eauto|].
    destruct (String.eqb w "..") eqn:E2.
    + eapply IH; [exact H| |exact Hr']; unfold Paths.drop_last; apply Forall_firstn; exact Hcur.
    + apply orb_false_iff in E1 as [E0 E1].
      assert (Hw : Paths.canonical_component w).
      { apply String.eqb_neq in E0, E1, E2; repeat split; auto; apply Hrest; left; reflexivity. }
      assert (Hnext : Forall Paths.canonical_component (app cur [w]))
        by (apply Forall_app; split; [exact Hcur|constructor; [exact Hw|constructor]]).
      destruct (Paths.assoc (Paths.render (app cur [w])) (Paths.links env)) as [tgt|].
      * destruct (Paths.realpath f env (if Store.is_absolute tgt then [] else cur)
                    (Store.split_on "/" tgt)) as [cur'|] eqn:E3; [|discriminate H].
        eapply IH; [exact H| |exact Hr'].
        eapply IH; [exact E3| |intros w' Hw'; exact (split_on_no_sep _ _ _ Hw')].
        destruct (Store.is_absolute tgt); [constructor|exact Hcur].
      * eapply IH; eauto.
Qed.

Lemma resolve_unfold : forall env p,
  Paths.resolve env p =
  match Paths.realpath Paths.RESOLVE_FUEL env []
          (Store.split_on "/" (if Store.is_absolute p then p else Paths.cwd env ++ "/" ++ p)) with
  | Some comps => Ret (Paths.render comps)
  | None => Raise (PyExc "RuntimeError"
      ("Symlink loop from " ++ (if Store.is_absolute p then p else Paths.cwd env ++ "/" ++ p)))
  end.
Proof. intros; reflexivity. Qed.

Lemma resolve_canonical : forall env p r,
  Paths.resolve env p = Ret r ->
  exists comps, r = Paths.render comps /\ Forall Paths.canonical_component comps.
Proof.
  intros env p r H; rewrite resolve_unfold in H.
  destruct (Paths.realpath Paths.RESOLVE_FUEL env [] _) as [comps|] eqn:E; [|discriminate H].
  injection H as <-; exists comps; split; [reflexivity|].
  eapply realpath_canonical; [exact E|constructor|].
  intros w Hw; exact (split_on_no_sep _ _ _ Hw).
Qed.

(** [_resolve_path] returns canonical absolute paths: a slash followed by
    components joined with single slashes, none of them empty, [.] or
    [..], whether or not an allowed directory is given. *)
Theorem resolve_path_canonical : forall env p ad r,
  Paths.resolve_path env p ad = Ret r ->
  exists comps, r = Paths.render comps /\ Forall Paths.canonical_component comps.
Proof.
  intros env p ad r H; unfold Paths.resolve_path in H.
  destruct (Paths.expanduser env p) as [p1|e]; rewrite ?bind_Ret, ?bind_Raise in H; [|discriminate H].
  destruct (Paths.resolve env p1) as [r1|e] eqn:E; rewrite ?bind_Ret, ?bind_Raise in H; [|discriminate H].
  assert (r1 = r) as <-.
  { destruct ad as [ad|]; [|injection H as <-; reflexivity].
    destruct (Paths.resolve env ad) as [root|e]; rewrite ?bind_Ret, ?bind_Raise in H; [|discriminate H].
    destruct (PyStr.startswith r1 root); [injection H as <-; reflexivity|discriminate H]. }
  exact (resolve_canonical env p1 r1 E).
Qed.

(** Witness: [/ws/a/../b] resolves to [/ws/b], the components [ws] and [b]. *)
Lemma resolve_path_canonical_witness :
  Paths.resolve_path Samples.plain_env "/ws/a/../b" (Some "/ws") = Ret "/ws/b" /\
  exists comps, "/ws/b" = Paths.render comps /\ Forall Paths.canonical_component comps.
Proof.
  split; [vm_compute; reflexivity|].
  apply (resolve_path_canonical Samples.plain_env "/ws/a/../b" (Some "/ws")).
  vm_compute; reflexivity.
Defined.

Lemma prefix_refl : forall s, String.prefix s s = true.
Proof. induction s as [|c s IH]; simpl; [reflexivity|]; destruct (ascii_dec c c); [exact IH|contradiction]. Qed.

(** [_resolve_path] rejects nothing that lies inside the allowed
    directory: a path whose resolution is the resolved root or below it
    (or anything, when the root is [/]) is returned. *)
Theorem resolve_path_accepts_inside : forall env p ad p1 r root,
  Paths.expanduser env p = Ret p1 ->
  Paths.resolve env p1 = Ret r ->
  Paths.resolve env ad = Ret root ->
  Paths.within root r = true ->
  Paths.resolve_path env p (Some ad) = Ret r.
Proof.
  intros env p ad p1 r root H1 H2 H3 Hw; unfold Paths.resolve_path.
  rewrite H1, bind_Ret, H2, bind_Ret, H3, bind_Ret.
  replace (PyStr.startswith r root) with true; [reflexivity|symmetry].
  unfold Paths.within in Hw; apply orb_true_iff in Hw as [Hw|Hw]; [apply orb_true_iff in Hw as [Hw|Hw]|].
  - apply String.eqb_eq in Hw; subst root.
    destruct (resolve_canonical env p1 r H2) as [comps [-> _]].
    unfold PyStr.startswith, Paths.render; apply prefix_app.
  - apply String.eqb_eq in Hw; subst root; apply prefix_refl.
  - exact (prefix_app_inv root "/" r Hw).
Qed.

(** Witness: [/ws/b] under the allowed directory [/ws]. *)
Lemma resolve_path_accepts_inside_witness :
  Paths.resolve_path Samples.plain_env "/ws/b" (Some "/ws") = Ret "/ws/b".
Proof.
  apply (resolve_path_accepts_inside Samples.plain_env "/ws/b" "/ws" "/ws/b" "/ws/b" "/ws");
    vm_compute; reflexivity.
Defined.

(* ------------------------------------------------------------------ *)
(** ** [ReferenceStore]: image paths and repeated failed loads *)

Lemma is_absolute_app : forall a b,
  Store.is_absolute a = true -> Store.is_absolute (a ++ b) = true.
Proof.
  intros a b H; unfold Store.is_absolute, PyStr.startswith in *.
  destruct a as [|c a]; [discriminate H|]; revert H; cbn [String.prefix String.append].
  destruct (ascii_dec "/" c); [|auto]; intros _; destruct (a ++ b); reflexivity.
Qed.

Lemma is_absolute_path_str : forall x,
  Store.is_absolute x = true -> Store.is_absolute (Store.path_str x) = true.
Proof.
  intros x H; unfold Store.path_str; rewrite H.
  unfold Store.is_absolute, PyStr.startswith; apply prefix_app.
Qed.

Lemma example_of_item_image : forall root it ex,
  Store.is_absolute root = true ->
  Store.example_of_item root it = Ret ex ->
  StoreQuery.image_resolved (Store.image_path ex).
Proof.
  intros root it ex Hr H; destruct it as [| | | | |d]; try discriminate H.
  unfold Store.example_of_item in H.
  set (img := match Json.obj_lookup d "image_path" with Some x => x | None => Json.JStr "" end) in H.
  assert (Himg : forall v, (if Json.truthy img then
             match img with
             | Json.JStr s => Ret (if Store.is_absolute s then img else Json.JStr (Store.path_join root s))
             | _ => Raise (TypeError "expected str, bytes or os.PathLike object")
             end else Ret img) = Ret v -> StoreQuery.image_resolved v).
  { intros v Hv; unfold StoreQuery.image_resolved.
    destruct (Json.truthy img) eqn:T; [|injection Hv as <-; left; exact T].
    destruct img as [| | |s| |]; try discriminate Hv.
    injection Hv as <-; right.
    destruct (Store.is_absolute s) eqn:A; [exists s; split; [reflexivity|exact A]|].
    exists (Store.path_join root s); split; [reflexivity|].
    unfold Store.path_join; rewrite A.
    apply is_absolute_path_str, is_absolute_app, Hr. }
  destruct (if Json.truthy img then _ else _) as [v|e] eqn:E; rewrite ?bind_Ret, ?bind_Raise in H;
    [|discriminate H].
  destruct (Json.getitem d "id"); rewrite ?bind_Ret, ?bind_Raise in H; [|discriminate H].
  destruct (Json.getitem d "source_context"); rewrite ?bind_Ret, ?bind_Raise in H; [|discriminate H].
  destruct (Json.getitem d "caption"); rewrite ?bind_Ret, ?bind_Raise in H; [|discriminate H].
  injection H as <-; simpl; exact (Himg v eq_refl).
Qed.

Lemma append_items_image : forall root its acc,
  Store.is_absolute root = true ->
  Forall (fun e => StoreQuery.image_resolved (Store.image_path e)) acc ->
  Forall (fun e => StoreQuery.image_resolved (Store.image_path e))
         (fst (Store.append_items root acc its)).
Proof.
  induction its as [|it its IH]; intros acc Hr Hacc; simpl; [exact Hacc|].
  destruct (Store.example_of_item root it) as [ex|e] eqn:E; simpl; [|exact Hacc].
  apply IH; [exact Hr|].
  apply Forall_app; split; [exact Hacc|].
  constructor; [exact (example_of_item_image root it ex Hr E)|constructor].
Qed.

(** [_load] resolves image paths against the store directory: when the
    store path is absolute, every example it appends (also before an
    exception stops the loop) has as [image_path] either the falsy value
    found in the index (a missing key gives the empty string) or an
    absolute path string: relative strings are joined to the store
    directory, absolute ones are kept. *)
Theorem load_image_paths_absolute : forall fs st,
  Store.is_absolute (Store.path st) = true ->
  Forall (fun e => StoreQuery.image_resolved (Store.image_path e)) (Store.examples st) ->
  Forall (fun e => StoreQuery.image_resolved (Store.image_path e))
         (Store.examples (fst (Store.load fs st))).
Proof.
  intros fs st Hp Hex; unfold Store.load.
  destruct (Store.loaded st); [exact Hex|].
  destruct fs as [[data|e]|]; [|exact Hex|exact Hex].
  destruct (Json.get data "examples" (Json.JArr [])) as [items|e]; [|exact Hex].
  destruct (Json.iter items) as [its|e]; [|exact Hex].
  pose proof (append_items_image (Store.path st) its (Store.examples st) Hp Hex) as A.
  destruct (Store.append_items (Store.path st) (Store.examples st) its) as [exs [u|e]];
    exact A.
Qed.

(** Witness: a new store at [/refs] whose index lists a relative and a
    missing image path. *)
Lemma load_image_paths_absolute_witness :
  Store.is_absolute (Store.path (Store.new_store "/refs")) = true /\
  Forall (fun e => StoreQuery.image_resolved (Store.image_path e))
    (Store.examples (fst (Store.load (Some (Ret Samples.image_index)) (Store.new_store "/refs")))).
Proof.
  split; [vm_compute; reflexivity|].
  apply load_image_paths_absolute; [vm_compute; reflexivity|constructor].
Defined.

Lemma append_items_acc : forall root its acc,
  Store.append_items root acc its =
  (app acc (fst (Store.append_items root [] its)), snd (Store.append_items root [] its)).
Proof.
  induction its as [|it its IH]; intros acc; simpl.
  - rewrite app_nil_r; reflexivity.
  - destruct (Store.example_of_item root it) as [ex|e].
    + rewrite (IH (app acc [ex])), (IH [ex]); simpl; rewrite <- app_assoc; reflexivity.
    + rewrite app_nil_r; reflexivity.
Qed.

Lemma concat_repeat_snoc : forall {A} (P : list A) n,
  app (concat (repeat P n)) P = concat (repeat P (S n)).
Proof.
  intros A P n; induction n as [|n IH]; simpl; [rewrite app_nil_r; reflexivity|].
  rewrite <- app_assoc; f_equal; exact IH.
Qed.

(** A load that fails part-way is retried by every later call, and each
    retry appends again the examples converted before the failing item:
    after [n] calls of [get_all] that all raise the same exception, the
    store holds the examples it had followed by [n] copies of that
    prefix, is still not loaded, and the next call appends one more copy
    and raises again. *)
Theorem get_all_failed_load_repeats : forall data items its P e st n,
  Store.loaded st = false ->
  Json.get data "examples" (Json.JArr []) = Ret items ->
  Json.iter items = Ret its ->
  Store.append_items (Store.path st) [] its = (P, Raise e) ->
  let st_n := Nat.iter n (fun s => fst (Store.get_all (Some (Ret data)) s)) st in
  Store.examples st_n = app (Store.examples st) (concat (repeat P n)) /\
  Store.loaded st_n = false /\
  Store.get_all (Some (Ret data)) st_n =
    ({| Store.path := Store.path st; Store.examples := app (Store.examples st_n) P;
        Store.loaded := false |}, Raise e).
Proof.
  intros data items its P e st n Hl Hg Hi Ha st_n.
  assert (step : forall s, Store.loaded s = false -> Store.path s = Store.path st ->
            Store.get_all (Some (Ret data)) s =
            ({| Store.path := Store.path st; Store.examples := app (Store.examples s) P;
                Store.loaded := false |}, Raise e)).
  { intros s Hs Hps; unfold Store.get_all, Store.load; rewrite Hs, Hg, Hi, Hps.
    rewrite append_items_acc, Ha; reflexivity. }
  assert (inv : Store.examples st_n = app (Store.examples st) (concat (repeat P n)) /\
                Store.loaded st_n = false /\ Store.path st_n = Store.path st).
  { subst st_n; induction n as [|n IH]; simpl; [rewrite app_nil_r; auto|].
    destruct IH as [IH1 [IH2 IH3]].
    rewrite (step _ IH2 IH3); simpl; repeat split.
    rewrite IH1, <- app_assoc, concat_repeat_snoc; reflexivity. }
  destruct inv as [I1 [I2 I3]]; repeat split; [exact I1|exact I2|].
  exact (step st_n I2 I3).
Qed.

(** Witness: an index whose second item has no [id], read twice. *)
Lemma get_all_failed_load_repeats_witness :
  Store.examples (Nat.iter 2 (fun s => fst (Store.get_all (Some (Ret Samples.broken_index)) s))
                   (Store.new_store "/refs")) = [Samples.ref_a; Samples.ref_a] /\
  Store.loaded (Nat.iter 2 (fun s => fst (Store.get_all (Some (Ret Samples.broken_index)) s))
                 (Store.new_store "/refs")) = false.
Proof.
  pose proof (get_all_failed_load_repeats Samples.broken_index
              (Json.JArr [Samples.item_a; Json.JObj [("caption", Json.JStr "c")]])
              [Samples.item_a; Json.JObj [("caption", Json.JStr "c")]]
              [Samples.ref_a] (KeyError "id") (Store.new_store "/refs") 2
              ltac:(vm_compute; reflexivity) ltac:(vm_compute; reflexivity)
              ltac:(vm_compute; reflexivity) ltac:(vm_compute; reflexivity)) as H.
  cbv zeta in H; destruct H as [H1 [H2 _]].
  split; [rewrite H1; reflexivity|exact H2].
Defined.

(* ------------------------------------------------------------------ *)
(** ** [MatchTemplateTool]: the ranking *)

#[local] Set Warnings "-inexact-float".

Lemma score_from_sel : forall req acc tag s,
  Templates.score_from acc tag req = Ret s ->
  s = Templates.sum_sel acc (map (fun fe => Templates.weight (fst fe)) req)
                            (map (Templates.matched tag) req).
Proof.
  induction req as [|[f [ex|]] req IH]; intros acc tag s H; simpl in H.
  - injection H as <-; reflexivity.
  - destruct (Json.get tag f Json.JNull) as [v|e] eqn:G; simpl in H; [|discriminate H].
    apply IH in H; rewrite H; cbn [map Templates.sum_sel].
    replace (Templates.matched tag (f, Some ex)) with (StoreQuery.eq_str v ex); [reflexivity|].
    unfold Templates.matched; cbn [snd fst]; rewrite G; reflexivity.
  - apply IH in H; rewrite H; reflexivity.
Qed.

Lemma all_bits_in : forall bs, In bs (Templates.all_bits (length bs)).
Proof.
  induction bs as [|b bs IH]; simpl; [left; reflexivity|].
  apply in_or_app; destruct b; [right|left]; apply in_map; exact IH.
Qed.

Lemma score_in_values : forall tag o1 o2 o3 o4 o5 o6 s,
  Templates.score tag (Templates.request o1 o2 o3 o4 o5 o6) = Ret s ->
  In s Templates.score_values.
Proof.
  intros tag o1 o2 o3 o4 o5 o6 s H; apply score_from_sel in H; rewrite H.
  unfold Templates.score_values; apply in_map.
  exact (all_bits_in (map (Templates.matched tag) (Templates.request o1 o2 o3 o4 o5 o6))).
Qed.

Lemma score_values_total_check :
  forallb (fun x => forallb (fun y =>
    if PrimFloat.ltb y x then PrimFloat.leb y x else PrimFloat.leb x y)
    Templates.score_values) Templates.score_values = true.
Proof. vm_compute; reflexivity. Qed.

Lemma score_values_trans_check :
  forallb (fun a => forallb (fun b => forallb (fun c =>
    implb (PrimFloat.leb a b && PrimFloat.leb b c) (PrimFloat.leb a c))
    Templates.score_values) Templates.score_values) Templates.score_values = true.
Proof. vm_compute; reflexivity. Qed.

Lemma score_values_total : forall x y,
  In x Templates.score_values -> In y Templates.score_values ->
  (PrimFloat.ltb y x = true -> PrimFloat.leb y x = true) /\
  (PrimFloat.ltb y x = false -> PrimFloat.leb x y = true).
Proof.
  intros x y Hx Hy.
  pose proof score_values_total_check as C; rewrite forallb_forall in C.
  specialize (C x Hx); rewrite forallb_forall in C; specialize (C y Hy).
  destruct (PrimFloat.ltb y x); split; intro E; try discriminate E; exact C.
Qed.

Lemma score_values_trans : forall a b c,
  In a Templates.score_values -> In b Templates.score_values -> In c Templates.score_values ->
  PrimFloat.leb a b = true -> PrimFloat.leb b c = true -> PrimFloat.leb a c = true.
Proof.
  intros a b c Ha Hb Hc H1 H2.
  pose proof score_values_trans_check as C; rewrite forallb_forall in C.
  specialize (C a Ha); rewrite forallb_forall in C; specialize (C b Hb);
    rewrite forallb_forall in C; specialize (C c Hc).
  rewrite H1, H2 in C; exact C.
Qed.

Lemma insert_desc_perm : forall x l, Permutation (Templates.insert_desc x l) (x :: l).
Proof.
  induction l as [|y l IH]; simpl; [reflexivity|].
  destruct (PrimFloat.ltb (snd y) (snd x)); [reflexivity|].
  transitivity (y :: x :: l); [constructor; exact IH|constructor].
Qed.

Lemma sort_desc_perm_acc : forall l acc,
  Permutation (fold_left (fun acc x => Templates.insert_desc x acc) l acc) (app l acc).
Proof.
  induction l as [|x l IH]; intros acc; simpl; [reflexivity|].
  rewrite IH, insert_desc_perm; symmetry; apply Permutation_middle.
Qed.

Lemma sort_desc_perm : forall l, Permutation (Templates.sort_desc l) l.
Proof. intros l; unfold Templates.sort_desc; rewrite sort_desc_perm_acc, app_nil_r; reflexivity. Qed.

Lemma Forall_perm : forall {A} (P : A -> Prop) l l',
  Permutation l l' -> Forall P l' -> Forall P l.
Proof.
  intros A P l l' Hp H; rewrite Forall_forall in *; intros x Hx.
  apply H; exact (Permutation_in x Hp Hx).
Qed.

Lemma insert_desc_sorted : forall x l,
  Templates.in_values x -> Forall Templates.in_values l ->
  Sorted Templates.score_ge l -> Sorted Templates.score_ge (Templates.insert_desc x l).
Proof.
  intros x l Hx; induction l as [|y l IH]; intros Hl Hs; simpl.
  - constructor; constructor.
  - inversion Hl as [|? ? Hy Hl']; subst.
    destruct (score_values_total _ _ Hx Hy) as [T F].
    destruct (PrimFloat.ltb (snd y) (snd x)) eqn:L.
    + constructor; [exact Hs|]; constructor; exact (T eq_refl).
    + apply Sorted_inv in Hs as [Hs Hh]; constructor; [exact (IH Hl' Hs)|].
      destruct l as [|z l]; simpl; [constructor; exact (F eq_refl)|].
      destruct (PrimFloat.ltb (snd z) (snd x)); constructor;
        [exact (F eq_refl)|inversion Hh; assumption].
Qed.

Lemma sort_desc_sorted_acc : forall l acc,
  Forall Templates.in_values l -> Forall Templates.in_values acc -> Sorted Templates.score_ge acc ->
  Sorted Templates.score_ge (fold_left (fun acc x => Templates.insert_desc x acc) l acc).
Proof.
  induction l as [|x l IH]; intros acc Hl Ha Hs; simpl; [exact Hs|].
  inversion Hl as [|? ? Hx Hl']; subst.
  apply IH; [exact Hl'| |exact (insert_desc_sorted x acc Hx Ha Hs)].
  apply (Forall_perm _ _ _ (insert_desc_perm x acc)); constructor; assumption.
Qed.

Lemma sorted_head_all : forall l a,
  Forall Templates.in_values (a :: l) -> Sorted Templates.score_ge (a :: l) ->
  Forall (Templates.score_ge a) l.
Proof.
  induction l as [|b l IH]; intros a Hf Hs; [constructor|].
  inversion Hf as [|? ? Ha Hf']; subst; inversion Hf' as [|? ? Hb Hl]; subst.
  apply Sorted_inv in Hs as [Hs Hh]; inversion Hh as [|? ? Hab]; subst.
  pose proof (IH b Hf' Hs) as Hbl.
  constructor; [exact Hab|].
  rewrite Forall_forall in *; intros c Hc.
  exact (score_values_trans _ _ _ (Hl c Hc) Hb Ha (Hbl c Hc) Hab).
Qed.

Lemma in_skipn_l : forall {A} n (l : list A) x, In x (skipn n l) -> In x l.
Proof.
  intros A n l x H; rewrite <- (firstn_skipn n l); apply in_or_app; right; exact H.
Qed.

Lemma sorted_app_l : forall {A} (R : A -> A -> Prop) l1 l2,
  Sorted R (app l1 l2) -> Sorted R l1.
Proof.
  intros A R; induction l1 as [|a l1 IH]; intros l2 H; [constructor|].
  apply Sorted_inv in H as [H Hh]; constructor; [exact (IH l2 H)|].
  destruct l1 as [|b l1]; [constructor|]; inversion Hh; constructor; assumption.
Qed.

Lemma sorted_prefix_ge : forall n l x y,
  Forall Templates.in_values l -> Sorted Templates.score_ge l ->
  In x (firstn n l) -> In y (skipn n l) -> Templates.score_ge x y.
Proof.
  induction n as [|n IH]; intros l x y Hf Hs Hx Hy; [destruct Hx|].
  destruct l as [|a l]; [destruct Hx|]; simpl in Hx, Hy.
  destruct Hx as [->|Hx].
  - pose proof (sorted_head_all l x Hf Hs) as A; rewrite Forall_forall in A.
    apply A; exact (in_skipn_l _ _ _ Hy).
  - inversion Hf; subst; apply Sorted_inv in Hs as [Hs _]; exact (IH l x y ltac:(assumption) Hs Hx Hy).
Qed.

Lemma dict_set_keys : forall d k v,
  NoDup (map fst d) ->
  NoDup (map fst (Templates.dict_set d k v)) /\
  (forall n, In n (map fst (Templates.dict_set d k v)) -> n = k \/ In n (map fst d)).
Proof.
  induction d as [|[k' v'] d IH]; intros k v Hd; simpl.
  - split; [constructor; [intros []|constructor]|intros n [<-|[]]; left; reflexivity].
  - inversion Hd as [|? ? Hk Hd']; subst.
    destruct (String.eqb k' k) eqn:E; simpl.
    + split; [exact Hd|intros n Hn; right; exact Hn].
    + destruct (IH k v Hd') as [N I]; split.
      * constructor; [|exact N]; intros Hin; destruct (I k' Hin) as [Ek|Hin'].
        -- subst; rewrite String.eqb_refl in E; discriminate E.
        -- exact (Hk Hin').
      * intros n [<-|Hn]; [right; left; reflexivity|].
        destruct (I n Hn) as [<-|Hn']; [left; reflexivity|right; right; exact Hn'].
Qed.

Lemma dict_items_nodup_acc : forall members d,
  NoDup (map fst d) ->
  NoDup (map fst (fold_left (fun d kv => Templates.dict_set d (fst kv) (snd kv)) members d)).
Proof.
  induction members as [|kv members IH]; intros d Hd; simpl; [exact Hd|].
  apply IH; exact (proj1 (dict_set_keys d (fst kv) (snd kv) Hd)).
Qed.

Lemma scores_of_props : forall items o1 o2 o3 o4 o5 o6 all,
  Templates.scores_of items (Templates.request o1 o2 o3 o4 o5 o6) = Ret all ->
  map fst all = map fst items /\ Forall Templates.in_values all.
Proof.
  induction items as [|[name tag] items IH]; intros o1 o2 o3 o4 o5 o6 all H; simpl in H.
  - injection H as <-; split; [reflexivity|constructor].
  - destruct (Templates.score tag (Templates.request o1 o2 o3 o4 o5 o6)) as [s|e] eqn:S;
      simpl in H; [|discriminate H].
    destruct (Templates.scores_of items (Templates.request o1 o2 o3 o4 o5 o6)) as [l|e] eqn:L;
      simpl in H; [|discriminate H].
    injection H as <-; destruct (IH _ _ _ _ _ _ _ L) as [M F]; split.
    + simpl; rewrite M; reflexivity.
    + constructor; [exact (score_in_values _ _ _ _ _ _ _ _ S)|exact F].
Qed.

Lemma NoDup_firstn : forall {A} n (l : list A), NoDup l -> NoDup (firstn n l).
Proof.
  induction n as [|n IH]; intros l H; [constructor|].
  destruct l as [|a l]; [constructor|]; simpl.
  inversion H as [|? ? Ha Hl]; subst; constructor; [|exact (IH l Hl)].
  intro Hin; exact (Ha (in_firstn_l _ _ _ Hin)).
Qed.

(** The ranking of [MatchTemplateTool] is a real top-k: when it returns,
    the candidates are distinct templates of [tags.json] with the score
    the loop computed for them, listed by non-increasing score; no
    template left out scores higher than one listed; and for
    [top_k >= 0] there are [min(top_k, number of templates)] of them. *)
Theorem ranked_top_k : forall tags o1 o2 o3 o4 o5 o6 top_k res,
  Templates.ranked tags (Templates.request o1 o2 o3 o4 o5 o6) top_k = Ret res ->
  exists all,
    Templates.scores tags (Templates.request o1 o2 o3 o4 o5 o6) = Ret all /\
    NoDup (map fst res) /\
    (forall x, In x res -> In x all) /\
    Sorted Templates.score_ge res /\
    (forall x y, In x res -> In y all -> ~ In y res -> PrimFloat.leb (snd y) (snd x) = true) /\
    ((0 <= top_k)%Z -> length res = Nat.min (Z.to_nat top_k) (length all)).
Proof.
  intros tags o1 o2 o3 o4 o5 o6 top_k res H; unfold Templates.ranked in H.
  destruct (Templates.scores tags (Templates.request o1 o2 o3 o4 o5 o6)) as [all|e] eqn:S;
    simpl in H; [|discriminate H].
  injection H as <-; exists all; split; [reflexivity|].
  destruct tags as [| | | | |d]; try discriminate S; simpl in S.
  destruct (scores_of_props _ _ _ _ _ _ _ _ S) as [M F].
  assert (ND : NoDup (map fst all)).
  { rewrite M; apply dict_items_nodup_acc; constructor. }
  pose proof (sort_desc_perm all) as P.
  assert (FS : Forall Templates.in_values (Templates.sort_desc all)) by exact (Forall_perm _ _ _ P F).
  assert (SS : Sorted Templates.score_ge (Templates.sort_desc all)).
  { apply sort_desc_sorted_acc; [exact F|constructor|constructor]. }
  assert (Tk : exists m, Rank.py_take (Templates.sort_desc all) top_k = firstn m (Templates.sort_desc all)
              /\ ((0 <= top_k)%Z -> m = Z.to_nat top_k)).
  { unfold Rank.py_take; destruct (0 <=? top_k)%Z eqn:Z0.
    - exists (Z.to_nat top_k); split; [reflexivity|intros _; reflexivity].
    - eexists; split; [reflexivity|]; intros Hz; apply Z.leb_nle in Z0; lia. }
  destruct Tk as [m [-> Hm]].
  split; [|split; [|split; [|split]]].
  - rewrite <- firstn_map; apply NoDup_firstn.
    exact (Permutation_NoDup (Permutation_sym (Permutation_map fst P)) ND).
  - intros x Hx; exact (Permutation_in x P (in_firstn_l _ _ _ Hx)).
  - rewrite <- (firstn_skipn m (Templates.sort_desc all)) in SS.
    exact (sorted_app_l _ _ _ SS).
  - intros x y Hx Hy Hn.
    apply (sorted_prefix_ge m (Templates.sort_desc all) x y FS SS Hx).
    apply (Permutation_in y (Permutation_sym P)) in Hy.
    rewrite <- (firstn_skipn m (Templates.sort_desc all)) in Hy.
    apply in_app_or in Hy as [Hy|Hy]; [contradiction|exact Hy].
  - intros Hz; rewrite (Hm Hz), length_firstn, (Permutation_length P); reflexivity.
Qed.

(** Witness: [t2] matches both requested features and [t1] one. *)
Lemma ranked_top_k_witness :
  Templates.ranked Samples.tags3 (Templates.request (Some "white") (Some "yes") None None None None) 2
    = Ret [("t2", PrimFloat.add 1.0 0.7); ("t1", 1.0%float)] /\
  exists all,
    Templates.scores Samples.tags3 (Templates.request (Some "white") (Some "yes") None None None None)
      = Ret all /\
    (forall x y, In x [("t2", PrimFloat.add 1.0 0.7); ("t1", 1.0%float)] -> In y all ->
       ~ In y [("t2", PrimFloat.add 1.0 0.7); ("t1", 1.0%float)] ->
       PrimFloat.leb (snd y) (snd x) = true).
Proof.
  split; [vm_compute; reflexivity|].
  destruct (ranked_top_k Samples.tags3 (Some "white") (Some "yes") None None None None 2
              [("t2", PrimFloat.add 1.0 0.7); ("t1", 1.0%float)] ltac:(vm_compute; reflexivity))
    as [all [S [_ [_ [_ [G _]]]]]].
  exists all; split; [exact S|exact G].
Defined.

Lemma score_zero : forall tag,
  Templates.score tag (Templates.request None None None None None None) = Ret 0.0%float.
Proof. reflexivity. Qed.

Lemma scores_of_zero : forall items,
  Templates.scores_of items (Templates.request None None None None None None)
  = Ret (map (fun kv => (fst kv, 0.0%float)) items).
Proof.
  induction items as [|[name tag] items IH]; [reflexivity|].
  cbn [Templates.scores_of]; rewrite score_zero, bind_Ret, IH, bind_Ret; reflexivity.
Qed.

Lemma insert_desc_zero : forall x l,
  snd x = 0.0%float -> Forall (fun y => snd y = 0.0%float) l ->
  Templates.insert_desc x l = app l [x].
Proof.
  intros x l Hx; induction l as [|y l IH]; intros Hl; [reflexivity|].
  inversion Hl as [|? ? Hy Hl']; subst; simpl; rewrite Hx, Hy, (IH Hl'); reflexivity.
Qed.

Lemma sort_desc_zero_acc : forall l acc,
  Forall (fun y => snd y = 0.0%float) l -> Forall (fun y => snd y = 0.0%float) acc ->
  fold_left (fun acc x => Templates.insert_desc x acc) l acc = app acc l.
Proof.
  induction l as [|x l IH]; intros acc Hl Ha; simpl; [rewrite app_nil_r; reflexivity|].
  inversion Hl as [|? ? Hx Hl']; subst.
  rewrite (insert_desc_zero x acc Hx Ha), (IH (app acc [x]) Hl'), <- app_assoc; [reflexivity|].
  apply Forall_app; split; [exact Ha|constructor; [exact Hx|constructor]].
Qed.

(** With no feature requested, every template scores [0.0] without its
    tags being read (a template whose tags are not an object does not
    make the tool fail), and the ranking is the first [top_k] templates
    in the order of [tags.json]: the sort is stable. *)
Theorem ranked_no_preferences : forall d top_k,
  Templates.ranked (Json.JObj d) (Templates.request None None None None None None) top_k
  = Ret (Rank.py_take (map (fun kv => (fst kv, 0.0%float)) (Templates.dict_items d)) top_k).
Proof.
  intros d top_k; unfold Templates.ranked, Templates.scores.
  rewrite scores_of_zero, bind_Ret; unfold Templates.sort_desc.
  rewrite sort_desc_zero_acc; [reflexivity| |constructor].
  rewrite Forall_forall; intros x Hx; apply in_map_iff in Hx as [kv [<- _]]; reflexivity.
Qed.

Lemma matched_mono : forall tag1 tag2 f o,
  (forall ex, o = Some ex -> Json.get tag1 f Json.JNull = Ret (Json.JStr ex) ->
              Json.get tag2 f Json.JNull = Ret (Json.JStr ex)) ->
  implb (Templates.matched tag1 (f, o)) (Templates.matched tag2 (f, o)) = true.
Proof.
  intros tag1 tag2 f [ex|] H; [|reflexivity].
  unfold Templates.matched; cbn [snd fst].
  destruct (Json.get tag1 f Json.JNull) as [v|e] eqn:G1; [|reflexivity].
  destruct (StoreQuery.eq_str v ex) eqn:E; [|reflexivity].
  destruct v as [| | |t| |]; try discriminate E.
  apply String.eqb_eq in E; subst t.
  rewrite (H ex eq_refl eq_refl); simpl; rewrite String.eqb_refl; reflexivity.
Qed.

Lemma bits_le_map : forall tag1 tag2 req,
  (forall f ex, In (f, Some ex) req -> Json.get tag1 f Json.JNull = Ret (Json.JStr ex) ->
                Json.get tag2 f Json.JNull = Ret (Json.JStr ex)) ->
  Templates.bits_le (map (Templates.matched tag1) req) (map (Templates.matched tag2) req) = true.
Proof.
  induction req as [|[f o] req IH]; intros H; [reflexivity|]; simpl.
  rewrite (matched_mono tag1 tag2 f o); [|intros ex -> ; apply H; left; reflexivity].
  apply IH; intros f' ex Hin; apply H; right; exact Hin.
Qed.

Lemma sum_sel_mono_check :
  forallb (fun bs => forallb (fun cs =>
    implb (Templates.bits_le bs cs)
          (PrimFloat.leb (Templates.sum_sel 0.0 Templates.request_weights bs)
                         (Templates.sum_sel 0.0 Templates.request_weights cs)))
    (Templates.all_bits 6)) (Templates.all_bits 6) = true.
Proof. vm_compute; reflexivity. Qed.

(** Scoring is monotone despite the rounding of binary64 additions: a
    template that matches every requested feature another template
    matches (and maybe more) never scores less. *)
Theorem score_monotone : forall tag1 tag2 o1 o2 o3 o4 o5 o6 s1 s2,
  Templates.score tag1 (Templates.request o1 o2 o3 o4 o5 o6) = Ret s1 ->
  Templates.score tag2 (Templates.request o1 o2 o3 o4 o5 o6) = Ret s2 ->
  (forall f ex, In (f, Some ex) (Templates.request o1 o2 o3 o4 o5 o6) ->
     Json.get tag1 f Json.JNull = Ret (Json.JStr ex) ->
     Json.get tag2 f Json.JNull = Ret (Json.JStr ex)) ->
  PrimFloat.leb s1 s2 = true.
Proof.
  intros tag1 tag2 o1 o2 o3 o4 o5 o6 s1 s2 H1 H2 Hm.
  apply score_from_sel in H1, H2; rewrite H1, H2.
  pose proof sum_sel_mono_check as C; rewrite forallb_forall in C.
  specialize (C _ (all_bits_in (map (Templates.matched tag1) (Templates.request o1 o2 o3 o4 o5 o6)))).
  rewrite forallb_forall in C.
  specialize (C _ (all_bits_in (map (Templates.matched tag2) (Templates.request o1 o2 o3 o4 o5 o6)))).
  rewrite (bits_le_map tag1 tag2 _ Hm) in C; exact C.
Qed.

(** Witness: [t2] matches what [t1] matches, and the navigation too. *)
Lemma score_monotone_witness :
  PrimFloat.leb 1.0 (PrimFloat.add 1.0 0.7) = true.
Proof.
  apply (score_monotone (Json.JObj [("background_color", Json.JStr "white")])
           (Json.JObj [("background_color", Json.JStr "white"); ("has_navigation", Json.JStr "yes")])
           (Some "white") (Some "yes") None None None None);
    [vm_compute; reflexivity|vm_compute; reflexivity|].
  intros f ex Hin; simpl in Hin.
  destruct Hin as [Hin|[Hin|Hin]]; [injection Hin as <- <-|injection Hin as <- <-|];
    [intros _; vm_compute; reflexivity|intros _; vm_compute; reflexivity|].
  repeat (destruct Hin as [Hin|Hin]; [discriminate Hin|]); destruct Hin.
Defined.

(* ------------------------------------------------------------------ *)
(** ** [ExtractTableHTMLTool]: removing the code fence *)

Lemma las_app : forall a b,
  list_ascii_of_string (a ++ b) = app (list_ascii_of_string a) (list_ascii_of_string b).
Proof. induction a as [|c a IH]; intros b; simpl; [reflexivity|rewrite IH; reflexivity]. Qed.

Lemma lstrip_suffix : forall l, exists p, l = app p (PyStr.lstrip_list l).
Proof.
  induction l as [|c l IH]; cbn [PyStr.lstrip_list]; [exists []; reflexivity|].
  destruct (PyStr.is_space c); [|exists []; reflexivity].
  destruct IH as [p Hp]; exists (c :: p); simpl; rewrite <- Hp; reflexivity.
Qed.

Lemma lstrip_length : forall l, length (PyStr.lstrip_list l) <= length l.
Proof.
  intros l; destruct (lstrip_suffix l) as [p Hp].
  pose proof (f_equal (@length _) Hp) as E; rewrite length_app in E; lia.
Qed.

Lemma lstrip_fixed : forall l, length (PyStr.lstrip_list l) = length l -> PyStr.lstrip_list l = l.
Proof.
  intros l H; destruct (lstrip_suffix l) as [p Hp].
  pose proof (f_equal (@length _) Hp) as E; rewrite length_app in E.
  destruct p as [|a p]; [symmetry; exact Hp|simpl in E; lia].
Qed.

Lemma strip_fixed : forall s, PyStr.strip s = s ->
  PyStr.lstrip_list (list_ascii_of_string s) = list_ascii_of_string s.
Proof.
  intros s H; unfold PyStr.strip in H.
  apply (f_equal list_ascii_of_string) in H; rewrite list_ascii_of_string_of_list_ascii in H.
  pose proof (f_equal (@length _) H) as E; rewrite length_rev in E.
  pose proof (lstrip_length (rev (PyStr.lstrip_list (list_ascii_of_string s)))) as A;
    rewrite length_rev in A.
  pose proof (lstrip_length (list_ascii_of_string s)) as B.
  apply lstrip_fixed; lia.
Qed.

Lemma lstrip_cons_fixed : forall c l,
  PyStr.lstrip_list (c :: l) = c :: l -> PyStr.is_space c = false.
Proof.
  intros c l; cbn [PyStr.lstrip_list]; destruct (PyStr.is_space c); [|reflexivity].
  intros H; pose proof (lstrip_length l) as A; rewrite H in A; simpl in A; lia.
Qed.

Lemma strip_id_ends : forall s c l1 d l2,
  list_ascii_of_string s = c :: l1 -> PyStr.is_space c = false ->
  list_ascii_of_string s = app l2 [d] -> PyStr.is_space d = false ->
  PyStr.strip s = s.
Proof.
  intros s c l1 d l2 H1 Hc H2 Hd; unfold PyStr.strip.
  assert (A : PyStr.lstrip_list (list_ascii_of_string s) = list_ascii_of_string s).
  { rewrite H1; cbn [PyStr.lstrip_list]; rewrite Hc; reflexivity. }
  assert (B : PyStr.lstrip_list (rev (list_ascii_of_string s)) = rev (list_ascii_of_string s)).
  { rewrite H2, rev_unit; cbn [PyStr.lstrip_list]; rewrite Hd; reflexivity. }
  rewrite A, B, rev_involutive, string_of_list_ascii_of_string; reflexivity.
Qed.

Lemma drop_alpha_tag : forall t r,
  forallb TableHtml.is_alpha t = true ->
  TableHtml.drop_alpha (app t (TableHtml.nl_char :: r)) = TableHtml.nl_char :: r.
Proof.
  induction t as [|a t IH]; intros r H; [reflexivity|].
  simpl in H; apply andb_prop in H as [Ha Ht].
  cbn [app TableHtml.drop_alpha]; rewrite Ha; exact (IH r Ht).
Qed.

(** [ExtractTableHTMLTool] unwraps an answer fenced as a code block: for a
    language tag made of ASCII letters and a non-empty body with no
    surrounding whitespace, the answer ["```" tag LF body LF "```"]
    becomes exactly [body]. *)
Theorem clean_unwraps_fence : forall tag body,
  forallb TableHtml.is_alpha (list_ascii_of_string tag) = true ->
  PyStr.strip body = body -> body <> "" ->
  TableHtml.clean ("```" ++ tag ++ String TableHtml.nl_char (body ++ String TableHtml.nl_char "```"))
  = body.
Proof.
  intros tag body Ht Hs Hne.
  pose proof (strip_fixed body Hs) as Lb.
  destruct (list_ascii_of_string body) as [|c l1] eqn:EB.
  { exfalso; apply Hne; rewrite <- (string_of_list_ascii_of_string body), EB; reflexivity. }
  pose proof (lstrip_cons_fixed c l1 Lb) as Hc.
  set (tail := String TableHtml.nl_char (body ++ String TableHtml.nl_char "```")).
  assert (Eopen : TableHtml.sub_open_fence ("```" ++ tag ++ tail) = body ++ String TableHtml.nl_char "```").
  { unfold TableHtml.sub_open_fence; cbn [String.append list_ascii_of_string].
    rewrite las_app; unfold tail; cbn [list_ascii_of_string].
    change (TableHtml.is_fence "`" "`" "`") with true; cbv iota.
    rewrite (drop_alpha_tag _ _ Ht).
    change (Ascii.eqb TableHtml.nl_char TableHtml.nl_char) with true; cbv iota.
    apply string_of_list_ascii_of_string. }
  assert (Estrip1 : PyStr.strip ("```" ++ tag ++ tail) = "```" ++ tag ++ tail).
  { eapply (strip_id_ends _ "`"%char _ "`"%char
              (app (app (list_ascii_of_string ("```" ++ tag)) (TableHtml.nl_char :: app (c :: l1) [TableHtml.nl_char])) ["`"%char; "`"%char]));
      [reflexivity|reflexivity| |reflexivity].
    unfold tail; rewrite !las_app; cbn [list_ascii_of_string]; rewrite las_app, EB.
    cbn [list_ascii_of_string app]; rewrite <- !app_assoc; cbn [app].
    rewrite <- !app_assoc; cbn [app]; reflexivity. }
  assert (Estrip2 : PyStr.strip (body ++ String TableHtml.nl_char "```") =
                    body ++ String TableHtml.nl_char "```").
  { eapply (strip_id_ends _ c _ "`"%char
              (app (c :: l1) [TableHtml.nl_char; "`"%char; "`"%char])); [| exact Hc | |reflexivity].
    - rewrite las_app, EB; reflexivity.
    - rewrite las_app, EB; cbn [list_ascii_of_string]; rewrite <- app_assoc; reflexivity. }
  assert (Eclose : TableHtml.sub_close_fence (body ++ String TableHtml.nl_char "```") = body).
  { unfold TableHtml.sub_close_fence; rewrite las_app; cbn [list_ascii_of_string].
    rewrite rev_app_distr; simpl.
    rewrite rev_involutive; apply string_of_list_ascii_of_string. }
  unfold TableHtml.clean; rewrite Estrip1.
  replace (PyStr.contains ("```" ++ tag ++ tail) "```") with true by (symmetry; apply contains_prefix).
  rewrite Eopen, Estrip2, Eclose; exact Hs.
Qed.

(** Witness: an [html] block around a one-line table. *)
Lemma clean_unwraps_fence_witness :
  TableHtml.clean ("```html" ++ String TableHtml.nl_char ("<table></table>" ++ String TableHtml.nl_char "```"))
  = "<table></table>".
Proof.
  exact (clean_unwraps_fence "html" "<table></table>"
           ltac:(vm_compute; reflexivity) ltac:(vm_compute; reflexivity) ltac:(discriminate)).
Defined.

(* ------------------------------------------------------------------ *)
(** ** [ReviewHTMLVisualTool] *)

(** Once the screenshot is found, Pillow imports, the image loads and the
    provider answers, the visual review always returns a JSON document: the
    decoded payload extracted from the answer, or, when [json.loads]
    raises on it (not JSON, an integer past the digit limit, nesting past
    the recursion limit) or the decoded value cannot be serialised, the
    fallback object with the payload's first 1000 characters as its only
    suggestion and priority [medium]. *)
Theorem review_returns_json : forall room dumps_error env sp ad p path_exists resp,
  Paths.resolve_path env sp ad = Ret p ->
  path_exists p = Ret true ->
  exists payload,
    Extract.autopage_extract_json resp = Ret payload /\
    Review.execute room dumps_error (Some (Ret resp)) env sp ad path_exists true (Ret tt)
    = Ret (Review.Dumps (match PyJson.loads room payload with
                         | Ret v => match dumps_error v with
                                    | None => v
                                    | Some _ => Review.fallback payload
                                    end
                         | Raise _ => Review.fallback payload
                         end)).
Proof.
  intros room dumps_error env sp ad p path_exists resp Hp He.
  destruct (autopage_extract_json_ret resp) as [payload Hx].
  exists payload; split; [exact Hx|].
  unfold Review.execute; rewrite Hp, bind_Ret, He, bind_Ret; cbn [negb].
  rewrite bind_Ret, bind_Ret, Hx, bind_Ret.
  destruct (PyJson.loads room payload) as [v|e] eqn:El.
  - rewrite bind_Ret; unfold PyJson.dumps; destruct (dumps_error v); reflexivity.
  - rewrite bind_Raise; destruct (loads_exc room payload e El) as [c [m ->]]; reflexivity.
Qed.

(** Witness: a screenshot under [/ws] and an answer that is not JSON. *)
Lemma review_returns_json_witness :
  Review.execute Samples.room (fun _ => None) (Some (Ret "looks fine")) Samples.plain_env
    "shot.png" (Some "/ws") (fun _ => Ret true) true (Ret tt)
  = Ret (Review.Dumps (Review.fallback "looks fine")).
Proof.
  destruct (review_returns_json Samples.room (fun _ => None) Samples.plain_env "shot.png" (Some "/ws")
              "/ws/shot.png" (fun _ => Ret true) "looks fine" ltac:(vm_compute; reflexivity) eq_refl)
    as [payload [Hx He]].
  rewrite He; vm_compute in Hx; injection Hx as <-; vm_compute; reflexivity.
Defined.

(** A screenshot path that resolves outside the allowed directory is
    reported as text naming the path and the directory; the provider is
    not called, and whatever it would do does not matter. *)
Theorem review_outside_allowed : forall room dumps_error response env sp ad p1 r root
    path_exists pil image_load,
  Paths.expanduser env sp = Ret p1 ->
  Paths.resolve env p1 = Ret r ->
  Paths.resolve env ad = Ret root ->
  PyStr.startswith r root = false ->
  Review.execute room dumps_error (Some response) env sp (Some ad) path_exists pil image_load
  = Ret (Review.Text ("Error: Path " ++ sp ++ " is outside allowed directory " ++ Store.path_str ad)).
Proof.
  intros room dumps_error response env sp ad p1 r root path_exists pil image_load H1 H2 H3 H4.
  unfold Review.execute, Paths.resolve_path.
  rewrite H1, bind_Ret, H2, bind_Ret, H3, bind_Ret, H4, bind_Raise; reflexivity.
Qed.

(** Witness: [/etc/passwd] with the allowed directory [/ws]. *)
Lemma review_outside_allowed_witness :
  Review.execute Samples.room (fun _ => None) (Some (Raise (PyExc "RuntimeError" "unreachable")))
    Samples.plain_env "/etc/passwd" (Some "/ws") (fun _ => Ret true) true (Ret tt)
  = Ret (Review.Text "Error: Path /etc/passwd is outside allowed directory /ws").
Proof.
  exact (review_outside_allowed Samples.room (fun _ => None)
           (Raise (PyExc "RuntimeError" "unreachable")) Samples.plain_env
           "/etc/passwd" "/ws" "/etc/passwd" "/etc/passwd" "/ws" (fun _ => Ret true) true (Ret tt)
           ltac:(vm_compute; reflexivity) ltac:(vm_compute; reflexivity)
           ltac:(vm_compute; reflexivity) ltac:(vm_compute; reflexivity)).
Defined.

(* ------------------------------------------------------------------ *)
(** ** [GenerateImageTool]: default output paths and errors *)

Lemma split_on_cons : forall c s, exists w ws, Store.split_on c s = w :: ws.
Proof.
  intros c [|d s]; simpl; [eexists _, _; reflexivity|].
  destruct (Ascii.eqb d c); [eexists _, _; reflexivity|].
  destruct (Store.split_on c s); eexists _, _; reflexivity.
Qed.

Lemma split_on_app_sep : forall c a b,
  Store.split_on c (a ++ String c b) = app (Store.split_on c a) (Store.split_on c b).
Proof.
  intros c; induction a as [|d a IH]; intros b.
  - simpl; rewrite Ascii.eqb_refl; reflexivity.
  - cbn [String.append Store.split_on]; rewrite IH.
    destruct (Ascii.eqb d c); [reflexivity|].
    destruct (split_on_cons c a) as [w [ws ->]]; reflexivity.
Qed.

Lemma split_on_single : forall c n, ~ In c (list_ascii_of_string n) -> Store.split_on c n = [n].
Proof.
  intros c; induction n as [|d n IH]; intros H; [reflexivity|].
  cbn [Store.split_on]; simpl in H.
  destruct (Ascii.eqb d c) eqn:E; [apply Ascii.eqb_eq in E; subst; tauto|].
  rewrite IH; [reflexivity|tauto].
Qed.

Lemma path_parts_snoc : forall a n,
  ~ In "/"%char (list_ascii_of_string n) -> n <> "" -> n <> "." ->
  Store.path_parts (a ++ String "/" n) = app (Store.path_parts a) [n].
Proof.
  intros a n Hs H0 H1; unfold Store.path_parts.
  rewrite split_on_app_sep, (split_on_single _ _ Hs), filter_app; f_equal; simpl.
  destruct (String.eqb n "") eqn:E0; [apply String.eqb_eq in E0; contradiction|].
  destruct (String.eqb n ".") eqn:E1; [apply String.eqb_eq in E1; contradiction|].
  reflexivity.
Qed.

Lemma is_absolute_app_sep : forall a n,
  a <> "" -> Store.is_absolute (a ++ String "/" n) = Store.is_absolute a.
Proof.
  intros [|c a] n H; [contradiction|]; unfold Store.is_absolute, PyStr.startswith.
  cbn [String.append String.prefix]; destruct (ascii_dec "/" c); [|reflexivity].
  destruct a; reflexivity.
Qed.

Lemma path_str_nonempty : forall x, Store.path_str x <> "".
Proof.
  intros x; unfold Store.path_str.
  destruct (Store.is_absolute x); [discriminate|].
  destruct (Store.path_parts x) as [|w ws] eqn:E; [discriminate|].
  assert (Hw : w <> "").
  { intros ->; assert (Hin : In "" (Store.path_parts x)) by (rewrite E; left; reflexivity).
    unfold Store.path_parts in Hin; apply filter_In in Hin as [_ Hf]; discriminate Hf. }
  destruct ws as [|w' ws]; simpl; [exact Hw|].
  destruct w as [|c w]; [contradiction|discriminate].
Qed.

Lemma concat_snoc : forall sep ws n,
  String.concat sep (app ws [n]) =
  (match ws with [] => "" | _ => String.concat sep ws ++ sep end) ++ n.
Proof.
  intros sep; induction ws as [|w ws IH]; intros n; [reflexivity|].
  cbn [app]; destruct ws as [|w' ws]; [simpl; rewrite str_app_assoc; reflexivity|].
  change (String.concat sep (w :: app (w' :: ws) [n])) with
         (w ++ sep ++ String.concat sep (app (w' :: ws) [n])).
  rewrite IH; change (String.concat sep (w :: w' :: ws)) with (w ++ sep ++ String.concat sep (w' :: ws)).
  rewrite !str_app_assoc; reflexivity.
Qed.

Lemma str_app_inv_l : forall a x y, a ++ x = a ++ y -> x = y.
Proof. induction a as [|c a IH]; intros x y H; [exact H|injection H as H; exact (IH x y H)]. Qed.

Lemma str_app_inv_r : forall x y s, x ++ s = y ++ s -> x = y.
Proof.
  intros x y s H; apply (f_equal list_ascii_of_string) in H; rewrite !las_app in H.
  apply app_inv_tail in H.
  rewrite <- (string_of_list_ascii_of_string x), <- (string_of_list_ascii_of_string y), H.
  reflexivity.
Qed.

Lemma uint_to_string_inj : forall u v,
  GenImage.uint_to_string u = GenImage.uint_to_string v -> u = v.
Proof.
  induction u as [|u IH|u IH|u IH|u IH|u IH|u IH|u IH|u IH|u IH|u IH];
    intros [|v|v|v|v|v|v|v|v|v|v] H; simpl in H; try discriminate H; try reflexivity;
    injection H as H; f_equal; exact (IH v H).
Qed.

Lemma str_of_nat_inj : forall m n, GenImage.str_of_nat m = GenImage.str_of_nat n -> m = n.
Proof.
  intros m n H; apply uint_to_string_inj in H; exact (DecimalNat.Unsigned.to_uint_inj m n H).
Qed.

Lemma uint_to_string_no_slash : forall u,
  ~ In "/"%char (list_ascii_of_string (GenImage.uint_to_string u)).
Proof.
  induction u; simpl; intros H; try contradiction;
    destruct H as [H|H]; try discriminate H; exact (IHu H).
Qed.

Lemma default_name_ok : forall prefix c,
  ~ In "/"%char (list_ascii_of_string prefix) ->
  let n := prefix ++ "_" ++ GenImage.str_of_nat c ++ ".png" in
  ~ In "/"%char (list_ascii_of_string n) /\ n <> "" /\ n <> ".".
Proof.
  intros prefix c Hp n; subst n; split; [|split].
  - rewrite !las_app; intros H.
    apply in_app_or in H as [H|H]; [exact (Hp H)|].
    simpl in H; destruct H as [H|H]; [discriminate H|].
    apply in_app_or in H as [H|H]; [exact (uint_to_string_no_slash _ H)|].
    simpl in H; repeat (destruct H as [H|H]; [discriminate H|]); exact H.
  - destruct prefix; discriminate.
  - destruct prefix as [|a0 [|a1 p0]]; discriminate.
Qed.

Lemma path_join_snoc : forall a n,
  a <> "" -> ~ In "/"%char (list_ascii_of_string n) -> n <> "" -> n <> "." ->
  Store.path_join a n =
  (if Store.is_absolute a then "/" else "") ++
  (match Store.path_parts a with [] => "" | ws => String.concat "/" ws ++ "/" end) ++ n.
Proof.
  intros a n Ha Hs H0 H1; unfold Store.path_join.
  assert (Hn : Store.is_absolute n = false).
  { destruct n as [|c n]; [contradiction|]; unfold Store.is_absolute, PyStr.startswith;
    cbn [String.prefix].
    destruct (ascii_dec "/" c) as [<-|]; [exfalso; apply Hs; left; reflexivity|reflexivity]. }
  rewrite Hn; change ("/" ++ n) with (String "/" n); unfold Store.path_str.
  rewrite is_absolute_app_sep by exact Ha.
  rewrite (path_parts_snoc a n Hs H0 H1), concat_snoc.
  destruct (Store.path_parts a) as [|w ws]; destruct (Store.is_absolute a); reflexivity.
Qed.

(** The default output files of [GenerateImageTool] never collide: with
    no [output_path], [_resolve_path] names the file after the counter, so
    two different counter values (and [execute] increments the counter
    before each generation) give two different paths, whatever the output
    directory. *)
Theorem default_output_paths_distinct : forall env c1 c2 prefix p1 p2,
  ~ In "/"%char (list_ascii_of_string prefix) ->
  GenImage.resolve_out env c1 None prefix = Ret p1 ->
  GenImage.resolve_out env c2 None prefix = Ret p2 ->
  c1 <> c2 -> p1 <> p2.
Proof.
  intros env c1 c2 prefix p1 p2 Hp H1 H2 Hc E; apply Hc.
  unfold GenImage.resolve_out in H1, H2.
  destruct (GenImage.mkdir env (Store.path_str (GenImage.output_dir env))); [|discriminate H1].
  rewrite bind_Ret in H1, H2; injection H1 as <-; injection H2 as <-.
  destruct (default_name_ok prefix c1 Hp) as [S1 [N1 D1]].
  destruct (default_name_ok prefix c2 Hp) as [S2 [N2 D2]].
  pose proof (path_str_nonempty (GenImage.output_dir env)) as Ha.
  rewrite !(path_join_snoc _ _ Ha) in E by assumption.
  apply str_app_inv_l, str_app_inv_l, str_app_inv_l in E.
  change ("_" ++ GenImage.str_of_nat c1 ++ ".png") with (String "_" (GenImage.str_of_nat c1 ++ ".png")) in E.
  change ("_" ++ GenImage.str_of_nat c2 ++ ".png") with (String "_" (GenImage.str_of_nat c2 ++ ".png")) in E.
  injection E as E; apply str_app_inv_r in E; exact (str_of_nat_inj c1 c2 E).
Qed.

(** Witness: [outputs/diagram_1.png] and [outputs/diagram_2.png]. *)
Lemma default_output_paths_distinct_witness :
  GenImage.resolve_out Samples.gen_env_ok 1 None "diagram" = Ret "outputs/diagram_1.png" /\
  GenImage.resolve_out Samples.gen_env_ok 2 None "diagram" = Ret "outputs/diagram_2.png" /\
  "outputs/diagram_1.png" <> "outputs/diagram_2.png".
Proof.
  split; [vm_compute; reflexivity|split; [vm_compute; reflexivity|]].
  apply (default_output_paths_distinct Samples.gen_env_ok 1 2 "diagram");
    [vm_compute; intros H; repeat (destruct H as [H|H]; [discriminate H|]); exact H
    |vm_compute; reflexivity|vm_compute; reflexivity|discriminate].
Defined.

(** A failure to create the default output directory is reported
    differently by the two kinds of generation: a statistical plot
    resolves its path before its [try], so the exception propagates out of
    [execute]; a diagram resolves it inside the [try] after the image is
    generated, so the same failure is returned as text with the retry
    hint.  Either way the counter is incremented. *)
Theorem output_dir_failure_paths : forall env c st desc raw_data resp cls m,
  GenImage.vlm env = Some resp ->
  GenImage.image_gen env = Some (Ret tt) ->
  GenImage.mkdir env (Store.path_str (GenImage.output_dir env)) = Raise (PyExc cls m) ->
  GenImage.execute env c st desc "statistical_plot" raw_data None = (S c, st, Raise (PyExc cls m)) /\
  GenImage.execute env c st desc "methodology" raw_data None
  = (S c, st, Ret ("Error generating diagram: " ++ m ++ nl ++ GenImage.RETRY_HINT)).
Proof.
  intros env c st desc raw_data resp cls m Hv Hg Hm; split.
  - unfold GenImage.execute; cbn [String.eqb Ascii.eqb Bool.eqb].
    unfold GenImage.gen_plot, GenImage.resolve_out; rewrite Hv, Hm; reflexivity.
  - unfold GenImage.execute; cbn [String.eqb Ascii.eqb Bool.eqb].
    unfold GenImage.gen_diagram, GenImage.resolve_out; rewrite Hg, Hm; reflexivity.
Qed.

(** Witness: an output directory that cannot be created. *)
Lemma output_dir_failure_paths_witness :
  GenImage.execute Samples.gen_env_ro 0 Samples.empty_os "bars" "statistical_plot" None None
    = (1, Samples.empty_os, Raise (PyExc "PermissionError" "Permission denied")).
Proof.
  destruct (output_dir_failure_paths Samples.gen_env_ro 0 Samples.empty_os "bars" None
              (Ret "plt.plot()") "PermissionError" "Permission denied" eq_refl eq_refl
              ltac:(vm_compute; reflexivity)) as [H _].
  exact H.
Defined.

(* ------------------------------------------------------------------ *)
(** ** [CritiqueImageTool]: what escapes the tool *)

(** The critique tool turns every [Exception] raised inside its [try]
    blocks into a text or JSON answer, except one: a provider that raises
    [json.JSONDecodeError] reaches the handler that reads [resp] before it
    was assigned, so an [UnboundLocalError] escapes.  Besides that, what
    escapes is an exception of [Path(image_path).exists()], which runs
    before any [try] (e.g. [PermissionError], or [OSError] for a name too
    long), or an exception outside [Exception]. *)
Theorem critique_raises_only : forall room dumps_error vlm image_path image_exists image_load e,
  Critique.execute room dumps_error vlm image_path image_exists image_load = Raise e ->
  image_exists = Raise e \/
  (exists c m, e = PyBaseExc c m) \/
  (e = PyExc "UnboundLocalError"
         "cannot access local variable 'resp' where it is not associated with a value" /\
   exists m, vlm = Some (Raise (PyExc "JSONDecodeError" m))).
Proof.
  intros room dumps_error vlm image_path image_exists image_load e H; unfold Critique.execute in H.
  destruct vlm as [response|]; [|discriminate H].
  destruct image_exists as [ex|e0]; [rewrite bind_Ret in H|rewrite bind_Raise in H; injection H as <-; left; reflexivity].
  destruct ex; cbn [negb] in H; [|discriminate H].
  destruct image_load as [u|[c m|c m]]; [|discriminate H|injection H as <-; right; left; eauto].
  destruct response as [resp|[c m|c m]].
  - cbv zeta in H.
    match type of H with (match ?a with _ => _ end) = _ => destruct a as [o|[c m|c m]] end;
      [discriminate H| |injection H as <-; right; left; eauto].
    destruct (String.eqb c "JSONDecodeError"); discriminate H.
  - destruct (String.eqb c "JSONDecodeError") eqn:E; [|discriminate H].
    apply String.eqb_eq in E; subst c; injection H as <-; right; right; split; [reflexivity|eauto].
  - injection H as <-; right; left; eauto.
Qed.

(** Witness: a provider whose client raises [JSONDecodeError], and an
    image path whose existence check is refused. *)
Lemma critique_raises_only_witness :
  Critique.execute Samples.room (fun _ => None) (Some (Raise (PyExc "JSONDecodeError" "Expecting value")))
    "fig.png" (Ret true) (Ret tt)
  = Raise (PyExc "UnboundLocalError"
             "cannot access local variable 'resp' where it is not associated with a value") /\
  (exists m, Some (@Raise string (PyExc "JSONDecodeError" "Expecting value"))
             = Some (Raise (PyExc "JSONDecodeError" m))) /\
  Critique.execute Samples.room (fun _ => None) (Some (Ret "{}")) "locked/fig.png"
    (Raise (PyExc "PermissionError" "[Errno 13] Permission denied: 'locked/fig.png'")) (Ret tt)
  = Raise (PyExc "PermissionError" "[Errno 13] Permission denied: 'locked/fig.png'").
Proof.
  split; [|split].
  - vm_compute; reflexivity.
  - destruct (critique_raises_only Samples.room (fun _ => None)
                (Some (Raise (PyExc "JSONDecodeError" "Expecting value"))) "fig.png"
                (Ret true) (Ret tt)
                (PyExc "UnboundLocalError"
                   "cannot access local variable 'resp' where it is not associated with a value")
                ltac:(vm_compute; reflexivity)) as [Hx|[[c [m Hb]]|[He Hv]]];
      [discriminate Hx|discriminate Hb|exact Hv].
  - vm_compute; reflexivity.
Defined.

(** ** [ParsePaperTool._extract_figures] *)

Lemma lit_app : forall w l r, Json.lit w l = Some r -> l = app w r.
Proof.
  induction w as [|c w IH]; intros l r H; cbn [Json.lit] in H.
  - injection H as <-; reflexivity.
  - destruct l as [|d l]; [discriminate H|].
    destruct (Ascii.eqb c d) eqn:E; [|discriminate H].
    apply Ascii.eqb_eq in E; subst d; simpl; f_equal; exact (IH l r H).
Qed.

Lemma match_at_figure : forall l n,
  Figures.match_at l = Some n -> exists r, l = app (list_ascii_of_string "Figure") r.
Proof.
  intros l n H; unfold Figures.match_at in H.
  destruct (Json.lit (list_ascii_of_string "Figure") l) as [r|] eqn:E; [|discriminate H].
  exists r; exact (lit_app _ _ _ E).
Qed.

Lemma search_from_at : forall l i j n,
  Figures.search_from l i = Some (j, n) ->
  i <= j /\ Figures.match_at (skipn (j - i) l) = Some n.
Proof.
  induction l as [|c l IH]; intros i j n H; cbn [Figures.search_from] in H.
  - destruct (Figures.match_at []) as [m|] eqn:E; [|discriminate H].
    injection H as <- <-; rewrite Nat.sub_diag; split; [lia|exact E].
  - destruct (Figures.match_at (c :: l)) as [m|] eqn:E.
    + injection H as <- <-; rewrite Nat.sub_diag; split; [lia|exact E].
    + destruct (IH (S i) j n H) as [Hle Hm].
      split; [lia|].
      replace (j - i) with (S (j - S i)) by lia; exact Hm.
Qed.

Lemma substring_whole : forall s, substring 0 (String.length s) s = s.
Proof. induction s as [|c s IH]; simpl; [reflexivity|now rewrite IH]. Qed.

Lemma substring_skipn : forall s k,
  substring k (String.length s - k) s = string_of_list_ascii (skipn k (list_ascii_of_string s)).
Proof.
  induction s as [|c s IH]; intros k.
  - destruct k; reflexivity.
  - destruct k as [|k].
    + rewrite Nat.sub_0_r, substring_whole.
      symmetry; exact (string_of_list_ascii_of_string (String c s)).
    + exact (IH k).
Qed.

Lemma lstrip_app_nonspace : forall a c b,
  PyStr.is_space c = false ->
  exists s, PyStr.lstrip_list (app a (c :: b)) = app s (c :: b).
Proof.
  induction a as [|d a IH]; intros c b Hc; cbn [app PyStr.lstrip_list].
  - rewrite Hc; exists []; reflexivity.
  - destruct (PyStr.is_space d); [exact (IH c b Hc)|].
    exists (d :: a); reflexivity.
Qed.

Lemma prefix_las_app : forall p t,
  String.prefix p (string_of_list_ascii (app (list_ascii_of_string p) t)) = true.
Proof.
  induction p as [|c p IH]; intros t; cbn [list_ascii_of_string app string_of_list_ascii].
  - destruct (string_of_list_ascii t); reflexivity.
  - cbn [String.prefix]; destruct (ascii_dec c c); [exact (IH t)|contradiction].
Qed.

Lemma strip_figure_prefix : forall r,
  PyStr.startswith (PyStr.strip (string_of_list_ascii (app (list_ascii_of_string "Figure") r)))
    "Figure" = true.
Proof.
  intros r; unfold PyStr.strip; rewrite list_ascii_of_string_of_list_ascii.
  change (PyStr.lstrip_list (app (list_ascii_of_string "Figure") r))
    with (app (list_ascii_of_string "Figure") r).
  rewrite rev_app_distr.
  change (rev (list_ascii_of_string "Figure"))
    with (["e"%char; "r"%char; "u"%char; "g"%char; "i"%char; "F"%char]).
  destruct (lstrip_app_nonspace (rev r) "e"%char
              ["r"%char; "u"%char; "g"%char; "i"%char; "F"%char] eq_refl) as [s Hs].
  rewrite Hs, rev_app_distr.
  change (rev ["e"%char; "r"%char; "u"%char; "g"%char; "i"%char; "F"%char])
    with (list_ascii_of_string "Figure").
  apply prefix_las_app.
Qed.

(** The caption taken from [text[m.start():].strip()] begins with the
    matched word [Figure]. *)
Lemma search_caption : forall text start n,
  Figures.search text = Some (start, n) ->
  PyStr.startswith (PyStr.strip (substring start (String.length text - start) text)) "Figure"
  = true.
Proof.
  intros text start n H; unfold Figures.search in H.
  destruct (search_from_at _ _ _ _ H) as [_ Hm].
  rewrite Nat.sub_0_r in Hm.
  destruct (match_at_figure _ _ Hm) as [r Hr].
  rewrite substring_skipn, Hr; apply strip_figure_prefix.
Qed.

Lemma scan_blocks_inv : forall render save img_dir pn blocks blks seen figs r,
  Figures.scan_blocks render save img_dir pn blocks blks seen figs = Ret r ->
  NoDup (map Figures.figure_num figs) ->
  (forall f, In f figs -> In (Figures.figure_num f) seen) ->
  Forall (fun f => PyStr.startswith (Figures.caption f) "Figure" = true /\
                   1 <= Figures.page f <= S pn /\
                   Figures.fig_path f = Figures.fig_file img_dir (Figures.figure_num f)) figs ->
  NoDup (map Figures.figure_num (snd r)) /\
  (forall f, In f (snd r) -> In (Figures.figure_num f) (fst r)) /\
  Forall (fun f => PyStr.startswith (Figures.caption f) "Figure" = true /\
                   1 <= Figures.page f <= S pn /\
                   Figures.fig_path f = Figures.fig_file img_dir (Figures.figure_num f)) (snd r).
Proof.
  intros render save img_dir pn blocks blks; induction blks as [|blk rest IH];
    intros seen figs r H Hnd Hseen Hall; cbn [Figures.scan_blocks] in H.
  - injection H as <-; auto.
  - destruct (negb (Z.eqb (Figures.btype blk) 0)); [exact (IH _ _ _ H Hnd Hseen Hall)|].
    destruct (Figures.search (Figures.block_text blk)) as [[start n]|] eqn:Es;
      [|exact (IH _ _ _ H Hnd Hseen Hall)].
    destruct (existsb (Z.eqb n) seen) eqn:Ex; [exact (IH _ _ _ H Hnd Hseen Hall)|].
    destruct (render pn blocks blk) as [wh|e]; cbn [py_bind] in H; [|discriminate H].
    destruct (save (Figures.fig_file img_dir n)) as [u|e]; cbn [py_bind] in H; [|discriminate H].
    apply (IH _ _ _ H).
    + rewrite map_app; cbn [map].
      apply NoDup_app; [exact Hnd|constructor; [intros []|constructor]|].
      intros x Hx [Hy|[]]; subst x.
      apply in_map_iff in Hx as [f [Hf Hin]].
      apply Hseen in Hin; rewrite Hf in Hin.
      assert (Hn : existsb (Z.eqb n) seen = true)
        by (apply existsb_exists; exists n; split; [exact Hin|apply Z.eqb_refl]).
      congruence.
    + intros f Hf; apply in_app_or in Hf as [Hf|[Hf|[]]].
      * right; exact (Hseen f Hf).
      * subst f; left; reflexivity.
    + apply Forall_app; split; [exact Hall|].
      constructor; [|constructor]; cbn.
      split; [exact (search_caption _ _ _ Es)|split; [lia|reflexivity]].
Qed.

Lemma scan_pages_inv : forall render save img_dir pages pn seen figs out,
  Figures.scan_pages render save img_dir pages pn seen figs = Ret out ->
  NoDup (map Figures.figure_num figs) ->
  (forall f, In f figs -> In (Figures.figure_num f) seen) ->
  Forall (fun f => PyStr.startswith (Figures.caption f) "Figure" = true /\
                   1 <= Figures.page f <= pn /\
                   Figures.fig_path f = Figures.fig_file img_dir (Figures.figure_num f)) figs ->
  NoDup (map Figures.figure_num out) /\
  Forall (fun f => PyStr.startswith (Figures.caption f) "Figure" = true /\
                   1 <= Figures.page f <= pn + length pages /\
                   Figures.fig_path f = Figures.fig_file img_dir (Figures.figure_num f)) out.
Proof.
  intros render save img_dir; induction pages as [|blocks rest IH];
    intros pn seen figs out H Hnd Hseen Hall; cbn [Figures.scan_pages] in H.
  - injection H as <-; split; [exact Hnd|].
    eapply Forall_impl; [|exact Hall]; cbn; intros f (? & ? & ?); repeat split; auto; lia.
  - destruct (Figures.scan_blocks render save img_dir pn blocks blocks seen figs) as [r|e] eqn:E;
      cbn [py_bind] in H; [|discriminate H].
    destruct (scan_blocks_inv _ _ _ _ _ _ _ _ _ E Hnd Hseen) as (Hnd' & Hseen' & Hall').
    { eapply Forall_impl; [|exact Hall]; cbn; intros f (? & ? & ?); repeat split; auto; lia. }
    destruct (IH _ _ _ _ H Hnd' Hseen' Hall') as [Hnd'' Hall''].
    split; [exact Hnd''|].
    eapply Forall_impl; [|exact Hall'']; cbn; intros f (? & ? & ?); repeat split; auto; lia.
Qed.

Lemma insert_by_num_perm : forall x l, Permutation (x :: l) (Figures.insert_by_num x l).
Proof.
  intros x; induction l as [|y l IH]; cbn [Figures.insert_by_num]; [reflexivity|].
  destruct (Z.ltb (Figures.figure_num x) (Figures.figure_num y)); [reflexivity|].
  rewrite perm_swap; constructor; exact IH.
Qed.

Lemma sort_by_num_perm_acc : forall l acc,
  Permutation (app acc l) (fold_left (fun acc x => Figures.insert_by_num x acc) l acc).
Proof.
  induction l as [|x l IH]; intros acc; cbn [fold_left].
  - rewrite app_nil_r; reflexivity.
  - rewrite <- IH, <- insert_by_num_perm; symmetry; apply Permutation_middle.
Qed.

Lemma insert_by_num_sorted : forall x l,
  Sorted (fun a b => (Figures.figure_num a < Figures.figure_num b)%Z) l ->
  ~ In (Figures.figure_num x) (map Figures.figure_num l) ->
  Sorted (fun a b => (Figures.figure_num a < Figures.figure_num b)%Z) (Figures.insert_by_num x l).
Proof.
  intros x; induction l as [|y l IH]; intros Hs Hn; cbn [Figures.insert_by_num].
  - repeat constructor.
  - destruct (Z.ltb (Figures.figure_num x) (Figures.figure_num y)) eqn:E.
    + apply Z.ltb_lt in E; constructor; [exact Hs|constructor; exact E].
    + apply Z.ltb_ge in E.
      assert (Hne : Figures.figure_num x <> Figures.figure_num y) by (intros Heq; apply Hn; left; auto).
      apply Sorted_inv in Hs as [Hs Hh].
      constructor; [apply IH; [exact Hs|intros Hi; apply Hn; right; exact Hi]|].
      destruct l as [|z l]; cbn [Figures.insert_by_num].
      * constructor; lia.
      * destruct (Z.ltb (Figures.figure_num x) (Figures.figure_num z)); constructor; [lia|].
        inversion Hh; assumption.
Qed.

Lemma sort_by_num_sorted_acc : forall l acc,
  Sorted (fun a b => (Figures.figure_num a < Figures.figure_num b)%Z) acc ->
  NoDup (map Figures.figure_num (app acc l)) ->
  Sorted (fun a b => (Figures.figure_num a < Figures.figure_num b)%Z)
    (fold_left (fun acc x => Figures.insert_by_num x acc) l acc).
Proof.
  induction l as [|x l IH]; intros acc Hs Hnd; cbn [fold_left]; [exact Hs|].
  apply IH.
  - apply insert_by_num_sorted; [exact Hs|].
    intros Hi; rewrite map_app in Hnd; cbn [map] in Hnd.
    apply NoDup_remove_2 in Hnd; apply Hnd, in_or_app; left; exact Hi.
  - eapply Permutation_NoDup; [|exact Hnd].
    apply Permutation_map.
    rewrite <- insert_by_num_perm; cbn [app]; symmetry; apply Permutation_middle.
Qed.

(** [_extract_figures] lists each figure number at most once and in
    strictly increasing order; every caption begins with [Figure], every
    page number lies between 1 and the number of pages, and every entry's
    [path] is [img_dir/figure_<num>.png]. *)
Theorem extract_figures_sorted : forall render save img_dir pages figs,
  Figures.extract_figures render save img_dir pages = Ret figs ->
  StronglySorted (fun a b => (Figures.figure_num a < Figures.figure_num b)%Z) figs /\
  Forall (fun f => PyStr.startswith (Figures.caption f) "Figure" = true /\
                   1 <= Figures.page f <= length pages /\
                   Figures.fig_path f = Figures.fig_file img_dir (Figures.figure_num f)) figs.
Proof.
  intros render save img_dir pages figs H; unfold Figures.extract_figures in H.
  destruct (Figures.scan_pages render save img_dir pages 0 [] []) as [out|e] eqn:E;
    cbn [py_bind] in H; [|discriminate H].
  injection H as <-.
  destruct (scan_pages_inv _ _ _ _ _ _ _ _ E (NoDup_nil _) (fun f (Hf : In f []) => match Hf with end)
              (Forall_nil _)) as [Hnd Hall].
  split.
  - apply Sorted_StronglySorted; [intros a b c; lia|].
    apply sort_by_num_sorted_acc; [constructor|exact Hnd].
  - apply (Forall_perm _ _ out); [symmetry; exact (sort_by_num_perm_acc out [])|exact Hall].
Qed.

(** Witness: the two-page sample document, read into figures 1, 2 and 12. *)
Lemma extract_figures_sorted_witness :
  map Figures.figure_num
    (match Figures.extract_figures (fun _ _ _ => Ret (600, 400)%Z) (fun _ => Ret tt) "paper/images"
             Samples.fig_pages with Ret l => l | Raise _ => [] end) = [1; 2; 12]%Z /\
  exists figs,
    Figures.extract_figures (fun _ _ _ => Ret (600, 400)%Z) (fun _ => Ret tt) "paper/images"
      Samples.fig_pages = Ret figs /\
    StronglySorted (fun a b => (Figures.figure_num a < Figures.figure_num b)%Z) figs.
Proof.
  split; [vm_compute; reflexivity|].
  exists (match Figures.extract_figures (fun _ _ _ => Ret (600, 400)%Z) (fun _ => Ret tt)
                  "paper/images" Samples.fig_pages with Ret l => l | Raise _ => [] end).
  split; [vm_compute; reflexivity|].
  refine (proj1 (extract_figures_sorted (fun _ _ _ => Ret (600, 400)%Z) (fun _ => Ret tt)
                  "paper/images" Samples.fig_pages _ _)); vm_compute; reflexivity.
Defined.
